(** * mcp-image-generators: a shallow embedding and its checked properties

    The development follows the Python sources file by file:

    - [registery.py]            the process-wide generator registry;
    - [main.py]                 option construction, capability probing and
                                the [image-list] tool;
    - [utils/utils.py]          literal introspection and nearest aspect ratio;
    - [utils/s3.py]             the copy of a generated asset to object storage;
    - [imagen/flux.py]          the asynchronous Flux backend and its poller;
    - [imagen/runpod_nanobanana.py]  the synchronous NanoBanana edit backend.

    Python dictionaries keep insertion order, so they are association lists
    updated in place ([dict_set]); [os.environ] and the object heap, where
    order plays no role, are [gmap]s.  Floating point follows the IEEE 754
    binary64 specification of the Standard Library ([SpecFloat]).  Network,
    storage, randomness and the clock are oracles of a [World] that every
    effectful function threads through a small state-and-exception monad. *)

From Stdlib Require Import ZArith List Bool Lia QArith Qabs Ascii String.
From Stdlib Require Import SpecFloat Decimal DecimalString DecimalPos DecimalZ.
From stdpp Require Import base option list strings gmap.

Open Scope string_scope.
Open Scope list_scope.

(* ================================================================== *)
(** * Python values and exceptions                                     *)
(* ================================================================== *)

(** JSON-like values: what a tool payload, a response body and an option
    attribute can hold.  [VImage] is a decoded [PIL.Image] (only its pixel
    size is ever read). *)
#[local] Set Warnings "-register-all".

Inductive pyval : Type :=
| VNone
| VBool (b : bool)
| VInt (z : Z)
| VStr (s : string)
| VList (l : list pyval)
| VDict (d : list (string * pyval))
| VImage (w h : Z).

(** The ways a keyword call can fail to bind its arguments. *)
Inductive type_error : Type :=
| UnexpectedKeyword (k : string)
| MultipleValues (k : string)
| MissingArguments (names : list string)
| NotSubscriptable.

Inductive exn : Type :=
| ImageGenerationError (msg : string)
| ValueError (msg : string)
| RuntimeError (msg : string)
| TypeError (t : type_error)
| AttributeError (name : string)
| KeyError (k : string)
| IndexError
| ZeroDivisionError
| OverflowError
| RequestException (url : string)
| JSONDecodeError
| UnidentifiedImageError
| HTTPError (code : Z).

Inductive result (A : Type) : Type :=
| Ok (a : A)
| Raise (e : exn).
Arguments Ok {A} a.
Arguments Raise {A} e.

Definition rbind {A B} (r : result A) (k : A -> result B) : result B :=
  match r with
  | Ok a => k a
  | Raise e => Raise e
  end.

(* ================================================================== *)
(** * Python dictionaries (insertion ordered)                          *)
(* ================================================================== *)

Definition pydict (V : Type) : Type := list (string * V).

Fixpoint dict_get {V} (k : string) (d : pydict V) : option V :=
  match d with
  | [] => None
  | (k', v) :: d' => if String.eqb k k' then Some v else dict_get k d'
  end.

(** [d[k] = v]: an existing key keeps its position, a new key goes last. *)
Fixpoint dict_set {V} (k : string) (v : V) (d : pydict V) : pydict V :=
  match d with
  | [] => [(k, v)]
  | (k', v') :: d' =>
      if String.eqb k k' then (k, v) :: d' else (k', v') :: dict_set k v d'
  end.

Definition dict_keys {V} (d : pydict V) : list string := map fst d.

Definition dict_has {V} (k : string) (d : pydict V) : bool :=
  match dict_get k d with Some _ => true | None => false end.

(** [{**d1, **d2}] and [dict(d)]: the items are inserted one by one. *)
Definition dict_update {V} (d1 d2 : pydict V) : pydict V :=
  fold_left (fun acc kv => dict_set (fst kv) (snd kv) acc) d2 d1.

Definition dict_copy {V} (d : pydict V) : pydict V := dict_update [] d.

Definition mem_string (s : string) (l : list string) : bool :=
  existsb (String.eqb s) l.

(* ================================================================== *)
(** * imagen/abstract.py and registery.py                              *)
(* ================================================================== *)

(** A class object, as far as the dispatcher looks at it: its module and
    name, and the names bound in its own body ([cls.__dict__]). *)
Record pyclass : Type := {
  cls_module : string;
  cls_name : string;
  cls_dict : list string
}.

Module Registery.

(** [REGISTERED_GENERATORS] *)
Definition registry : Type := pydict pyclass.

Definition REGISTERED_GENERATORS_init : registry := [].

(** [register(cls)] *)
Definition register (cls : pyclass) (r : registry) : registry :=
  dict_set (cls_name cls) cls r.

(** [register_generator(name)(cls)] *)
Definition register_generator (name : string) (cls : pyclass)
    (r : registry) : registry :=
  dict_set name cls r.

(** The registry has no other operation; a startup is a sequence of
    decorator applications. *)
Inductive reg_call : Type :=
| CallRegister (cls : pyclass)
| CallRegisterGenerator (name : string) (cls : pyclass).

Definition call_name (c : reg_call) : string :=
  match c with
  | CallRegister cls => cls_name cls
  | CallRegisterGenerator name _ => name
  end.

Definition call_class (c : reg_call) : pyclass :=
  match c with
  | CallRegister cls => cls
  | CallRegisterGenerator _ cls => cls
  end.

Definition run_call (c : reg_call) (r : registry) : registry :=
  match c with
  | CallRegister cls => register cls r
  | CallRegisterGenerator name cls => register_generator name cls r
  end.

Definition run_calls (cs : list reg_call) (r : registry) : registry :=
  fold_left (fun acc c => run_call c acc) cs r.

(** Names in the order of their first occurrence. *)
Fixpoint first_seen (seen names : list string) : list string :=
  match names with
  | [] => []
  | n :: ns =>
      if mem_string n seen then first_seen seen ns
      else n :: first_seen (seen ++ [n]) ns
  end.

(** The class of the last call made under [name]. *)
Fixpoint last_registered (name : string) (cs : list reg_call)
    : option pyclass :=
  match cs with
  | [] => None
  | c :: cs' =>
      match last_registered name cs' with
      | Some cls => Some cls
      | None => if String.eqb name (call_name c) then Some (call_class c)
                else None
      end
  end.

End Registery.

(* ================================================================== *)
(** * main.py                                                          *)
(* ================================================================== *)

Module Main.

(** [_is_overridden] *)
Definition _is_overridden (cls : pyclass) (method_name : string) : bool :=
  mem_string method_name (cls_dict cls).

(** A [dataclasses.Field].  [f_type] is the text of [f.type]: the
    modules that declare options postpone their annotations, so [f.type]
    is the annotation as the compiler writes it back.  [default] and
    [default_factory] are [None] here when they are [MISSING] there.  The
    code calls a factory anew whenever it wants a default, and a record
    describes the field at one such moment: [Some v] says that the field
    has a factory and that the call made at this moment returns [v].  A
    later moment is another record, with the value its own call
    returns. *)
Record Field : Type := {
  f_name : string;
  f_type : string;
  f_default : option pyval;
  f_default_factory : option pyval
}.

(** A parameter of [inspect.signature(t.__init__)]. *)
Record Param : Type := {
  p_name : string;
  p_default : option pyval
}.

(** An options type is a dataclass (with its fields) or any other class
    (with the signature of its [__init__], [self] included);
    [is_dataclass] is the case analysis on the two. *)
Inductive options_type : Type :=
| Dataclass (fs : list Field)
| PlainClass (params : list Param).

Definition field_default (f : Field) : option pyval :=
  match f_default f with
  | Some v => Some v
  | None => f_default_factory f
  end.

(** [_defaults_from_dataclass] *)
Definition _defaults_from_dataclass (fs : list Field) : pydict pyval :=
  fold_left
    (fun out f =>
       match f_default f with
       | Some v => dict_set (f_name f) v out
       | None =>
           match f_default_factory f with
           | Some v => dict_set (f_name f) v out
           | None => out
           end
       end)
    fs [].

(** [_defaults_from_init_signature] *)
Definition _defaults_from_init_signature (ps : list Param) : pydict pyval :=
  fold_left
    (fun out p =>
       if String.eqb (p_name p) "self" then out
       else match p_default p with
            | Some v => dict_set (p_name p) v out
            | None => out
            end)
    ps [].

(** The [__init__] a dataclass generates: [self], then one parameter per
    field, with a default exactly when the field has one. *)
Definition dataclass_init (fs : list Field) : list Param :=
  {| p_name := "self"; p_default := None |}
  :: map (fun f => {| p_name := f_name f; p_default := field_default f |}) fs.

Definition init_signature (t : options_type) : list Param :=
  match t with
  | Dataclass fs => dataclass_init fs
  | PlainClass ps => ps
  end.

(** Parameters a caller can pass by keyword: all but the first, which
    the instance occupies. *)
Definition keyword_params (sig : list Param) : list Param := tl sig.

Definition bound_first (sig : list Param) : list string :=
  match sig with [] => [] | p :: _ => [p_name p] end.

(** The first keyword that matches no parameter, or repeats the one the
    instance is bound to.  CPython binds the keywords before it looks
    for missing arguments, so this error comes first. *)
Fixpoint bad_keyword (sig : list Param) (kwargs : pydict pyval)
    : option type_error :=
  match kwargs with
  | [] => None
  | (k, _) :: rest =>
      if mem_string k (bound_first sig) then Some (MultipleValues k)
      else if mem_string k (map p_name (keyword_params sig))
           then bad_keyword sig rest
           else Some (UnexpectedKeyword k)
  end.

(** Parameters with neither a keyword nor a default, in declaration
    order. *)
Definition missing_arguments (sig : list Param) (kwargs : pydict pyval)
    : list string :=
  map p_name
    (List.filter (fun p => negb (dict_has (p_name p) kwargs)
                      && match p_default p with None => true | Some _ => false end)
            (keyword_params sig)).

(** The instance: one attribute per parameter, the keyword's value or
    the parameter's default. *)
Definition bind_arguments (sig : list Param) (kwargs : pydict pyval)
    : pydict pyval :=
  flat_map
    (fun p =>
       match dict_get (p_name p) kwargs with
       | Some v => [(p_name p, v)]
       | None =>
           match p_default p with
           | Some v => [(p_name p, v)]
           | None => []
           end
       end)
    (keyword_params sig).

(** The call of [options_type] with the keywords [kwargs]. *)
Definition construct (t : options_type) (kwargs : pydict pyval)
    : result (pydict pyval) :=
  let sig := init_signature t in
  match bad_keyword sig kwargs with
  | Some err => Raise (TypeError err)
  | None =>
      match missing_arguments sig kwargs with
      | [] => Ok (bind_arguments sig kwargs)
      | names => Raise (TypeError (MissingArguments names))
      end
  end.

(** [_build_options_object] *)
Definition _build_options_object (options_type_ : options_type)
    (payload : pydict pyval) : result (pydict pyval) :=
  match options_type_ with
  | Dataclass fs =>
      let defaults := _defaults_from_dataclass fs in
      let merged := dict_update defaults payload in
      construct options_type_ merged
  | PlainClass ps =>
      let defaults := _defaults_from_init_signature ps in
      let merged := dict_update defaults payload in
      construct options_type_ merged
  end.

(** The declared fields of an options type, with their defaults. *)
Definition declared_fields (t : options_type) : list Param :=
  keyword_params (init_signature t).

Definition field_names (t : options_type) : list string :=
  map p_name (declared_fields t).

Definition declared_default (t : options_type) (name : string)
    : option pyval :=
  match dict_get name
          (map (fun p => (p_name p, p_default p)) (declared_fields t)) with
  | Some d => d
  | None => None
  end.

Definition all_have_default (t : options_type) : bool :=
  forallb (fun p => match p_default p with Some _ => true | None => false end)
          (declared_fields t).

Fixpoint nodup_strings (l : list string) : bool :=
  match l with
  | [] => true
  | x :: l' => negb (mem_string x l') && nodup_strings l'
  end.

(** What Python guarantees of an options type: the parameters of
    [__init__] have distinct names and the first one is [self]. *)
Definition well_formed (t : options_type) : bool :=
  nodup_strings (map p_name (init_signature t))
  && match init_signature t with
     | p :: _ => String.eqb (p_name p) "self"
     | [] => false
     end.

(** The defaults and the merge [_build_options_object] computes. *)
Definition defaults (t : options_type) : pydict pyval :=
  match t with
  | Dataclass fs => _defaults_from_dataclass fs
  | PlainClass ps => _defaults_from_init_signature ps
  end.

Definition merged (t : options_type) (payload : pydict pyval)
    : pydict pyval :=
  dict_update (defaults t) payload.

(** The fields without a default that the merge of defaults and payload
    lacks, in declaration order. *)
Definition absent_required (t : options_type) (payload : pydict pyval)
    : list string :=
  map p_name
    (List.filter
       (fun p => negb (dict_has (p_name p) (merged t payload))
                 && match p_default p with None => true | Some _ => false end)
       (declared_fields t)).

(** An entry of the [image-list] tool. *)
Record list_entry : Type := {
  le_class : string;
  le_generate : bool;
  le_edit : bool
}.

(** [list_generators], over the [generators] snapshot of [build_mcp]. *)
Definition list_generators (generators : pydict pyclass)
    : pydict list_entry :=
  fold_left
    (fun out item =>
       let cls := snd item in
       dict_set (fst item)
         {| le_class := cls_module cls +:+ "." +:+ cls_name cls;
            le_generate := _is_overridden cls "generate_image";
            le_edit := _is_overridden cls "edit_image" |}
         out)
    generators [].

(** [generators = dict(registery.REGISTERED_GENERATORS)] followed by the
    tool call. *)
Definition image_list (r : Registery.registry) : pydict list_entry :=
  list_generators (dict_copy r).

(** [s.replace(old, new)] for a non-empty [old]: the occurrences are
    taken from the left and do not overlap.  [skip] counts the characters
    of a matched occurrence still to be passed over. *)
Fixpoint replace_from (old new : string) (skip : nat) (s : string) : string :=
  match s with
  | EmptyString => EmptyString
  | String c s' =>
      match skip with
      | S k => replace_from old new k s'
      | O =>
          if String.prefix old s
          then new +:+ replace_from old new (String.length old - 1) s'
          else String c (replace_from old new O s')
      end
  end.

Definition str_replace (old new s : string) : string :=
  replace_from old new 0 s.

(** [_type_to_str], on the text [str(t)] of a type. *)
Definition _type_to_str (t : string) : string := str_replace "typing." "" t.

(** One property of a schema, and the schema [_options_schema] returns. *)
Record schema_entry : Type := {
  se_type : string;
  se_default : pyval
}.

Record schema : Type := {
  sc_type : string;
  sc_properties : pydict schema_entry;
  sc_required : list string
}.

(** The body of the loop over [fields(options_type)]. *)
Definition schema_field (acc : pydict schema_entry * list string) (f : Field)
    : pydict schema_entry * list string :=
  let t := _type_to_str (f_type f) in
  let has_default :=
    match f_default f, f_default_factory f with
    | None, None => false
    | _, _ => true
    end in
  let default :=
    match f_default f with
    | Some v => v
    | None =>
        match f_default_factory f with
        | Some v => v
        | None => VNone
        end
    end in
  (dict_set (f_name f) {| se_type := t; se_default := default |} (fst acc),
   if has_default then snd acc else snd acc ++ [f_name f]).

(** The body of the loop over [sig.parameters.items()]; [ann] is
    [options_type.__init__.__annotations__], each annotation as [str]
    renders it. *)
Definition schema_param (ann : pydict string)
    (acc : pydict schema_entry * list string) (p : Param)
    : pydict schema_entry * list string :=
  if String.eqb (p_name p) "self" then acc
  else
    let t := _type_to_str
               (match dict_get (p_name p) ann with
                | Some a => a
                | None => "typing.Any"
                end) in
    match p_default p with
    | Some v =>
        (dict_set (p_name p) {| se_type := t; se_default := v |} (fst acc),
         snd acc)
    | None =>
        (dict_set (p_name p) {| se_type := t; se_default := VNone |} (fst acc),
         snd acc ++ [p_name p])
    end.

(** [_options_schema] *)
Definition _options_schema (options_type_ : options_type)
    (ann : pydict string) : schema :=
  match options_type_ with
  | Dataclass fs =>
      let '(props, required) := fold_left schema_field fs ([], []) in
      {| sc_type := "object"; sc_properties := props; sc_required := required |}
  | PlainClass ps =>
      let '(props, required) := fold_left (schema_param ann) ps ([], []) in
      {| sc_type := "object"; sc_properties := props; sc_required := required |}
  end.

(** The tools [build_mcp] registers, by what they are; [tool_name] is the
    name each one is registered under. *)
Inductive tool : Type :=
| ToolList
| ToolReadme (gen_name : string)
| ToolGenerateSchema (gen_name : string)
| ToolGenerate (gen_name : string)
| ToolEditSchema (gen_name : string)
| ToolEdit (gen_name : string).

Definition tool_name (t : tool) : string :=
  match t with
  | ToolList => "image-list"
  | ToolReadme n => "image-" +:+ n +:+ "-readme"
  | ToolGenerateSchema n => "image-" +:+ n +:+ "-generate_schema"
  | ToolGenerate n => "image-" +:+ n +:+ "-generate"
  | ToolEditSchema n => "image-" +:+ n +:+ "-edit_schema"
  | ToolEdit n => "image-" +:+ n +:+ "-edit"
  end.

(** The registrations at the end of the loop body of [build_mcp], for one
    generator. *)
Definition tools_of_generator (gen_name : string) (gen_cls : pyclass)
    : list tool :=
  [ToolReadme gen_name]
  ++ (if _is_overridden gen_cls "generate_image"
      then [ToolGenerateSchema gen_name; ToolGenerate gen_name] else [])
  ++ (if _is_overridden gen_cls "edit_image"
      then [ToolEditSchema gen_name; ToolEdit gen_name] else []).

(** The tools of [build_mcp], in the order of their registration, when
    every configuration and generator could be instantiated. *)
Definition build_mcp_tools (r : Registery.registry) : list tool :=
  ToolList
  :: flat_map (fun item => tools_of_generator (fst item) (snd item))
       (dict_copy r).

End Main.

(* ================================================================== *)
(** * utils/utils.py                                                   *)
(* ================================================================== *)

Module Utils.

(** ** Type hints, as [get_type_hints] resolves them *)

Inductive annotation : Type :=
| TLiteral (values : list string)
| TNoneType
| TUnion (parts : list annotation)
| TGeneric (origin : string) (args : list annotation)
| TPlain (name : string).

(** [typing.get_origin] *)
Inductive origin : Type :=
| OriginNone
| OriginLiteral
| OriginUnion
| OriginClass (name : string).

Definition get_origin (ann : annotation) : origin :=
  match ann with
  | TLiteral _ => OriginLiteral
  | TUnion _ => OriginUnion
  | TGeneric o _ => OriginClass o
  | TNoneType | TPlain _ => OriginNone
  end.

(** [get_literal_values]; [hints] is [get_type_hints(cls)]. *)
Definition get_literal_values (hints : pydict annotation)
    (field_name : string) : result (list string) :=
  match dict_get field_name hints with
  | None => Raise (KeyError field_name)
  | Some ann =>
      match get_origin ann with
      | OriginNone => Ok []
      | OriginClass o =>
          (* list, dict, tuple, set and every other generic alias *)
          Ok []
      | OriginUnion =>
          match ann with
          | TUnion parts =>
              Ok (flat_map
                    (fun part =>
                       match part with
                       | TNoneType => []
                       | TLiteral vs => vs
                       | _ => []
                       end)
                    parts)
          | _ => Ok []
          end
      | OriginLiteral =>
          match ann with
          | TLiteral vs => Ok vs
          | _ => Ok []
          end
      end
  end.

(** ** Strings

    A [string] stands for a Python [str] by its code points, one [ascii]
    for each code point: the strings of the model are the [str] values
    whose code points are all below 256, and the character of code 160
    is the no-break space U+00A0 itself (not a byte of its UTF-8
    encoding). *)

(** [c.isspace()]: the white space [str.strip] removes.  Below 256 these
    are the code points 9 to 13, 28 to 32, 133 (U+0085) and 160
    (U+00A0). *)
Definition is_space (c : ascii) : bool :=
  let n := nat_of_ascii c in
  ((9 <=? n)%nat && (n <=? 13)%nat) || ((28 <=? n)%nat && (n <=? 32)%nat)
  || (n =? 133)%nat || (n =? 160)%nat.

(** The white space [int] skips around a number.  [int] keeps the
    characters below 127 as they are and turns a white space above (133,
    160) into a blank; it then skips the white space of C, the codes 9 to
    13 and 32.  The separators 28 to 31 are thus white space for
    [str.strip] and not for [int]. *)
Definition int_space (c : ascii) : bool :=
  let n := nat_of_ascii c in
  ((9 <=? n)%nat && (n <=? 13)%nat) || (n =? 32)%nat
  || (n =? 133)%nat || (n =? 160)%nat.

Section Trim.
Variable space : ascii -> bool.

Fixpoint drop_leading (s : string) : string :=
  match s with
  | String c s' => if space c then drop_leading s' else s
  | EmptyString => EmptyString
  end.

Fixpoint all_of (s : string) : bool :=
  match s with
  | String c s' => space c && all_of s'
  | EmptyString => true
  end.

Fixpoint drop_trailing (s : string) : string :=
  match s with
  | String c s' =>
      if all_of s then EmptyString else String c (drop_trailing s')
  | EmptyString => EmptyString
  end.
End Trim.

(** [s.lstrip()], [s.rstrip()] and [s.strip()]; [all_space s] tells that
    nothing but white space is in [s]. *)
Definition lstrip (s : string) : string := drop_leading is_space s.
Definition all_space (s : string) : bool := all_of is_space s.
Definition rstrip (s : string) : string := drop_trailing is_space s.
Definition strip (s : string) : string := rstrip (lstrip s).

(** The text [int] parses: what is left between the white space it
    skips. *)
Definition int_strip (s : string) : string :=
  drop_trailing int_space (drop_leading int_space s).

(** [s.split(sep)] for a one-character separator: the pieces between
    the separators, empty pieces kept. *)
Fixpoint split_on (sep : ascii) (s : string) : list string :=
  match s with
  | EmptyString => [EmptyString]
  | String c s' =>
      if Ascii.eqb c sep then EmptyString :: split_on sep s'
      else match split_on sep s' with
           | piece :: pieces => String c piece :: pieces
           | [] => [String c EmptyString]
           end
  end.

Definition digit_of (c : ascii) : option Z :=
  let n := nat_of_ascii c in
  if ((48 <=? n)%nat && (n <=? 57)%nat) then Some (Z.of_nat n - 48)%Z else None.

(** Decimal digits, a single underscore allowed between two digits.
    [prev] tells whether the previous character was a digit. *)
Fixpoint digits_value (acc : Z) (prev : bool) (s : string) : option Z :=
  match s with
  | EmptyString => if prev then Some acc else None
  | String c s' =>
      match digit_of c with
      | Some d => digits_value (10 * acc + d)%Z true s'
      | None =>
          if Ascii.eqb c "_"%char && prev then
            match s' with
            | String c' _ =>
                match digit_of c' with
                | Some _ => digits_value acc false s'
                | None => None
                end
            | EmptyString => None
            end
          else None
      end
  end.

(** [repr(s)] on a string.  The quote is the apostrophe, or the double
    quote when the string holds an apostrophe and no double quote; the
    quote and the backslash are escaped, and so is every character that
    is not printable (below 256 the printable ones are 32 to 126 and 161
    to 255 but 173). *)
Definition double_quote : ascii := ascii_of_nat 34.

Fixpoint string_has (c : ascii) (s : string) : bool :=
  match s with
  | String c' s' => Ascii.eqb c c' || string_has c s'
  | EmptyString => false
  end.

Definition hex_digit (n : nat) : ascii :=
  ascii_of_nat (if (n <? 10)%nat then 48 + n else 87 + n).

Definition printable (c : ascii) : bool :=
  let n := nat_of_ascii c in
  ((32 <=? n)%nat && (n <=? 126)%nat)
  || ((161 <=? n)%nat && negb (n =? 173)%nat).

Definition repr_char (quote c : ascii) : string :=
  let n := nat_of_ascii c in
  if Ascii.eqb c quote || Ascii.eqb c "\"%char then String "\" (String c "")
  else if (n =? 9)%nat then "\t"
  else if (n =? 10)%nat then "\n"
  else if (n =? 13)%nat then "\r"
  else if printable c then String c ""
  else String "\" (String "x" (String (hex_digit (n / 16))
                                (String (hex_digit (n mod 16)) ""))).

Fixpoint repr_chars (quote : ascii) (s : string) : string :=
  match s with
  | String c s' => repr_char quote c +:+ repr_chars quote s'
  | EmptyString => String quote ""
  end.

Definition py_repr (s : string) : string :=
  let quote :=
    if string_has "'" s && negb (string_has double_quote s)
    then double_quote else "'"%char in
  String quote (repr_chars quote s).

(** [str(n)] on a natural number. *)
Definition nat_text (n : nat) : string := NilZero.string_of_uint (Nat.to_uint n).

(** The interpreter converts no more than [max_str_digits] decimal
    digits between [str] and [int], 4300 unless
    [sys.set_int_max_str_digits] says otherwise. *)
Definition max_str_digits : nat := 4300.

Fixpoint count_digits (s : string) : nat :=
  match s with
  | String c s' =>
      match digit_of c with
      | Some _ => S (count_digits s')
      | None => count_digits s'
      end
  | EmptyString => O
  end.

(** The digits and underscores a text starts with, and what follows. *)
Fixpoint numeral_span (s : string) : string * string :=
  match s with
  | String c s' =>
      match digit_of c, Ascii.eqb c "_"%char with
      | None, false => (EmptyString, s)
      | _, _ => let '(numeral, rest) := numeral_span s' in (String c numeral, rest)
      end
  | EmptyString => (EmptyString, EmptyString)
  end.

(** The two errors of [int(s)]; the first shows at most 200 characters
    of [repr(s)]. *)
Definition invalid_literal (s : string) : exn :=
  ValueError ("invalid literal for int() with base 10: "
              +:+ String.substring 0 200 (py_repr s)).

Definition too_many_digits (digits : nat) : exn :=
  ValueError ("Exceeds the limit (" +:+ nat_text max_str_digits
              +:+ " digits) for integer string conversion: value has "
              +:+ nat_text digits
              +:+ " digits; use sys.set_int_max_str_digits() to increase the limit").

(** [int(s)]: the white space [int] skips, an optional sign, then
    decimal digits.  (No character from 128 to 255 is a decimal digit.)
    The numeral is scanned first, then its digits are counted against
    the limit, and only then is what follows the numeral looked at. *)
Definition py_int (s : string) : result Z :=
  let body := int_strip s in
  let '(negative, unsigned) :=
    match body with
    | String "-"%char rest => (true, rest)
    | String "+"%char rest => (false, rest)
    | _ => (false, body)
    end in
  let '(numeral, rest) := numeral_span unsigned in
  match digits_value 0 false numeral with
  | None => Raise (invalid_literal s)
  | Some z =>
      if (max_str_digits <? count_digits numeral)%nat
      then Raise (too_many_digits (count_digits numeral))
      else match rest with
           | EmptyString => Ok (if negative then - z else z)%Z
           | String _ _ => Raise (invalid_literal s)
           end
  end.

(** The number of digits [str] writes for an [int]. *)
Definition digits (z : Z) : nat :=
  count_digits (NilZero.string_of_int (Z.to_int z)).

(** [str(z)] on an [int]: the decimal digits, a minus sign before a
    negative number; refused beyond the limit. *)
Definition str_int (z : Z) : result string :=
  if (max_str_digits <? digits z)%nat
  then Raise (ValueError
                ("Exceeds the limit (" +:+ nat_text max_str_digits
                 +:+ " digits) for integer string conversion; use sys.set_int_max_str_digits() to increase the limit"))
  else Ok (NilZero.string_of_int (Z.to_int z)).

(** [a // b] on two [int]s. *)
Definition floor_div (a b : Z) : result Z :=
  if (b =? 0)%Z then Raise ZeroDivisionError else Ok (a / b)%Z.

(** [get_ratio]: the size of the image divided by its gcd, formatted as
    [f"{w//g}:{h//g}"]. *)
Definition get_ratio (image : pyval) : result string :=
  match image with
  | VImage w h =>
      let g := Z.gcd w h in
      rbind (floor_div w g) (fun rw =>
      rbind (str_int rw) (fun width =>
      rbind (floor_div h g) (fun rh =>
      rbind (str_int rh) (fun height =>
      Ok (width +:+ ":" +:+ height)))))
  | _ => Raise (AttributeError "size")
  end.

(** ** binary64 arithmetic *)

Definition float : Type := spec_float.

(** The float of an integer numerator or denominator, before rounding. *)
Definition Z2SF (z : Z) : spec_float :=
  match z with
  | Z0 => S754_zero false
  | Zpos p => S754_finite false p 0
  | Zneg p => S754_finite true p 0
  end.

(** [a / b] on two [int]s: the correctly rounded quotient. *)
Definition int_true_div (a b : Z) : result float :=
  if (b =? 0)%Z then Raise ZeroDivisionError
  else match SFdiv 53 1024 (Z2SF a) (Z2SF b) with
       | S754_infinity _ => Raise OverflowError
       | q => Ok q
       end.

Definition float_sub (x y : float) : float := SFsub 53 1024 x y.
Definition float_abs (x : float) : float := SFabs x.
Definition float_lt (x y : float) : bool := SFltb x y.

(** ** [min(iterable, key=...)] *)

Section MinKey.
Context {A : Type} (key : A -> result float).

Fixpoint min_loop (best : A) (best_val : float) (rest : list A)
    : result A :=
  match rest with
  | [] => Ok best
  | item :: rest' =>
      rbind (key item) (fun val =>
        if float_lt val best_val then min_loop item val rest'
        else min_loop best best_val rest')
  end.

Definition py_min (items : list A) : result A :=
  match items with
  | [] => Raise (ValueError "min() arg is an empty sequence")
  | item :: rest => rbind (key item) (fun val => min_loop item val rest)
  end.
End MinKey.

(** ** [get_nearest_aspect_ratio] *)

(** [ratio_value]: [rw, rh = map(int, ratio_str.split(":"))]. *)
Definition ratio_value (ratio_str : string) : result float :=
  match split_on ":"%char ratio_str with
  | [a; b] =>
      rbind (py_int a) (fun rw =>
      rbind (py_int b) (fun rh =>
      int_true_div rw rh))
  | [] => Raise (ValueError "not enough values to unpack (expected 2, got 0)")
  | [a] =>
      rbind (py_int a) (fun _ =>
      Raise (ValueError "not enough values to unpack (expected 2, got 1)"))
  | a :: b :: c :: _ =>
      rbind (py_int a) (fun _ =>
      rbind (py_int b) (fun _ =>
      rbind (py_int c) (fun _ =>
      Raise (ValueError "too many values to unpack (expected 2)"))))
  end.

(** The key of [min]: [abs(ratio_value(r) - target_ratio)]. *)
Definition ratio_key (target_ratio : float) (r : string) : result float :=
  rbind (ratio_value r) (fun v => Ok (float_abs (float_sub v target_ratio))).

Definition get_nearest_aspect_ratio (size : Z * Z)
    (allowed_ratios : list string) : result string :=
  let '(w, h) := size in
  rbind (int_true_div w h) (fun target_ratio =>
  py_min (ratio_key target_ratio) allowed_ratios).

(** ** The selection in exact arithmetic

    Follows the specification's words: minimise
    [|allowed_width/allowed_height - w/h|] over the rationals, the first
    minimal element winning. *)

Definition parse_ratio (r : string) : option (Z * Z) :=
  match split_on ":"%char r with
  | [a; b] =>
      match py_int a, py_int b with
      | Ok rw, Ok rh => Some (rw, rh)
      | _, _ => None
      end
  | _ => None
  end.

Definition exact_distance (size : Z * Z) (r : string) : Q :=
  match parse_ratio r with
  | Some (rw, rh) =>
      Qabs (Qminus (Qdiv (inject_Z rw) (inject_Z rh))
                   (Qdiv (inject_Z (fst size)) (inject_Z (snd size))))
  | None => 0%Q
  end.

Fixpoint exact_min_loop (size : Z * Z) (best : string) (rest : list string)
    : string :=
  match rest with
  | [] => best
  | r :: rest' =>
      if Qlt_le_dec (exact_distance size r) (exact_distance size best)
      then exact_min_loop size r rest'
      else exact_min_loop size best rest'
  end.

Definition exact_nearest_aspect_ratio (size : Z * Z)
    (allowed_ratios : list string) : option string :=
  match allowed_ratios with
  | [] => None
  | r :: rest => Some (exact_min_loop size r rest)
  end.

End Utils.

(* ================================================================== *)
(** * The world outside and the monad of effects                       *)
(* ================================================================== *)

(** What [requests] hands back.  [body_json] is [response.json()] ([None]
    when the body does not decode), [body_image] the pixel size
    [Image.open] finds ([None] when the body is no image). *)
Record http_response : Type := {
  status_code : Z;
  body_json : option pyval;
  body_image : option (Z * Z);
  content : string;
  content_type : option string
}.

Inductive event : Type :=
| EvGet (url : string)
| EvPost (url : string) (body : pyval)
| EvPutObject (bucket : option string) (key : string) (ctype : string)
| EvSleep (seconds : Z).

(** The oracles.  A GET is answered by the number of earlier GETs of the
    same URL, so a status endpoint can change its mind; [None] is a GET
    that brings no response, and [refused] then tells whether [requests]
    turned the URL down before it sent anything (no host, no scheme).
    [client_error] and [put_object_error] are the exceptions [boto3]
    raises, of whatever class, [None] when it raises none.
    [urlparse_error u] is the message of the [ValueError] that
    [urlparse(u)] raises, [None] when [u] parses, and [url_suffix u] is
    then [PurePosixPath(urlparse(u).path).suffix].  [builtin_str] is [str]
    on a value that is not a string, [exception_str] is [str] on an
    exception.

    One condition ties the oracles: a URL that [urlparse] refuses is
    never answered.  [requests] hands the URL to the same parser, to pick
    a proxy and a connection, before it sends anything. *)
Record Outside : Type := {
  environ : gmap string string;
  http_get : string -> nat -> option http_response;
  refused : string -> bool;
  http_post : string -> pyval -> option http_response;
  uuid4 : nat -> string;
  client_error : string -> string -> string -> string -> option exn;
  put_object_error : option string -> string -> option exn;
  urlparse_error : string -> option string;
  url_suffix : string -> string;
  builtin_str : pyval -> string;
  exception_str : exn -> string;
  unparsed_unanswered :
    forall u msg n, urlparse_error u = Some msg -> http_get u n = None
}.

Record World : Type := {
  outside : Outside;
  trace : list event;
  uuid_drawn : nat;
  objects : gmap nat (pydict pyval)
}.

(** An object ([self]) together with the world it runs in. *)
Record St (O : Type) : Type := { self : O; world : World }.
Arguments self {O} _.
Arguments world {O} _.

(** A call returns, raises, or is still running when the fuel of a loop
    is spent. *)
Inductive outcome (A : Type) : Type :=
| Returns (a : A)
| Raises (e : exn)
| StillRunning.
Arguments Returns {A} a.
Arguments Raises {A} e.
Arguments StillRunning {A}.

Definition M (S A : Type) : Type := S -> outcome A * S.

Definition ret {S A} (a : A) : M S A := fun s => (Returns a, s).

Definition bind {S A B} (c : M S A) (k : A -> M S B) : M S B :=
  fun s =>
    match c s with
    | (Returns a, s') => k a s'
    | (Raises e, s') => (Raises e, s')
    | (StillRunning, s') => (StillRunning, s')
    end.

Definition raise {S A} (e : exn) : M S A := fun s => (Raises e, s).

Definition still_running {S A} : M S A := fun s => (StillRunning, s).

Definition lift {S A} (r : result A) : M S A :=
  match r with
  | Ok a => ret a
  | Raise e => raise e
  end.

(** [try: c except Exception as exc: h exc] *)
Definition try_except {S A} (c : M S A) (h : exn -> M S A) : M S A :=
  fun s =>
    match c s with
    | (Raises e, s') => h e s'
    | other => other
    end.

Definition gets {S A} (f : S -> A) : M S A := fun s => (Returns (f s), s).

Definition modify {S} (f : S -> S) : M S unit := fun s => (Returns tt, f s).

(** Run a computation on the world from inside a method of an object. *)
Definition in_world {O A} (c : M World A) : M (St O) A :=
  fun s =>
    let '(r, w) := c (world s) in
    (r, {| self := self s; world := w |}).

Definition set_self {O} (f : O -> O) : M (St O) unit :=
  modify (fun s => {| self := f (self s); world := world s |}).

Declare Scope monad_scope.
Delimit Scope monad_scope with monad.
Notation "'let*' x ':=' c1 'in' c2" := (bind c1 (fun x => c2))
  (at level 10, x name, c1 at level 100, c2 at level 200) : monad_scope.
Notation "c1 >> c2" := (bind c1 (fun _ => c2))
  (at level 100, c2 at level 200, right associativity) : monad_scope.
Open Scope monad_scope.

(** The world after some more events. *)
Definition extend (evs : list event) (w : World) : World :=
  {| outside := outside w; trace := trace w ++ evs;
     uuid_drawn := uuid_drawn w; objects := objects w |}.

Definition add_event (e : event) (w : World) : World := extend [e] w.

Definition emit (e : event) : M World unit := modify (add_event e).

Definition count_gets (url : string) (t : list event) : nat :=
  length (List.filter (fun e => match e with
                           | EvGet u => String.eqb u url
                           | _ => false
                           end) t).

(** [requests.get(url, ...)].  [EvGet] records a request that went out:
    a URL that [requests] refuses, or that is not a string, leaves no
    event. *)
Definition requests_get (url : pyval) : M World http_response :=
  match url with
  | VStr u =>
      let* n := gets (fun w => count_gets u (trace w)) in
      let* reply := gets (fun w => http_get (outside w) u n) in
      match reply with
      | Some r => emit (EvGet u) >> ret r
      | None =>
          let* unsent := gets (fun w => refused (outside w) u) in
          if unsent then raise (RequestException u)
          else emit (EvGet u) >> raise (RequestException u)
      end
  | _ => raise (RequestException "")
  end.

(** [requests.post(url, headers=..., json=body)].  The two URLs the
    code posts to start with a scheme and a host, so none is refused. *)
Definition requests_post (url : string) (body : pyval) : M World http_response :=
  let* reply := gets (fun w => http_post (outside w) url body) in
  emit (EvPost url body) >>
  match reply with
  | Some r => ret r
  | None => raise (RequestException url)
  end.

(** [response.json()] *)
Definition json {S} (r : http_response) : M S pyval :=
  match body_json r with
  | Some v => ret v
  | None => raise JSONDecodeError
  end.

(** [time.sleep(seconds)] *)
Definition sleep (seconds : Z) : M World unit := emit (EvSleep seconds).

(** [os.environ.get(name)] and [os.environ.get(name, "")] *)
Definition environ_get (name : string) : M World (option string) :=
  gets (fun w => environ (outside w) !! name).

Definition environ_get_or_empty (name : string) : M World string :=
  let* v := environ_get name in ret (default "" v).

(** [uuid.uuid4()], rendered *)
Definition draw_uuid4 : M World string :=
  let* n := gets uuid_drawn in
  let* u := gets (fun w => uuid4 (outside w) n) in
  modify (fun w => {| outside := outside w; trace := trace w;
                      uuid_drawn := S (uuid_drawn w); objects := objects w |}) >>
  ret u.

(** [d.get(k)], [d[k]] and [l[0]] on values *)
Definition py_get (d : pyval) (k : string) : result pyval :=
  match d with
  | VDict items => Ok (default VNone (dict_get k items))
  | _ => Raise (AttributeError "get")
  end.

Definition py_item (d : pyval) (k : string) : result pyval :=
  match d with
  | VDict items =>
      match dict_get k items with
      | Some v => Ok v
      | None => Raise (KeyError k)
      end
  | _ => Raise (TypeError NotSubscriptable)
  end.

Definition py_first (v : pyval) : result pyval :=
  match v with
  | VList (x :: _) => Ok x
  | VList [] => Raise IndexError
  | VStr (String c _) => Ok (VStr (String c EmptyString))
  | VStr EmptyString => Raise IndexError
  | VDict _ => Raise (KeyError "0")
  | _ => Raise (TypeError NotSubscriptable)
  end.

Definition is_none (v : pyval) : bool :=
  match v with VNone => true | _ => false end.

Definition eq_str (v : pyval) (s : string) : bool :=
  match v with VStr s' => String.eqb s' s | _ => false end.

(** [download_image] of utils/utils.py *)
Definition download_image (url : pyval) : M World pyval :=
  let* response := requests_get url in
  match body_image response with
  | Some (w, h) => ret (VImage w h)
  | None => raise UnidentifiedImageError
  end.

(* ================================================================== *)
(** * utils/s3.py                                                      *)
(* ================================================================== *)

Module S3.

Definition required_vars : list string :=
  ["S3_ENDPOINT_URL"; "S3_ACCESS_KEY"; "S3_SECRET_KEY"; "S3_REGION";
   "S3_CDN_URL"; "S3_BUCKET"].

(** The loop of [validate_s3_env_vars] over the remaining names. *)
Fixpoint validate_loop (vars : list string) : M World bool :=
  match vars with
  | [] => ret true
  | var_name :: rest =>
      let* value := environ_get_or_empty var_name in
      if String.eqb (Utils.strip value) "" then ret false
      else validate_loop rest
  end.

(** [validate_s3_env_vars] *)
Definition validate_s3_env_vars : M World bool :=
  validate_loop required_vars.

(** The handle [boto3.client] returns. *)
Record s3_client : Type := {
  endpoint_url : string;
  region_name : string;
  aws_access_key_id : string;
  aws_secret_access_key : string
}.

Definition boto3_client (endpoint region access secret : string)
    : M World s3_client :=
  let* err := gets (fun w => client_error (outside w) endpoint region access secret) in
  match err with
  | Some exc => raise exc
  | None => ret {| endpoint_url := endpoint; region_name := region;
                   aws_access_key_id := access;
                   aws_secret_access_key := secret |}
  end.

(** [create_s3_client]: the verdict of the validation is dropped. *)
Definition create_s3_client : M World s3_client :=
  validate_s3_env_vars >>
  let* endpoint := environ_get_or_empty "S3_ENDPOINT_URL" in
  let* region := environ_get_or_empty "S3_REGION" in
  let* access_key := environ_get_or_empty "S3_ACCESS_KEY" in
  let* secret_key := environ_get_or_empty "S3_SECRET_KEY" in
  boto3_client endpoint region access_key secret_key.

(** [fetch_url] *)
Definition fetch_url (url : string) : M World (string * string) :=
  let* response := requests_get (VStr url) in
  if ((400 <=? status_code response) && (status_code response <? 600))%Z
  then raise (HTTPError (status_code response))
  else ret (content response,
            default "application/octet-stream" (content_type response)).

(** [s3.put_object(Bucket=..., Key=..., Body=..., ContentType=...,
    ACL="public-read")] *)
Definition put_object (s3 : s3_client) (bucket : option string)
    (key body ctype : string) : M World unit :=
  let* err := gets (fun w => put_object_error (outside w) bucket key) in
  emit (EvPutObject bucket key ctype) >>
  match err with
  | Some exc => raise exc
  | None => ret tt
  end.

(** [s.rstrip('/')] *)
Fixpoint all_slash (s : string) : bool :=
  match s with
  | String c s' => Ascii.eqb c "/"%char && all_slash s'
  | EmptyString => true
  end.

Fixpoint rstrip_slash (s : string) : string :=
  match s with
  | String c s' => if all_slash s then EmptyString else String c (rstrip_slash s')
  | EmptyString => EmptyString
  end.

(** [urlparse(source_url)], then the suffix of its path. *)
Definition path_suffix (source : string) : M World string :=
  let* parsed := gets (fun w => urlparse_error (outside w) source) in
  match parsed with
  | Some msg => raise (ValueError msg)
  | None => gets (fun w => url_suffix (outside w) source)
  end.

(** [copy_url_to_s3] *)
Definition copy_url_to_s3 (source_url : pyval) : M World string :=
  let* s3 := create_s3_client in
  let* bucket := environ_get "S3_BUCKET" in
  match source_url with
  | VStr source =>
      if negb (String.prefix "http://" source || String.prefix "https://" source)
      then raise (ValueError "source_url must be a valid HTTP/HTTPS URL")
      else
        let* file_extension := path_suffix source in
        let* uuid := draw_uuid4 in
        let destination_key := uuid +:+ file_extension in
        try_except
          (let* fetched := fetch_url source in
           put_object s3 bucket destination_key (fst fetched) (snd fetched))
          (fun exc =>
             let* text := gets (fun w => exception_str (outside w) exc) in
             raise (RuntimeError
                      ("Failed to copy " +:+ source +:+ " to S3: " +:+ text))) >>
        let* cdn_url := environ_get_or_empty "S3_CDN_URL" in
        if negb (String.eqb cdn_url "")
        then ret (rstrip_slash cdn_url +:+ "/" +:+ destination_key)
        else ret (cdn_url +:+ "/" +:+ destination_key)
  | _ => raise (AttributeError "startswith")
  end.

End S3.

(** [obj.name] on an instance held by value, and on one held by
    reference in the heap of the world (a reference to nothing has no
    attribute at all). *)
Definition getattr (obj : pydict pyval) (name : string) : result pyval :=
  match dict_get name obj with
  | Some v => Ok v
  | None => Raise (AttributeError name)
  end.

Definition getattr_ref (ref : nat) (name : string) : M World pyval :=
  let* obj := gets (fun w => objects w !! ref) in
  match obj with
  | Some o => lift (getattr o name)
  | None => raise (AttributeError name)
  end.

(** [obj.name = v] through a reference: every holder of the reference
    sees the new value. *)
Definition setattr_ref (ref : nat) (name : string) (v : pyval) : M World unit :=
  modify (fun w => {| outside := outside w; trace := trace w;
                      uuid_drawn := uuid_drawn w;
                      objects := alter (dict_set name v) ref (objects w) |}).

(** [str(v)] *)
Definition py_str (v : pyval) : M World string :=
  match v with
  | VStr s => ret s
  | _ => gets (fun w => builtin_str (outside w) v)
  end.

(* ================================================================== *)
(** * imagen/flux.py                                                   *)
(* ================================================================== *)

Module Flux.

Record FluxImageGeneratorConfig : Type := { api_key : string }.

Definition FluxImageGeneratorOptions : Main.options_type :=
  Main.Dataclass
    [ {| Main.f_name := "prompt"; Main.f_type := "str";
         Main.f_default := None; Main.f_default_factory := None |};
      {| Main.f_name := "model";
         Main.f_type :=
           "Literal['flux-2-max', 'flux-2-pro', 'flux-2-flex', 'flux-kontext-max', 'flux-kontext-pro', 'flux-pro-1.1-ultra', 'flux-pro-1.1', 'flux-pro', 'flux-dev']";
         Main.f_default := Some (VStr "flux-2-max");
         Main.f_default_factory := None |};
      {| Main.f_name := "aspect_ratio";
         Main.f_type := "Literal['1:1', '16:9', '9:16', '4:3', '21:9']";
         Main.f_default := Some (VStr "1:1");
         Main.f_default_factory := None |} ].

Record FluxResponse : Type := {
  response : pyval;
  image : pyval;
  polling_url : pyval;
  request_id : pyval;
  retriveal_url : pyval;
  generator_config : FluxImageGeneratorConfig
}.

Definition set_image (v : pyval) (fr : FluxResponse) : FluxResponse :=
  {| response := response fr; image := v; polling_url := polling_url fr;
     request_id := request_id fr; retriveal_url := retriveal_url fr;
     generator_config := generator_config fr |}.

Definition set_retriveal_url (v : pyval) (fr : FluxResponse) : FluxResponse :=
  {| response := response fr; image := image fr;
     polling_url := polling_url fr; request_id := request_id fr;
     retriveal_url := v; generator_config := generator_config fr |}.

(** [FluxResponse.__init__] *)
Definition FluxResponse_init (resp : pyval) (cfg : FluxImageGeneratorConfig)
    : result FluxResponse :=
  rbind (py_get resp "polling_url") (fun purl =>
  rbind (py_get resp "id") (fun rid =>
  Ok {| response := resp; image := VNone; polling_url := purl;
        request_id := rid; retriveal_url := VNone;
        generator_config := cfg |})).

Definition FM (A : Type) : Type := M (St FluxResponse) A.

(** [FluxResponse._retrieve_image] *)
Definition _retrieve_image : FM pyval :=
  let* url := gets (fun s => retriveal_url (self s)) in
  (if negb (is_none url)
   then let* img := in_world (download_image url) in set_self (set_image img)
   else ret tt) >>
  gets (fun s => image (self s)).

(** [FluxResponse._pool] *)
Definition _pool : FM bool :=
  let* url := gets (fun s => polling_url (self s)) in
  let* reply := in_world (requests_get url) in
  let* result := json reply in
  let* status := lift (py_get result "status") in
  if eq_str status "Failed" || eq_str status "Error" then ret false
  else if eq_str status "Ready" then
    let* res := lift (py_item result "result") in
    let* sample := lift (py_item res "sample") in
    set_self (set_retriveal_url sample) >>
    ret true
  else ret false.

(** [while not self._pool(): time.sleep(1)], at most [fuel] polls. *)
Fixpoint poll_loop (fuel : nat) : FM unit :=
  match fuel with
  | O => still_running
  | S fuel' =>
      let* done := _pool in
      if done then ret tt
      else in_world (sleep 1) >> poll_loop fuel'
  end.

(** [FluxResponse.pool] *)
Definition pool (fuel : nat) (auto : bool) : FM pyval :=
  let* img := gets (fun s => image (self s)) in
  if negb (is_none img) then ret img
  else
    let* purl := gets (fun s => polling_url (self s)) in
    if is_none purl then raise (ImageGenerationError "No polling url found")
    else
      (if auto then poll_loop fuel else (_pool >> ret tt)) >>
      _retrieve_image.

(** [FluxResponse.url] *)
Definition url (fuel : nat) : FM string :=
  pool fuel true >>
  let* source := gets (fun s => retriveal_url (self s)) in
  in_world (S3.copy_url_to_s3 source).

(** The class object [FluxClient], registered as "flux". *)
Definition FluxClient : pyclass :=
  {| cls_module := "imagen.flux"; cls_name := "FluxClient";
     cls_dict := ["__module__"; "Config"; "__init__"; "generate_image";
                  "readme"; "__doc__"] |}.

(** [FluxClient.generate_image] *)
Definition generate_image (cfg : FluxImageGeneratorConfig)
    (options : pydict pyval) : M World FluxResponse :=
  let* model := lift (getattr options "model") in
  let* model_str := py_str model in
  let* prompt := lift (getattr options "prompt") in
  let* aspect_ratio := lift (getattr options "aspect_ratio") in
  let* request :=
    requests_post ("https://api.bfl.ai/v1/" +:+ model_str)
      (VDict [("prompt", prompt); ("aspect_ratio", aspect_ratio)]) in
  if (status_code request =? 429)%Z
  then raise (ImageGenerationError "Rate limit exceeded")
  else if (status_code request =? 402)%Z
  then raise (ImageGenerationError "Out of credits")
  else
    let* body := json request in
    lift (FluxResponse_init body cfg).

(** The tool [image-flux-generate] of main.py: build the options, call
    the generator, resolve the result to a URL. *)
Definition image_flux_generate (fuel : nat) (cfg : FluxImageGeneratorConfig)
    (payload : pydict pyval) : M World string :=
  let* opt_obj := lift (Main._build_options_object FluxImageGeneratorOptions payload) in
  let* fr := generate_image cfg opt_obj in
  fun w =>
    let '(r, s) := url fuel {| self := fr; world := w |} in
    (r, world s).

End Flux.

(* ================================================================== *)
(** * imagen/runpod_nanobanana.py                                      *)
(* ================================================================== *)

Module Nanobanana.

Definition aspect_ratios : list string :=
  ["1:1"; "3:2"; "2:3"; "3:4"; "4:3"; "4:5"; "5:4"; "9:16"; "16:9"; "21:9"].

(** [get_type_hints(RunpodNanoBananaImageEditingOptions)] *)
Definition hints : pydict Utils.annotation :=
  [ ("prompt", Utils.TPlain "str");
    ("image_urls", Utils.TGeneric "list" [Utils.TPlain "str"]);
    ("resolution", Utils.TLiteral ["1k"; "2k"; "4k"]);
    ("aspect_ratio", Utils.TUnion [Utils.TLiteral aspect_ratios; Utils.TNoneType]) ].

Definition RunpodNanoBananaImageEditingOptions : Main.options_type :=
  Main.Dataclass
    [ {| Main.f_name := "prompt"; Main.f_type := "str";
         Main.f_default := None; Main.f_default_factory := None |};
      {| Main.f_name := "image_urls"; Main.f_type := "List[str]";
         Main.f_default := None; Main.f_default_factory := None |};
      {| Main.f_name := "resolution";
         Main.f_type := "Literal['1k', '2k', '4k']";
         Main.f_default := Some (VStr "1k");
         Main.f_default_factory := None |};
      {| Main.f_name := "aspect_ratio";
         Main.f_type :=
           "Literal['1:1', '3:2', '2:3', '3:4', '4:3', '4:5', '5:4', '9:16', '16:9', '21:9'] | None";
         Main.f_default := Some VNone;
         Main.f_default_factory := None |} ].

Record RunpodNanoBananaClient : Type := {
  api_key : string;
  client_response : pyval
}.

Record RunpodNanoBananaResponse : Type := { response : pyval }.

Definition endpoint : string :=
  "https://api.runpod.ai/v2/nano-banana-pro-edit/runsync".

Definition image_size (img : pyval) : result (Z * Z) :=
  match img with
  | VImage w h => Ok (w, h)
  | _ => Raise (AttributeError "size")
  end.

(** The [if options.aspect_ratio is None:] block. *)
Definition infer_aspect_ratio (options : nat) : M World unit :=
  let* allowed := lift (Utils.get_literal_values hints "aspect_ratio") in
  let* image_urls := getattr_ref options "image_urls" in
  let* first_url := lift (py_first image_urls) in
  let* first_image := download_image first_url in
  let* size := lift (image_size first_image) in
  let* nearest := lift (Utils.get_nearest_aspect_ratio size allowed) in
  setattr_ref options "aspect_ratio" (VStr nearest).

(** The [data] dictionary of [edit_image]. *)
Definition request_data (prompt image_urls resolution : pyval) : pyval :=
  VDict [("input",
          VDict [("prompt", prompt);
                 ("images", image_urls);
                 ("resolution", resolution);
                 ("output_format", VStr "jpeg");
                 ("enable_base64_output", VBool false);
                 ("enable_sync_mode", VBool false)])].

(** The rest of [edit_image]: build [data], post it, keep and wrap the
    decoded reply. *)
Definition post_edit_request (options : nat)
    : M (St RunpodNanoBananaClient) RunpodNanoBananaResponse :=
  let* prompt := in_world (getattr_ref options "prompt") in
  let* image_urls := in_world (getattr_ref options "image_urls") in
  let* resolution := in_world (getattr_ref options "resolution") in
  let* reply := in_world (requests_post endpoint
                            (request_data prompt image_urls resolution)) in
  let* body := json reply in
  set_self (fun c => {| api_key := api_key c; client_response := body |}) >>
  ret {| response := body |}.

(** [RunpodNanoBananaClient.edit_image]; [options] is the reference the
    caller holds. *)
Definition edit_image (options : nat)
    : M (St RunpodNanoBananaClient) RunpodNanoBananaResponse :=
  let* aspect_ratio := in_world (getattr_ref options "aspect_ratio") in
  (if is_none aspect_ratio then in_world (infer_aspect_ratio options)
   else ret tt) >>
  post_edit_request options.

(** [RunpodNanoBananaResponse.url] *)
Definition url (r : RunpodNanoBananaResponse) : M World string :=
  let* output := lift (py_item (response r) "output") in
  let* result := lift (py_item output "result") in
  S3.copy_url_to_s3 result.

Definition RunpodNanoBananaClient_class : pyclass :=
  {| cls_module := "imagen.runpod_nanobanana";
     cls_name := "RunpodNanoBananaClient";
     cls_dict := ["__module__"; "Config"; "__init__"; "edit_image";
                  "readme"; "__doc__"] |}.

End Nanobanana.

(** The registry after the import of both backend modules
    ([pkgutil.iter_modules] lists them by name). *)
Definition startup_calls : list Registery.reg_call :=
  [ Registery.CallRegisterGenerator "flux" Flux.FluxClient;
    Registery.CallRegisterGenerator "nanobanana"
      Nanobanana.RunpodNanoBananaClient_class ].

Definition REGISTERED_GENERATORS : Registery.registry :=
  Registery.run_calls startup_calls Registery.REGISTERED_GENERATORS_init.

(* ================================================================== *)
(** * Sample worlds and the vocabulary of the statements              *)
(* ================================================================== *)

(** ** Vocabulary *)

(** The entries the default extractors walk over. *)
Definition default_items (t : Main.options_type) : pydict (option pyval) :=
  match t with
  | Main.Dataclass fs =>
      map (fun f => (Main.f_name f, Main.field_default f)) fs
  | Main.PlainClass ps =>
      map (fun p => (Main.p_name p,
                     if String.eqb (Main.p_name p) "self" then None
                     else Main.p_default p)) ps
  end.

(** The first key of a payload that is no declared field. *)
Definition first_undeclared (t : Main.options_type) (payload : pydict pyval)
    : option string :=
  find (fun k => negb (mem_string k (Main.field_names t))) (dict_keys payload).

(** The declaration of an options type as a later call finds it: the
    same names, types and plain defaults, and a factory on the same
    fields.  What a factory returns may differ from one call to the
    next. *)
Definition same_field (f f' : Main.Field) : Prop :=
  Main.f_name f = Main.f_name f' /\ Main.f_type f = Main.f_type f' /\
  Main.f_default f = Main.f_default f' /\
  (Main.f_default_factory f = None <-> Main.f_default_factory f' = None).

Definition same_declaration (t t' : Main.options_type) : Prop :=
  match t, t' with
  | Main.Dataclass fs, Main.Dataclass fs' => Forall2 same_field fs fs'
  | Main.PlainClass ps, Main.PlainClass ps' => ps = ps'
  | _, _ => False
  end.

(** The fields declared with a default that is a value, not a factory. *)
Definition plain_default (t : Main.options_type) (k : string) : bool :=
  match t with
  | Main.Dataclass fs =>
      match dict_get k (map (fun f => (Main.f_name f, Main.f_default f)) fs) with
      | Some (Some _) => true
      | _ => false
      end
  | Main.PlainClass ps =>
      match Main.declared_default t k with
      | Some _ => true
      | None => false
      end
  end.

(** A dataclass with a field whose factory hands out a new stamp at each
    call, such as [field(default_factory=lambda: uuid4().hex)]; [stamp]
    is what the call of the moment returns. *)
Definition stamped_options (stamp : string) : Main.options_type :=
  Main.Dataclass
    [ {| Main.f_name := "prompt"; Main.f_type := "str";
         Main.f_default := None; Main.f_default_factory := None |};
      {| Main.f_name := "stamp"; Main.f_type := "str";
         Main.f_default := None;
         Main.f_default_factory := Some (VStr stamp) |} ].

(** A payload for the NanoBanana options, with the two required fields
    supplied and one default overridden, and the object built from it. *)
Definition sample_edit_payload : pydict pyval :=
  [("prompt", VStr "a cat"); ("resolution", VStr "4k");
   ("image_urls", VList [VStr "https://example.org/a.png"])].


(** Zero or finite: what an integer quotient is. *)
Definition is_finite (x : spec_float) : bool :=
  match x with
  | S754_zero _ | S754_finite _ _ _ => true
  | _ => false
  end.

(** Not a NaN and not negative: what an absolute value is. *)
Definition is_magnitude (x : spec_float) : bool :=
  match x with
  | S754_zero _ | S754_infinity false | S754_finite false _ _ => true
  | _ => false
  end.

(** ** A storage that is configured, and a Flux backend *)

Definition storage_environ : gmap string string :=
  list_to_map
    [("S3_ENDPOINT_URL", "https://s3.example.org"); ("S3_ACCESS_KEY", "access");
     ("S3_SECRET_KEY", "secret"); ("S3_REGION", "fr-par");
     ("S3_CDN_URL", "https://cdn.example.org/"); ("S3_BUCKET", "images")].

Definition json_reply (code : Z) (body : pyval) : http_response :=
  {| status_code := code; body_json := Some body; body_image := None;
     content := "{}"; content_type := Some "application/json" |}.

Definition image_reply (w h : Z) : http_response :=
  {| status_code := 200; body_json := None; body_image := Some (w, h);
     content := "PNG"; content_type := Some "image/png" |}.

Definition polling_endpoint : string := "https://api.bfl.ai/v1/get_result".
Definition sample_url : string := "https://delivery.bfl.ai/results/sample.png".

Definition status_body (status : string) : pyval :=
  VDict [("status", VStr status)].

Definition ready_body : pyval :=
  VDict [("status", VStr "Ready");
         ("result", VDict [("sample", VStr sample_url)])].

(** Where every URL parses, the condition on the URLs that do not parse
    is void. *)
Definition every_url_parses (answers : string -> nat -> option http_response)
    (u msg : string) (n : nat) (H : @None string = Some msg)
    : answers u n = None :=
  match H in (_ = parsed)
        return (match parsed with
                | Some _ => answers u n = None
                | None => True
                end) with
  | eq_refl => I
  end.

(** [str(exc)] in the sample worlds. *)
Definition sample_exception_str (exc : exn) : string :=
  match exc with
  | HTTPError code => "HTTP error"
  | RequestException u => "no response from " +:+ u
  | _ => "error"
  end.

(** A backend that answers the n-th status poll with [statuses n], serves
    the sample image, and a storage that accepts every upload. *)
Definition flux_outside (env : gmap string string) (statuses : nat -> pyval)
    (post_reply : http_response) : Outside :=
  {| environ := env;
     http_get := fun u n =>
       if String.eqb u polling_endpoint then Some (json_reply 200 (statuses n))
       else if String.eqb u sample_url then Some (image_reply 1024 1024)
       else None;
     refused := fun _ => false;
     http_post := fun _ _ => Some post_reply;
     uuid4 := fun n => String (ascii_of_nat (48 + n)) "f3c2a10-9d4e-4b7a-8c65-2e1f0a9b7d31";
     client_error := fun _ _ _ _ => None;
     put_object_error := fun _ _ => None;
     urlparse_error := fun _ => None;
     url_suffix := fun _ => ".png";
     builtin_str := fun _ => "None";
     exception_str := sample_exception_str;
     unparsed_unanswered := every_url_parses _ |}.

Definition accepted_reply : http_response :=
  json_reply 200 (VDict [("id", VStr "req-1"); ("polling_url", VStr polling_endpoint)]).

Definition new_world (o : Outside) : World :=
  {| outside := o; trace := []; uuid_drawn := 0; objects := ∅ |}.

Definition statuses_ready (n : nat) : pyval :=
  match n with
  | 0 | 1 => status_body "Processing"
  | _ => ready_body
  end.

Definition statuses_failed (n : nat) : pyval :=
  match n with
  | 0 => status_body "Processing"
  | _ => status_body "Failed"
  end.

Definition pending_response : Flux.FluxResponse :=
  {| Flux.response := VDict [("id", VStr "req-1"); ("polling_url", VStr polling_endpoint)];
     Flux.image := VNone; Flux.polling_url := VStr polling_endpoint;
     Flux.request_id := VStr "req-1"; Flux.retriveal_url := VNone;
     Flux.generator_config := {| Flux.api_key := "key" |} |}.

Definition ready_state : St Flux.FluxResponse :=
  {| self := pending_response;
     world := new_world (flux_outside storage_environ statuses_ready accepted_reply) |}.
Definition failed_state : St Flux.FluxResponse :=
  {| self := pending_response;
     world := new_world (flux_outside storage_environ statuses_failed accepted_reply) |}.

(** ** States of the poller and of the copy *)

Definition polled (u : string) (st : St Flux.FluxResponse) : St Flux.FluxResponse :=
  {| self := self st; world := add_event (EvGet u) (world st) |}.

Definition slept (st : St Flux.FluxResponse) : St Flux.FluxResponse :=
  {| self := self st; world := add_event (EvSleep 1) (world st) |}.

Definition status_of (d : pydict pyval) : pyval :=
  default VNone (dict_get "status" d).

(** The events of [n] unsuccessful polls: a GET and a one-second sleep
    each. *)
Fixpoint waiting (u : string) (n : nat) : list event :=
  match n with
  | O => []
  | S n' => EvGet u :: EvSleep 1 :: waiting u n'
  end.

Definition waited (evs : list event) (st : St Flux.FluxResponse)
    : St Flux.FluxResponse :=
  {| self := self st; world := extend evs (world st) |}.

(** The copy to storage that ends [url]. *)
Definition store_result : Flux.FM string :=
  let* source := gets (fun s => Flux.retriveal_url (self s)) in
  in_world (S3.copy_url_to_s3 source).

(** The environment as [create_s3_client] reads it. *)
Definition env_or_empty (w : World) (name : string) : string :=
  default "" (environ (outside w) !! name).

(** The key and the public URL of one copy. *)
Definition destination_key (w : World) (source : string) : string :=
  uuid4 (outside w) (uuid_drawn w) +:+ url_suffix (outside w) source.


Definition copied (w : World) (source : string) (ctype : string) : World :=
  {| outside := outside w;
     trace := trace w ++ [EvGet source;
                          EvPutObject (environ (outside w) !! "S3_BUCKET")
                            (destination_key w source) ctype];
     uuid_drawn := S (uuid_drawn w);
     objects := objects w |}.


Definition sample_flux_options : pydict pyval :=
  [("prompt", VStr "a cat"); ("model", VStr "flux-2-max");
   ("aspect_ratio", VStr "1:1")].

Definition replying_world (code : Z) (body : pydict pyval) : World :=
  new_world (flux_outside storage_environ statuses_ready
               (json_reply code (VDict body))).

Definition world_without (name : string) : World :=
  new_world (flux_outside (delete name storage_environ) statuses_ready
               accepted_reply).

(** States that carry the trace of the world. *)
Class Traced (S : Type) : Type := trace_of : S -> list event.

#[export] Instance traced_world : Traced World := trace.
#[export] Instance traced_object {O} : Traced (St O) := fun s => trace (world s).

(** [c] only appends events, and each of them satisfies [P]. *)
Definition emits {S} `{Traced S} {A} (P : event -> Prop) (c : M S A) : Prop :=
  forall s, exists evs,
    trace_of (snd (c s)) = trace_of s ++ evs /\ Forall P evs.

(** The keys under ["input"] of a request body. *)
Definition input_keys (body : pyval) : option (list string) :=
  match body with
  | VDict [("input", VDict items)] => Some (dict_keys items)
  | _ => None
  end.

(** The keys of a request body itself. *)
Definition body_keys (body : pyval) : list string :=
  match body with
  | VDict items => dict_keys items
  | _ => []
  end.

Definition edit_request_keys : list string :=
  ["prompt"; "images"; "resolution"; "output_format"; "enable_base64_output";
   "enable_sync_mode"].

(** What the edit operation may emit: GETs of a source image, and POSTs
    to the endpoint whose input has exactly the six keys. *)
Definition edit_event (e : event) : Prop :=
  match e with
  | EvGet _ => True
  | EvPost url body =>
      url = Nanobanana.endpoint /\ input_keys body = Some edit_request_keys
  | _ => False
  end.

(** A run on a 1700 x 2400 source image with no aspect ratio given. *)
Definition edit_world : World :=
  {| outside :=
       {| environ := storage_environ;
          http_get := fun _ _ => Some (image_reply 1700 2400);
          refused := fun _ => false;
          http_post := fun _ _ =>
            Some (json_reply 200
                    (VDict [("output",
                             VDict [("result", VStr "https://runpod.example/out.jpeg")])]));
          uuid4 := fun _ => "0f3c2a10-9d4e-4b7a-8c65-2e1f0a9b7d31";
          client_error := fun _ _ _ _ => None;
          put_object_error := fun _ _ => None;
          urlparse_error := fun _ => None;
          url_suffix := fun _ => ".jpeg";
          builtin_str := fun _ => "None";
          exception_str := sample_exception_str;
          unparsed_unanswered := every_url_parses _ |};
     trace := []; uuid_drawn := 0;
     objects := {[ 0 := [("prompt", VStr "make it night");
                         ("image_urls", VList [VStr "https://example.org/a.png"]);
                         ("resolution", VStr "1k"); ("aspect_ratio", VNone)] ]} |}.

(** What the edit call answers once [data] is posted: the decoded reply,
    wrapped, whatever its status; or the failure of the request or of
    the decoding. *)
Definition edit_outcome (w : World) (data : pyval)
    : outcome Nanobanana.RunpodNanoBananaResponse :=
  match http_post (outside w) Nanobanana.endpoint data with
  | Some reply =>
      match body_json reply with
      | Some body => Returns {| Nanobanana.response := body |}
      | None => Raises JSONDecodeError
      end
  | None => Raises (RequestException Nanobanana.endpoint)
  end.

(** The sample run, and the same run against a backend that is down. *)
Definition edit_state : St Nanobanana.RunpodNanoBananaClient :=
  {| self := {| Nanobanana.api_key := "key"; Nanobanana.client_response := VNone |};
     world := edit_world |}.

Definition backend_down : World :=
  {| outside :=
       {| environ := environ (outside edit_world);
          http_get := http_get (outside edit_world);
          refused := refused (outside edit_world);
          http_post := fun _ _ => None;
          uuid4 := uuid4 (outside edit_world);
          client_error := client_error (outside edit_world);
          put_object_error := put_object_error (outside edit_world);
          urlparse_error := urlparse_error (outside edit_world);
          url_suffix := url_suffix (outside edit_world);
          builtin_str := builtin_str (outside edit_world);
          exception_str := exception_str (outside edit_world);
          unparsed_unanswered := unparsed_unanswered (outside edit_world) |};
     trace := []; uuid_drawn := 0; objects := objects edit_world |}.

(** ** Vocabulary of the further properties *)

(** What a schema says of a parameter. *)
Definition entry_of (type_text : string) (p : Main.Param) : Main.schema_entry :=
  {| Main.se_type := Main._type_to_str type_text;
     Main.se_default := default VNone (Main.p_default p) |}.

Definition lacks_default (p : Main.Param) : bool :=
  match Main.p_default p with None => true | Some _ => false end.

(** The arguments [create_s3_client] passes to [boto3.client] can be
    refused: the exception [boto3] then raises. *)
Definition client_refusal (w : World) : option exn :=
  client_error (outside w) (env_or_empty w "S3_ENDPOINT_URL")
    (env_or_empty w "S3_REGION") (env_or_empty w "S3_ACCESS_KEY")
    (env_or_empty w "S3_SECRET_KEY").

(** The message of the [RuntimeError] that wraps [exc]. *)
Definition copy_failure (w : World) (source : string) (exc : exn) : string :=
  "Failed to copy " +:+ source +:+ " to S3: " +:+ exception_str (outside w) exc.

(** How the download of [source] fails in [w]: the exception that
    [fetch_url] raises and the requests that went out, [None] when the
    download succeeds. *)
Definition download_failure (w : World) (source : string)
    : option (exn * list event) :=
  match http_get (outside w) source (count_gets source (trace w)) with
  | Some reply =>
      if ((400 <=? status_code reply) && (status_code reply <? 600))%Z
      then Some (HTTPError (status_code reply), [EvGet source])
      else None
  | None =>
      Some (RequestException source,
            if refused (outside w) source then [] else [EvGet source])
  end.

(** How the upload of [source] fails in [w], under the key the copy
    draws for it: the exception that [put_object] raises, [None] when the
    upload succeeds. *)
Definition upload_failure (w : World) (source : string) : option exn :=
  put_object_error (outside w) (environ (outside w) !! "S3_BUCKET")
    (uuid4 (outside w) (uuid_drawn w) +:+ url_suffix (outside w) source).

(** What [copy_url_to_s3] may answer for a source, once the client
    exists: a URL, or the error of one of its four steps. *)
Definition copy_outcome (w : World) (source : pyval) (r : outcome string)
    : Prop :=
  match r with
  | Returns _ =>
      exists s, source = VStr s /\
        download_failure w s = None /\ upload_failure w s = None
  | Raises (AttributeError _) => forall s, source <> VStr s
  | Raises (ValueError msg) =>
      exists s, source = VStr s /\
        (String.prefix "http://" s || String.prefix "https://" s = false /\
         msg = "source_url must be a valid HTTP/HTTPS URL"
         \/
         String.prefix "http://" s || String.prefix "https://" s = true /\
         urlparse_error (outside w) s = Some msg)
  | Raises (RuntimeError msg) =>
      exists s exc, source = VStr s /\ msg = copy_failure w s exc /\
        ((exists sent, download_failure w s = Some (exc, sent)) \/
         (download_failure w s = None /\ upload_failure w s = Some exc))
  | _ => False
  end.

(** The text of the model in the URL of the creation request. *)
Definition model_text (w : World) (model : pyval) : string :=
  match model with
  | VStr s => s
  | _ => builtin_str (outside w) model
  end.

(** An options object that names its ratio, alone in the heap. *)
Definition ratio_given_options : pydict pyval :=
  [("prompt", VStr "make it night");
   ("image_urls", VList [VStr "https://example.org/a.png"]);
   ("resolution", VStr "1k"); ("aspect_ratio", VStr "16:9")].

Definition ratio_given_state : St Nanobanana.RunpodNanoBananaClient :=
  {| self := {| Nanobanana.api_key := "key"; Nanobanana.client_response := VNone |};
     world :=
       {| outside := outside edit_world; trace := []; uuid_drawn := 0;
          objects := {[ 0 := ratio_given_options ]} |} |}.

Definition no_image_state : St Nanobanana.RunpodNanoBananaClient :=
  {| self := {| Nanobanana.api_key := "key"; Nanobanana.client_response := VNone |};
     world :=
       {| outside := outside edit_world; trace := []; uuid_drawn := 0;
          objects := {[ 0 := [("prompt", VStr "make it night");
                              ("image_urls", VList []);
                              ("resolution", VStr "1k");
                              ("aspect_ratio", VNone)] ]} |} |}.

(** A backend that answers every edit request with 401 and an error. *)
Definition unauthorized_state : St Nanobanana.RunpodNanoBananaClient :=
  {| self := {| Nanobanana.api_key := ""; Nanobanana.client_response := VNone |};
     world :=
       {| outside :=
            {| environ := storage_environ;
               http_get := fun _ _ => None;
               refused := fun _ => false;
               http_post := fun _ _ =>
                 Some (json_reply 401 (VDict [("error", VStr "Unauthorized")]));
               uuid4 := fun _ => "0f3c2a10-9d4e-4b7a-8c65-2e1f0a9b7d31";
               client_error := fun _ _ _ _ => None;
               put_object_error := fun _ _ => None;
               urlparse_error := fun _ => None;
               url_suffix := fun _ => ".jpeg";
               builtin_str := fun _ => "None";
               exception_str := sample_exception_str;
               unparsed_unanswered := every_url_parses _ |};
          trace := []; uuid_drawn := 0;
          objects := {[ 0 := ratio_given_options ]} |} |}.

(* ================================================================== *)
(** * Properties                                                       *)
(* ================================================================== *)

(** ** Dictionaries *)

Lemma mem_string_In (s : string) (l : list string) :
  mem_string s l = true <-> In s l.
Proof.
  unfold mem_string. rewrite existsb_exists. split.
  - intros [x [Hx Heq]]. apply String.eqb_eq in Heq. now subst.
  - intros H. exists s. split; [assumption | apply String.eqb_refl].
Qed.

Lemma mem_string_false (s : string) (l : list string) :
  mem_string s l = false <-> ~ In s l.
Proof.
  rewrite <- mem_string_In. destruct (mem_string s l); split; congruence.
Qed.

Lemma dict_has_keys {V} (k : string) (d : pydict V) :
  dict_has k d = mem_string k (dict_keys d).
Proof.
  unfold dict_has. induction d as [|[k' v] d IH]; simpl; [reflexivity|].
  destruct (String.eqb k k'); simpl; [reflexivity | exact IH].
Qed.

Lemma dict_get_In {V} (k : string) (d : pydict V) :
  (exists v, dict_get k d = Some v) <-> In k (dict_keys d).
Proof.
  rewrite <- mem_string_In, <- dict_has_keys. unfold dict_has.
  destruct (dict_get k d); split; intros H; eauto; try discriminate.
  destruct H as [? H]; discriminate.
Qed.

Lemma dict_get_None {V} (k : string) (d : pydict V) :
  dict_get k d = None <-> ~ In k (dict_keys d).
Proof.
  rewrite <- dict_get_In. destruct (dict_get k d); split; intros H; eauto.
  - discriminate.
  - exfalso. eauto.
  - intros [? ?]. discriminate.
Qed.

Lemma dict_get_set_eq {V} (k : string) (v : V) (d : pydict V) :
  dict_get k (dict_set k v d) = Some v.
Proof.
  induction d as [|[k' v'] d IH]; simpl.
  - now rewrite String.eqb_refl.
  - destruct (String.eqb k k') eqn:E; simpl.
    + now rewrite String.eqb_refl.
    + now rewrite E.
Qed.

Lemma dict_get_set_ne {V} (k k' : string) (v : V) (d : pydict V) :
  k <> k' -> dict_get k' (dict_set k v d) = dict_get k' d.
Proof.
  intros Hne. induction d as [|[k0 v0] d IH]; simpl.
  - destruct (String.eqb k' k) eqn:E; [|reflexivity].
    apply String.eqb_eq in E. congruence.
  - destruct (String.eqb k k0) eqn:E; simpl.
    + apply String.eqb_eq in E. subst k0.
      destruct (String.eqb k' k) eqn:E'; [|reflexivity].
      apply String.eqb_eq in E'. congruence.
    + now rewrite IH.
Qed.

Lemma dict_get_set {V} (k k' : string) (v : V) (d : pydict V) :
  dict_get k' (dict_set k v d) =
  if String.eqb k' k then Some v else dict_get k' d.
Proof.
  destruct (String.eqb k' k) eqn:E.
  - apply String.eqb_eq in E. subst. apply dict_get_set_eq.
  - apply dict_get_set_ne. intros ->. now rewrite String.eqb_refl in E.
Qed.

Lemma dict_set_fresh {V} (k : string) (v : V) (d : pydict V) :
  ~ In k (dict_keys d) -> dict_set k v d = d ++ [(k, v)].
Proof.
  induction d as [|[k' v'] d IH]; simpl; intros Hn; [reflexivity|].
  destruct (String.eqb k k') eqn:E.
  - apply String.eqb_eq in E. subst. exfalso. apply Hn. now left.
  - rewrite IH; [reflexivity|]. intros H. apply Hn. now right.
Qed.

Lemma dict_keys_set {V} (k : string) (v : V) (d : pydict V) :
  dict_keys (dict_set k v d) =
  if mem_string k (dict_keys d) then dict_keys d else dict_keys d ++ [k].
Proof.
  induction d as [|[k' v'] d IH]; simpl; [reflexivity|].
  unfold mem_string in *. simpl.
  destruct (String.eqb k k') eqn:E; simpl.
  - apply String.eqb_eq in E. now subst.
  - rewrite IH. now destruct (existsb (String.eqb k) (dict_keys d)).
Qed.

Lemma dict_keys_set_NoDup {V} (k : string) (v : V) (d : pydict V) :
  NoDup (dict_keys d) -> NoDup (dict_keys (dict_set k v d)).
Proof.
  intros Hd. rewrite dict_keys_set.
  destruct (mem_string k (dict_keys d)) eqn:E; [assumption|].
  apply mem_string_false in E.
  apply NoDup_app. repeat split; [assumption | | ].
  - intros x Hx Hk. apply list_elem_of_In in Hk. destruct Hk as [<-|[]].
    apply E. now apply list_elem_of_In.
  - apply NoDup_singleton.
Qed.

(** Inserting the items of a duplicate-free dictionary into a dictionary
    that has none of its keys appends them, each value mapped by [f]. *)
Lemma fold_set_fresh {V W} (f : V -> W) (d : pydict V) (acc : pydict W) :
  NoDup (dict_keys d) ->
  (forall k, In k (dict_keys d) -> ~ In k (dict_keys acc)) ->
  fold_left (fun out item => dict_set (fst item) (f (snd item)) out) d acc =
  acc ++ map (fun item => (fst item, f (snd item))) d.
Proof.
  revert acc. induction d as [|[k v] d IH]; intros acc Hnd Hfresh; simpl.
  - now rewrite app_nil_r.
  - apply NoDup_cons in Hnd as [Hk Hnd].
    rewrite dict_set_fresh by (apply Hfresh; now left).
    rewrite IH; [now rewrite <- app_assoc | assumption |].
    intros k' Hk' Hin. unfold dict_keys in Hin.
    rewrite map_app, in_app_iff in Hin. destruct Hin as [Hin|[<-|[]]].
    + apply (Hfresh k'); [now right | assumption].
    + apply Hk. now apply list_elem_of_In.
Qed.

Lemma dict_copy_NoDup {V} (d : pydict V) :
  NoDup (dict_keys d) -> dict_copy d = d.
Proof.
  intros Hd. unfold dict_copy, dict_update.
  rewrite (fold_set_fresh (fun v => v) d []); simpl.
  - induction d as [|[k v] d IH]; simpl; [reflexivity|].
    f_equal. apply IH. now apply NoDup_cons in Hd as [_ Hd].
  - assumption.
  - intros k _ [].
Qed.

(** ** The registry *)

Lemma run_call_set (c : Registery.reg_call) (r : Registery.registry) :
  Registery.run_call c r =
  dict_set (Registery.call_name c) (Registery.call_class c) r.
Proof. now destruct c. Qed.

Lemma run_calls_NoDup (cs : list Registery.reg_call) (r : Registery.registry) :
  NoDup (dict_keys r) -> NoDup (dict_keys (Registery.run_calls cs r)).
Proof.
  revert r. induction cs as [|c cs IH]; intros r Hr; simpl; [assumption|].
  apply IH. rewrite run_call_set. now apply dict_keys_set_NoDup.
Qed.

Lemma first_seen_ext (seen seen' names : list string) :
  (forall n, In n seen <-> In n seen') ->
  Registery.first_seen seen names = Registery.first_seen seen' names.
Proof.
  revert seen seen'. induction names as [|n ns IH]; intros seen seen' H; simpl.
  - reflexivity.
  - assert (E : mem_string n seen = mem_string n seen').
    { destruct (mem_string n seen) eqn:E1.
      - symmetry. apply mem_string_In, H, mem_string_In, E1.
      - destruct (mem_string n seen') eqn:E2; [|reflexivity].
        apply mem_string_In, H, mem_string_In in E2. congruence. }
    rewrite E. destruct (mem_string n seen').
    + now apply IH.
    + f_equal. apply IH. intros m. rewrite !in_app_iff, H. tauto.
Qed.

Lemma run_calls_keys (cs : list Registery.reg_call) (r : Registery.registry) :
  dict_keys (Registery.run_calls cs r) =
  dict_keys r ++ Registery.first_seen (dict_keys r) (map Registery.call_name cs).
Proof.
  revert r. induction cs as [|c cs IH]; intros r; simpl.
  - now rewrite app_nil_r.
  - rewrite IH, run_call_set, dict_keys_set.
    destruct (mem_string (Registery.call_name c) (dict_keys r)) eqn:E.
    + reflexivity.
    + now rewrite <- app_assoc.
Qed.

Lemma run_calls_get (cs : list Registery.reg_call) (r : Registery.registry)
    (name : string) :
  dict_get name (Registery.run_calls cs r) =
  match Registery.last_registered name cs with
  | Some cls => Some cls
  | None => dict_get name r
  end.
Proof.
  revert r. induction cs as [|c cs IH]; intros r; simpl; [reflexivity|].
  rewrite IH. destruct (Registery.last_registered name cs); [reflexivity|].
  rewrite run_call_set, dict_get_set.
  now destruct (String.eqb name (Registery.call_name c)).
Qed.

Lemma last_registered_In (name : string) (cs : list Registery.reg_call) :
  (exists cls, Registery.last_registered name cs = Some cls) <->
  In name (map Registery.call_name cs).
Proof.
  induction cs as [|c cs IH]; simpl.
  - split; [intros [? ?]; discriminate | intros []].
  - destruct (Registery.last_registered name cs) as [cls|].
    + split; [intros _; right; apply IH; eauto | eauto].
    + destruct (String.eqb name (Registery.call_name c)) eqn:E.
      * apply String.eqb_eq in E. split; [now left | eauto].
      * split; [intros [? ?]; discriminate|].
        intros [Hc|H]; [rewrite <- Hc, String.eqb_refl in E; discriminate|].
        apply IH in H as [? ?]. discriminate.
Qed.

(** C9.  Registration inserts or overwrites the entry of its name and
    leaves every other entry alone; no sequence of registrations removes a
    name; after any sequence of calls each name maps to the class of its
    last registration, and the names come in the order in which they were
    first registered. *)
Theorem registry_register_sequence (cs : list Registery.reg_call)
    (r : Registery.registry) :
  (forall name cls,
      dict_get name (Registery.register_generator name cls r) = Some cls /\
      dict_get (cls_name cls) (Registery.register cls r) = Some cls /\
      (forall other, name <> other ->
         dict_get other (Registery.register_generator name cls r) =
         dict_get other r)) /\
  (forall name, In name (dict_keys r) ->
      In name (dict_keys (Registery.run_calls cs r))) /\
  (forall name,
      dict_get name (Registery.run_calls cs Registery.REGISTERED_GENERATORS_init) =
      Registery.last_registered name cs) /\
  dict_keys (Registery.run_calls cs Registery.REGISTERED_GENERATORS_init) =
  Registery.first_seen [] (map Registery.call_name cs).
Proof.
  repeat split.
  - apply dict_get_set_eq.
  - apply dict_get_set_eq.
  - intros other Hne. now apply dict_get_set_ne.
  - intros name Hin. rewrite run_calls_keys. apply in_app_iff. now left.
  - intros name. rewrite run_calls_get. simpl.
    now destruct (Registery.last_registered name cs).
  - now rewrite run_calls_keys.
Qed.

(** ** The [image-list] tool *)

Lemma list_generators_map (gens : pydict pyclass) :
  NoDup (dict_keys gens) ->
  Main.list_generators gens =
  map (fun item =>
         (fst item,
          {| Main.le_class :=
               cls_module (snd item) +:+ "." +:+ cls_name (snd item);
             Main.le_generate := Main._is_overridden (snd item) "generate_image";
             Main.le_edit := Main._is_overridden (snd item) "edit_image" |}))
      gens.
Proof.
  intros Hnd. unfold Main.list_generators.
  rewrite (fold_set_fresh
             (fun cls => {| Main.le_class := cls_module cls +:+ "." +:+ cls_name cls;
                            Main.le_generate := Main._is_overridden cls "generate_image";
                            Main.le_edit := Main._is_overridden cls "edit_image" |})
             gens []); [reflexivity | assumption |].
  intros k _ [].
Qed.

Lemma dict_get_map {V W} (f : V -> W) (k : string) (d : pydict V) :
  dict_get k (map (fun item => (fst item, f (snd item))) d) =
  option_map f (dict_get k d).
Proof.
  induction d as [|[k' v] d IH]; simpl; [reflexivity|].
  now destruct (String.eqb k k').
Qed.

(** The two backends of the repository, as the tool lists them. *)
Example image_list_startup :
  Main.image_list REGISTERED_GENERATORS =
  [("flux", {| Main.le_class := "imagen.flux.FluxClient";
               Main.le_generate := true; Main.le_edit := false |});
   ("nanobanana",
    {| Main.le_class := "imagen.runpod_nanobanana.RunpodNanoBananaClient";
       Main.le_generate := false; Main.le_edit := true |})].
Proof. reflexivity. Qed.

(** C8.  The output of [image-list] has exactly the registered names, in
    the registry's order and each once; the entry of a name carries the
    flags of the class last registered under it: [generate] is set exactly
    when [generate_image] is bound in that class's own body, [edit]
    exactly when [edit_image] is. *)
Theorem image_list_exact (cs : list Registery.reg_call) :
  let registered :=
    Registery.run_calls cs Registery.REGISTERED_GENERATORS_init in
  let out := Main.image_list registered in
  dict_keys out = dict_keys registered /\
  NoDup (dict_keys out) /\
  (forall name, In name (dict_keys out) <->
                In name (map Registery.call_name cs)) /\
  (forall name cls, dict_get name registered = Some cls ->
     exists entry,
       dict_get name out = Some entry /\
       (Main.le_generate entry = true <-> In "generate_image" (cls_dict cls)) /\
       (Main.le_edit entry = true <-> In "edit_image" (cls_dict cls))).
Proof.
  intros registered out.
  assert (Hnd : NoDup (dict_keys registered)).
  { apply run_calls_NoDup. constructor. }
  assert (Hout : out = map (fun item =>
            (fst item,
             {| Main.le_class :=
                  cls_module (snd item) +:+ "." +:+ cls_name (snd item);
                Main.le_generate := Main._is_overridden (snd item) "generate_image";
                Main.le_edit := Main._is_overridden (snd item) "edit_image" |}))
            registered).
  { unfold out, Main.image_list. rewrite dict_copy_NoDup by assumption.
    now apply list_generators_map. }
  assert (Hkeys : dict_keys out = dict_keys registered).
  { rewrite Hout. unfold dict_keys. rewrite map_map. reflexivity. }
  repeat split.
  - exact Hkeys.
  - now rewrite Hkeys.
  - rewrite Hkeys. intros Hin. apply dict_get_In in Hin as [cls Hget].
    unfold registered in Hget. rewrite run_calls_get in Hget. simpl in Hget.
    apply last_registered_In.
    destruct (Registery.last_registered name cs); [eauto | discriminate].
  - rewrite Hkeys. intros Hin. apply last_registered_In in Hin as [cls Hl].
    apply dict_get_In. exists cls. unfold registered.
    rewrite run_calls_get, Hl. reflexivity.
  - intros name cls Hget. rewrite Hout.
    eexists. split.
    + rewrite (dict_get_map
                 (fun c => {| Main.le_class := cls_module c +:+ "." +:+ cls_name c;
                              Main.le_generate := Main._is_overridden c "generate_image";
                              Main.le_edit := Main._is_overridden c "edit_image" |})).
      rewrite Hget. reflexivity.
    + simpl. split; apply mem_string_In.
Qed.

(** ** Option construction *)

Section FoldOptional.
Context {V : Type}.

(** Both default extractors are this fold: an entry that has a value is
    stored, one that has none is skipped. *)
Definition store_optional (out : pydict V) (item : string * option V)
    : pydict V :=
  match snd item with
  | Some v => dict_set (fst item) v out
  | None => out
  end.

Lemma fold_optional_get (items : pydict (option V)) (acc : pydict V)
    (k : string) :
  NoDup (dict_keys items) ->
  dict_get k (fold_left store_optional items acc) =
  match dict_get k items with
  | Some (Some v) => Some v
  | _ => dict_get k acc
  end.
Proof.
  revert acc. induction items as [|[k0 o] items IH]; intros acc Hnd; simpl.
  - reflexivity.
  - apply NoDup_cons in Hnd as [Hk0 Hnd]. rewrite IH by assumption.
    destruct (String.eqb k k0) eqn:E.
    + apply String.eqb_eq in E. subst k0.
      assert (Hnone : dict_get k items = None).
      { apply dict_get_None. intros H. apply Hk0. now apply list_elem_of_In. }
      rewrite Hnone. unfold store_optional. simpl.
      destruct o; [apply dict_get_set_eq | reflexivity].
    + destruct (dict_get k items) as [[v|]|]; try reflexivity;
        unfold store_optional; simpl; destruct o; try reflexivity;
        apply dict_get_set_ne; intros ->; now rewrite String.eqb_refl in E.
Qed.

Lemma dict_update_fold (d1 d2 : pydict V) :
  dict_update d1 d2 =
  fold_left store_optional (map (fun kv => (fst kv, Some (snd kv))) d2) d1.
Proof.
  unfold dict_update. revert d1.
  induction d2 as [|[k v] d2 IH]; intros d1; simpl; [reflexivity|].
  apply IH.
Qed.

Lemma dict_update_get (d1 d2 : pydict V) (k : string) :
  NoDup (dict_keys d2) ->
  dict_get k (dict_update d1 d2) =
  match dict_get k d2 with
  | Some v => Some v
  | None => dict_get k d1
  end.
Proof.
  intros Hnd. rewrite dict_update_fold, fold_optional_get.
  - rewrite (dict_get_map Some). now destruct (dict_get k d2).
  - unfold dict_keys. rewrite map_map. exact Hnd.
Qed.

Lemma dict_update_keys (d1 d2 : pydict V) (k : string) :
  In k (dict_keys (dict_update d1 d2)) <->
  In k (dict_keys d1) \/ In k (dict_keys d2).
Proof.
  unfold dict_update. revert d1.
  induction d2 as [|[k0 v0] d2 IH]; intros d1; simpl.
  - tauto.
  - rewrite IH, dict_keys_set.
    destruct (mem_string k0 (dict_keys d1)) eqn:E.
    + apply mem_string_In in E. split; [tauto|].
      intros [H|[<-|H]]; tauto.
    + rewrite in_app_iff. simpl. tauto.
Qed.
End FoldOptional.

Lemma nodup_strings_NoDup (l : list string) :
  Main.nodup_strings l = true -> NoDup l.
Proof.
  induction l as [|x l IH]; simpl; intros H; [constructor|].
  apply andb_true_iff in H as [Hx Hl]. apply negb_true_iff in Hx.
  apply NoDup_cons. split; [|auto].
  intros Hin. apply list_elem_of_In in Hin.
  apply mem_string_false in Hx. contradiction.
Qed.

Lemma defaults_fold (t : Main.options_type) :
  Main.defaults t = fold_left store_optional (default_items t) [].
Proof.
  destruct t as [fs|ps]; simpl.
  - unfold Main._defaults_from_dataclass. generalize (@nil (string * pyval)).
    induction fs as [|f fs IH]; intros acc; simpl; [reflexivity|].
    rewrite IH. f_equal. unfold store_optional, Main.field_default. simpl.
    destruct (Main.f_default f); [reflexivity|].
    now destruct (Main.f_default_factory f).
  - unfold Main._defaults_from_init_signature.
    generalize (@nil (string * pyval)).
    induction ps as [|p ps IH]; intros acc; simpl; [reflexivity|].
    rewrite IH. f_equal. unfold store_optional. simpl.
    destruct (String.eqb (Main.p_name p) "self"); [reflexivity|].
    now destruct (Main.p_default p).
Qed.

Lemma well_formed_sig (t : Main.options_type) :
  Main.well_formed t = true ->
  exists p rest,
    Main.init_signature t = p :: rest /\ Main.p_name p = "self" /\
    Main.declared_fields t = rest /\
    ~ In "self" (map Main.p_name rest) /\ NoDup (map Main.p_name rest).
Proof.
  unfold Main.well_formed, Main.declared_fields, Main.keyword_params.
  intros H. apply andb_true_iff in H as [Hnd Hself].
  destruct (Main.init_signature t) as [|p rest]; [discriminate|].
  apply String.eqb_eq in Hself. apply nodup_strings_NoDup in Hnd.
  simpl in Hnd. apply NoDup_cons in Hnd as [Hp Hnd].
  exists p, rest. repeat split; try assumption.
  intros Hin. apply Hp. rewrite Hself. now apply list_elem_of_In.
Qed.

Lemma dict_get_map_ext {A V} (f g : A -> string * V) (l : list A) (k : string) :
  (forall a, In a l -> f a = g a) ->
  dict_get k (map f l) = dict_get k (map g l).
Proof.
  intros H. f_equal. apply map_ext_in. exact H.
Qed.

(** The defaults the code extracts are the declared ones. *)
Lemma defaults_get (t : Main.options_type) (k : string) :
  Main.well_formed t = true ->
  dict_get k (Main.defaults t) = Main.declared_default t k.
Proof.
  intros Hwf. destruct (well_formed_sig t Hwf) as (p & rest & Hsig & Hp & Hdecl & Hns & Hnd).
  rewrite defaults_fold. unfold Main.declared_default. rewrite Hdecl.
  destruct t as [fs|ps]; simpl in *.
  - unfold Main.dataclass_init in Hsig. injection Hsig as _ Hrest. subst rest.
    rewrite map_map in *. simpl in *.
    rewrite fold_optional_get.
    + simpl. now destruct (dict_get k _) as [[v|]|].
    + unfold dict_keys. rewrite map_map. exact Hnd.
  - subst ps. simpl. rewrite Hp. simpl.
    unfold store_optional at 2. simpl.
    rewrite fold_optional_get.
    + rewrite (dict_get_map_ext _ (fun p => (Main.p_name p, Main.p_default p))).
      * simpl. now destruct (dict_get k _) as [[v|]|].
      * intros a Ha. destruct (String.eqb (Main.p_name a) "self") eqn:E; [|reflexivity].
        apply String.eqb_eq in E. exfalso. apply Hns. rewrite <- E.
        now apply in_map.
    + unfold dict_keys. rewrite map_map. exact Hnd.
Qed.

Lemma declared_default_field (t : Main.options_type) (k : string) (v : pyval) :
  Main.declared_default t k = Some v -> In k (Main.field_names t).
Proof.
  unfold Main.declared_default, Main.field_names. intros H.
  destruct (dict_get k _) as [d|] eqn:E; [|discriminate].
  assert (Hin : In k (dict_keys (map (fun p => (Main.p_name p, Main.p_default p))
                                     (Main.declared_fields t)))).
  { apply dict_get_In. eauto. }
  unfold dict_keys in Hin. now rewrite map_map in Hin.
Qed.

Lemma bad_keyword_None (sig : list Main.Param) (kwargs : pydict pyval) :
  (forall k, In k (dict_keys kwargs) ->
     In k (map Main.p_name (Main.keyword_params sig)) /\
     ~ In k (Main.bound_first sig)) <->
  Main.bad_keyword sig kwargs = None.
Proof.
  induction kwargs as [|[k v] kwargs IH]; simpl.
  - split; [reflexivity | intros _ k []].
  - destruct (mem_string k (Main.bound_first sig)) eqn:Eb.
    + split; [|discriminate]. intros H.
      destruct (H k (or_introl eq_refl)) as [_ Hn].
      apply mem_string_In in Eb. contradiction.
    + destruct (mem_string k (map Main.p_name (Main.keyword_params sig))) eqn:Ek.
      * rewrite <- IH. apply mem_string_In in Ek. apply mem_string_false in Eb.
        split; [intros H k' Hk'; apply H; now right|].
        intros H k' [<-|Hk']; [split; assumption | now apply H].
      * split; [|discriminate]. intros H.
        destruct (H k (or_introl eq_refl)) as [Hin _].
        apply mem_string_In in Hin. congruence.
Qed.

Lemma build_options_construct (t : Main.options_type) (payload : pydict pyval) :
  Main._build_options_object t payload =
  Main.construct t (Main.merged t payload).
Proof. now destruct t. Qed.

(** With every payload key a declared field, no keyword is refused. *)
Lemma merged_keywords_accepted (t : Main.options_type) (payload : pydict pyval) :
  Main.well_formed t = true ->
  (forall k, In k (dict_keys payload) -> In k (Main.field_names t)) ->
  Main.bad_keyword (Main.init_signature t) (Main.merged t payload) = None.
Proof.
  intros Hwf Hkeys.
  destruct (well_formed_sig t Hwf) as (p & rest & Hsig & Hp & Hdecl & Hns & Hnd).
  apply bad_keyword_None. intros k Hk.
  assert (Hfield : In k (Main.field_names t)).
  { apply dict_update_keys in Hk as [Hk|Hk]; [|now apply Hkeys].
    apply dict_get_In in Hk as [v Hv]. rewrite defaults_get in Hv by assumption.
    eapply declared_default_field; eassumption. }
  unfold Main.field_names in Hfield. rewrite Hdecl in Hfield.
  rewrite Hsig. simpl. split; [assumption|].
  intros [E|[]]. apply Hns. congruence.
Qed.

Lemma find_app_none {A} (P : A -> bool) (l1 l2 : list A) :
  (forall x, In x l1 -> P x = false) -> find P (l1 ++ l2) = find P l2.
Proof.
  induction l1 as [|a l1 IH]; simpl; intros H; [reflexivity|].
  rewrite (H a) by now left. apply IH. intros x Hx. apply H. now right.
Qed.

Lemma find_pointwise {A} (P Q : A -> bool) (l : list A) :
  (forall x, P x = Q x) -> find P l = find Q l.
Proof.
  intros H. induction l as [|a l IH]; simpl; [reflexivity|].
  rewrite H, IH. reflexivity.
Qed.

Lemma dict_update_keys_prefix {V} (d1 d2 : pydict V) :
  exists rest, dict_keys (dict_update d1 d2) = dict_keys d1 ++ rest.
Proof.
  unfold dict_update. revert d1.
  induction d2 as [|[k v] d2 IH]; intros d1; simpl.
  - exists []. now rewrite app_nil_r.
  - destruct (IH (dict_set k v d1)) as [rest Hrest]. rewrite Hrest.
    rewrite dict_keys_set. destruct (mem_string k (dict_keys d1)).
    + now exists rest.
    + exists (k :: rest). now rewrite <- app_assoc.
Qed.

(** The first key of [{**d1, **d2}] that [P] holds of is the first such
    key of [d2], when [P] holds of no key of [d1]. *)
Lemma find_dict_update {V} (P : string -> bool) (d1 d2 : pydict V) :
  (forall k, In k (dict_keys d1) -> P k = false) ->
  find P (dict_keys (dict_update d1 d2)) = find P (dict_keys d2).
Proof.
  unfold dict_update. revert d1.
  induction d2 as [|[k v] d2 IH]; intros d1 Hd1; simpl.
  - destruct (find P (dict_keys d1)) as [x|] eqn:E; [|reflexivity].
    apply find_some in E as [Hin Hx]. rewrite Hd1 in Hx by assumption.
    discriminate.
  - destruct (P k) eqn:Ek.
    + assert (Hfresh : ~ In k (dict_keys d1)).
      { intros Hin. rewrite Hd1 in Ek by assumption. discriminate. }
      rewrite dict_set_fresh by assumption.
      destruct (dict_update_keys_prefix (d1 ++ [(k, v)]) d2) as [rest Hrest].
      unfold dict_update in Hrest. rewrite Hrest.
      unfold dict_keys at 1. rewrite map_app. simpl. rewrite <- app_assoc.
      rewrite find_app_none by exact Hd1. simpl. now rewrite Ek.
    + apply IH. intros k' Hk'. rewrite dict_keys_set in Hk'.
      destruct (mem_string k (dict_keys d1)); [now apply Hd1|].
      apply in_app_iff in Hk' as [Hk'|[<-|[]]]; [now apply Hd1 | assumption].
Qed.

(** The keyword the binding stops at is the first one that names no
    parameter or names the parameter the instance occupies. *)
Lemma bad_keyword_find (sig : list Main.Param) (kwargs : pydict pyval) :
  Main.bad_keyword sig kwargs =
  option_map
    (fun k => if mem_string k (Main.bound_first sig)
              then MultipleValues k else UnexpectedKeyword k)
    (find (fun k => mem_string k (Main.bound_first sig)
                    || negb (mem_string k (map Main.p_name (Main.keyword_params sig))))
          (dict_keys kwargs)).
Proof.
  induction kwargs as [|[k v] kwargs IH]; simpl; [reflexivity|].
  destruct (mem_string k (Main.bound_first sig)) eqn:Eb; simpl;
    [now rewrite Eb|].
  destruct (mem_string k (map Main.p_name (Main.keyword_params sig)));
    simpl; [exact IH | now rewrite Eb].
Qed.

(** C3 (as amended).  For a well-formed options type: construction from
    the empty payload succeeds exactly when every declared field has a
    default; when every payload key is a declared field and some field
    without a default is absent from the merge of defaults and payload,
    construction fails with the [TypeError] that lists the absent fields
    in declaration order, the first absent field first; and when some
    payload key is no declared field, construction fails on the first
    such key instead, before any missing field is looked for, with the
    [TypeError] of a second value for [self] when the key is [self] and
    with the [TypeError] of an unexpected keyword otherwise. *)
Theorem build_options_required (t : Main.options_type) (payload : pydict pyval) :
  Main.well_formed t = true ->
  ((exists o, Main._build_options_object t [] = Ok o) <->
   Main.all_have_default t = true) /\
  ((forall k, In k (dict_keys payload) -> In k (Main.field_names t)) ->
   forall first others,
     Main.absent_required t payload = first :: others ->
     Main._build_options_object t payload =
     Raise (TypeError (MissingArguments (first :: others)))) /\
  (forall k,
     first_undeclared t payload = Some k ->
     Main._build_options_object t payload =
     Raise (TypeError (if String.eqb k "self" then MultipleValues k
                       else UnexpectedKeyword k))).
Proof.
  intros Hwf. split; [|split].
  - rewrite build_options_construct. unfold Main.construct.
    rewrite merged_keywords_accepted by (assumption || intros k []).
    change (Main.missing_arguments (Main.init_signature t) (Main.merged t []))
      with (Main.absent_required t []).
    unfold Main.absent_required, Main.all_have_default.
    assert (Hfilter : forall ps,
               (forall p, In p ps -> In p (Main.declared_fields t)) ->
               map Main.p_name
                 (List.filter
                    (fun p => negb (dict_has (Main.p_name p) (Main.merged t []))
                              && match Main.p_default p with
                                 | None => true | Some _ => false end) ps) = [] <->
               forallb (fun p => match Main.p_default p with
                                 | Some _ => true | None => false end) ps = true).
    { induction ps as [|p ps IH]; intros Hsub; simpl; [tauto|].
      assert (IH' := IH (fun q Hq => Hsub q (or_intror Hq))).
      destruct (Main.p_default p) as [d|] eqn:Ed; simpl.
      - now rewrite andb_false_r.
      - rewrite andb_true_r.
        assert (Hhas : dict_has (Main.p_name p) (Main.merged t []) = false).
        { unfold dict_has, Main.merged. simpl.
          rewrite defaults_get by assumption.
          unfold Main.declared_default.
          destruct (well_formed_sig t Hwf) as (p0 & rest & _ & _ & Hdecl & _ & Hnd).
          rewrite Hdecl in *.
          assert (Hp : In p rest) by (apply Hsub; now left).
          clear - Hp Hnd Ed.
          induction rest as [|q rest IHr]; [destruct Hp|].
          simpl in *. apply NoDup_cons in Hnd as [Hq Hnd].
          destruct Hp as [->|Hp].
          - now rewrite String.eqb_refl, Ed.
          - destruct (String.eqb (Main.p_name p) (Main.p_name q)) eqn:E.
            + apply String.eqb_eq in E. exfalso. apply Hq. rewrite <- E.
              apply list_elem_of_In. now apply in_map.
            + now apply IHr. }
        rewrite Hhas. simpl. split; discriminate. }
    specialize (Hfilter (Main.declared_fields t) (fun p Hp => Hp)).
    destruct (map Main.p_name _) as [|n ns] eqn:Em.
    + split; [intros _; now apply Hfilter | eauto].
    + split; [intros [o Ho]; discriminate|].
      intros Hall. apply Hfilter in Hall. discriminate.
  - intros Hkeys first others Habsent.
    rewrite build_options_construct. unfold Main.construct.
    rewrite merged_keywords_accepted by assumption.
    change (Main.missing_arguments (Main.init_signature t) (Main.merged t payload))
      with (Main.absent_required t payload).
    now rewrite Habsent.
  - intros k Hk.
    destruct (well_formed_sig t Hwf) as (p & rest & Hsig & Hp & Hdecl & Hns & Hnd).
    rewrite build_options_construct. unfold Main.construct.
    rewrite bad_keyword_find.
    assert (Hbad : forall k',
               mem_string k' (Main.bound_first (Main.init_signature t))
               || negb (mem_string k' (map Main.p_name
                                         (Main.keyword_params (Main.init_signature t)))) =
               negb (mem_string k' (Main.field_names t))).
    { intros k'. unfold Main.field_names. rewrite Hdecl, Hsig. simpl. rewrite Hp.
      destruct (String.eqb k' "self") eqn:E; simpl; [|reflexivity].
      apply String.eqb_eq in E. subst k'. symmetry. apply negb_true_iff.
      now apply mem_string_false. }
    rewrite (find_pointwise _ _ _ Hbad).
    unfold Main.merged. rewrite find_dict_update.
    + unfold first_undeclared in Hk. rewrite Hk. simpl.
      rewrite Hsig. simpl. rewrite Hp, orb_false_r. reflexivity.
    + intros k' Hk'. apply negb_false_iff, mem_string_In.
      apply dict_get_In in Hk' as [v Hv]. rewrite defaults_get in Hv by assumption.
      eapply declared_default_field; eassumption.
Qed.

(** The theorem at the Flux options.  With the empty payload [prompt]
    has no default, so construction fails naming it; with a payload that
    names [seed], then [self], construction fails on [seed]; with one that
    names [self] first it fails on [self]. *)
Lemma build_options_required_witness :
  Main.well_formed Flux.FluxImageGeneratorOptions = true /\
  Main._build_options_object Flux.FluxImageGeneratorOptions [] =
    Raise (TypeError (MissingArguments ["prompt"])) /\
  Main._build_options_object Flux.FluxImageGeneratorOptions
    [("prompt", VStr "a cat"); ("seed", VInt 7); ("self", VInt 2)] =
    Raise (TypeError (UnexpectedKeyword "seed")) /\
  Main._build_options_object Flux.FluxImageGeneratorOptions
    [("self", VInt 2); ("seed", VInt 7)] =
    Raise (TypeError (MultipleValues "self")).
Proof.
  split; [reflexivity|]. split; [|split].
  - apply (build_options_required Flux.FluxImageGeneratorOptions []);
      [reflexivity | intros k [] | reflexivity].
  - apply (proj2 (proj2 (build_options_required Flux.FluxImageGeneratorOptions
             [("prompt", VStr "a cat"); ("seed", VInt 7); ("self", VInt 2)]
             eq_refl)) "seed"). reflexivity.
  - apply (proj2 (proj2 (build_options_required Flux.FluxImageGeneratorOptions
             [("self", VInt 2); ("seed", VInt 7)] eq_refl)) "self"). reflexivity.
Defined.

(** C3 as stated fails: with a payload key that is no field, the error
    is about that key and names no missing field, although [prompt] is
    absent from the merge. *)
Lemma build_options_unknown_key :
  Main.absent_required Flux.FluxImageGeneratorOptions [("foo", VInt 1)] =
    ["prompt"] /\
  Main._build_options_object Flux.FluxImageGeneratorOptions [("foo", VInt 1)] =
    Raise (TypeError (UnexpectedKeyword "foo")) /\
  ~ (exists names,
       Main._build_options_object Flux.FluxImageGeneratorOptions
         [("foo", VInt 1)] = Raise (TypeError (MissingArguments names))).
Proof.
  repeat split; try reflexivity.
  intros [names H]. vm_compute in H. discriminate.
Qed.

Lemma declared_default_param (ps : list Main.Param) (p : Main.Param) :
  NoDup (map Main.p_name ps) -> In p ps ->
  dict_get (Main.p_name p) (map (fun q => (Main.p_name q, Main.p_default q)) ps) =
  Some (Main.p_default p).
Proof.
  induction ps as [|q ps IH]; intros Hnd Hin; [destruct Hin|].
  simpl in *. apply NoDup_cons in Hnd as [Hq Hnd].
  destruct Hin as [->|Hin]; [now rewrite String.eqb_refl|].
  destruct (String.eqb (Main.p_name p) (Main.p_name q)) eqn:E; [|auto].
  apply String.eqb_eq in E. exfalso. apply Hq. rewrite <- E.
  apply list_elem_of_In. now apply in_map.
Qed.

(** An attribute of the new instance is the keyword's value, or else the
    parameter's default. *)
Lemma bind_arguments_get (ps : list Main.Param) (kwargs : pydict pyval)
    (p : Main.Param) :
  NoDup (map Main.p_name ps) -> In p ps ->
  dict_get (Main.p_name p)
    (flat_map
       (fun q =>
          match dict_get (Main.p_name q) kwargs with
          | Some v => [(Main.p_name q, v)]
          | None => match Main.p_default q with
                    | Some v => [(Main.p_name q, v)]
                    | None => []
                    end
          end) ps) =
  match dict_get (Main.p_name p) kwargs with
  | Some v => Some v
  | None => Main.p_default p
  end.
Proof.
  induction ps as [|q ps IH]; intros Hnd Hin; [destruct Hin|].
  simpl in *. apply NoDup_cons in Hnd as [Hq Hnd].
  destruct Hin as [->|Hin].
  - destruct (dict_get (Main.p_name p) kwargs) as [v|] eqn:Ek; simpl.
    + now rewrite String.eqb_refl.
    + destruct (Main.p_default p) as [d|] eqn:Ed; simpl.
      * now rewrite String.eqb_refl.
      * assert (Hnone : forall l, ~ In (Main.p_name p) (map Main.p_name l) ->
                   dict_get (Main.p_name p)
                     (flat_map
                        (fun q =>
                           match dict_get (Main.p_name q) kwargs with
                           | Some v => [(Main.p_name q, v)]
                           | None => match Main.p_default q with
                                     | Some v => [(Main.p_name q, v)]
                                     | None => []
                                     end
                           end) l) = None).
        { induction l as [|r l IHl]; simpl; intros Hn; [reflexivity|].
          assert (Er : String.eqb (Main.p_name p) (Main.p_name r) = false).
          { apply String.eqb_neq. intros E. apply Hn. now left. }
          assert (Hl : ~ In (Main.p_name p) (map Main.p_name l)) by tauto.
          destruct (dict_get (Main.p_name r) kwargs); simpl;
            [rewrite Er; auto|].
          destruct (Main.p_default r); simpl; [rewrite Er; auto | auto]. }
        apply Hnone. intros H. apply Hq. now apply list_elem_of_In.
  - assert (E : String.eqb (Main.p_name p) (Main.p_name q) = false).
    { apply String.eqb_neq. intros E. apply Hq. rewrite <- E.
      apply list_elem_of_In. now apply in_map. }
    destruct (dict_get (Main.p_name q) kwargs); simpl; [rewrite E; auto|].
    destruct (Main.p_default q); simpl; [rewrite E; auto | auto].
Qed.

Lemma filter_nil {A} (f : A -> bool) (l : list A) :
  List.filter f l = [] <-> forall x, In x l -> f x = false.
Proof.
  induction l as [|a l IH]; simpl.
  - split; [intros _ x [] | reflexivity].
  - destruct (f a) eqn:E.
    + split; [discriminate|]. intros H. rewrite (H a) in E; [discriminate | now left].
    + rewrite IH. split.
      * intros H x [<-|Hx]; auto.
      * intros H x Hx. apply H. now right.
Qed.

Lemma map_nil {A B} (f : A -> B) (l : list A) : map f l = [] <-> l = [].
Proof. destruct l; simpl; split; congruence. Qed.

(** Construction succeeds exactly when the payload names declared fields
    only and names every field that has no default. *)
Lemma construction_succeeds_iff (t : Main.options_type) (payload : pydict pyval) :
  Main.well_formed t = true ->
  (exists o, Main._build_options_object t payload = Ok o) <->
  (forall k, In k (dict_keys payload) -> In k (Main.field_names t)) /\
  (forall p, In p (Main.declared_fields t) -> Main.p_default p = None ->
             In (Main.p_name p) (dict_keys payload)).
Proof.
  intros Hwf.
  destruct (well_formed_sig t Hwf) as (p0 & rest & Hsig & Hp0 & Hdecl & Hns & Hnd).
  assert (Hdefault : forall p, In p rest ->
             dict_get (Main.p_name p) (Main.defaults t) = Main.p_default p).
  { intros p Hp. rewrite defaults_get by assumption.
    unfold Main.declared_default. rewrite Hdecl.
    now rewrite declared_default_param. }
  rewrite build_options_construct. unfold Main.construct. split.
  - intros [o Ho].
    destruct (Main.bad_keyword _ _) eqn:Ebad; [discriminate|].
    destruct (Main.missing_arguments _ _) eqn:Emiss; [|discriminate].
    split.
    + intros k Hk. unfold Main.field_names. rewrite Hdecl.
      apply bad_keyword_None with (k := k) in Ebad.
      * rewrite Hsig in Ebad. apply Ebad.
      * apply dict_update_keys. now right.
    + intros p Hp Hnone. rewrite Hdecl in Hp.
      unfold Main.missing_arguments in Emiss. rewrite Hsig in Emiss.
      simpl in Emiss. apply map_nil in Emiss.
      rewrite filter_nil in Emiss. specialize (Emiss p Hp).
      rewrite Hnone, andb_true_r in Emiss. apply negb_false_iff in Emiss.
      rewrite dict_has_keys in Emiss. apply mem_string_In in Emiss.
      apply dict_update_keys in Emiss as [Hd|Hpay]; [|assumption].
      apply dict_get_In in Hd as [v Hv]. rewrite Hdefault in Hv by assumption.
      congruence.
  - intros [Hkeys Hreq].
    rewrite merged_keywords_accepted by assumption.
    assert (Hmiss : Main.missing_arguments (Main.init_signature t)
                      (Main.merged t payload) = []).
    { unfold Main.missing_arguments. rewrite Hsig. simpl.
      apply map_nil, filter_nil. intros p Hp.
      destruct (Main.p_default p) eqn:Ed; [apply andb_false_r|].
      rewrite andb_true_r. apply negb_false_iff.
      rewrite dict_has_keys. apply mem_string_In, dict_update_keys. right.
      apply Hreq; [now rewrite Hdecl | assumption]. }
    rewrite Hmiss. eauto.
Qed.

(** An attribute of a built object is the payload's value, or else the
    default of the field. *)
Lemma built_attribute (t : Main.options_type) (payload o : pydict pyval)
    (p : Main.Param) :
  Main.well_formed t = true ->
  NoDup (dict_keys payload) ->
  Main._build_options_object t payload = Ok o ->
  In p (Main.declared_fields t) ->
  dict_get (Main.p_name p) o =
  match dict_get (Main.p_name p) payload with
  | Some v => Some v
  | None => Main.p_default p
  end.
Proof.
  intros Hwf Hnd Hbuild Hp.
  destruct (well_formed_sig t Hwf) as (p0 & rest & Hsig & Hp0 & Hdecl & Hns & Hndr).
  rewrite Hdecl in Hp.
  rewrite build_options_construct in Hbuild. unfold Main.construct in Hbuild.
  destruct (Main.bad_keyword _ _); [discriminate|].
  destruct (Main.missing_arguments _ _); [|discriminate].
  injection Hbuild as <-.
  unfold Main.bind_arguments. rewrite Hsig. simpl.
  rewrite bind_arguments_get by assumption.
  unfold Main.merged. rewrite dict_update_get by assumption.
  destruct (dict_get (Main.p_name p) payload); [reflexivity|].
  rewrite defaults_get by assumption.
  unfold Main.declared_default. rewrite Hdecl.
  rewrite declared_default_param by assumption.
  now destruct (Main.p_default p).
Qed.

(** ** Two constructions *)

Lemma same_declaration_names (t t' : Main.options_type) :
  same_declaration t t' ->
  map Main.p_name (Main.init_signature t) =
  map Main.p_name (Main.init_signature t').
Proof.
  destruct t as [fs|ps], t' as [fs'|ps']; simpl; try contradiction.
  - intros H. f_equal. rewrite !map_map. simpl.
    induction H as [|f f' fs fs' (Hn & _) _ IH]; simpl; [reflexivity|].
    now rewrite Hn, IH.
  - now intros ->.
Qed.

Lemma same_declaration_well_formed (t t' : Main.options_type) :
  same_declaration t t' ->
  Main.well_formed t = true -> Main.well_formed t' = true.
Proof.
  intros Hsame. unfold Main.well_formed.
  rewrite (same_declaration_names t t' Hsame).
  destruct t as [fs|ps], t' as [fs'|ps']; simpl in *; try contradiction.
  - tauto.
  - now subst.
Qed.

Lemma same_declaration_fields (t t' : Main.options_type) :
  same_declaration t t' -> Main.field_names t' = Main.field_names t.
Proof.
  intros Hsame. apply same_declaration_names in Hsame.
  unfold Main.field_names, Main.declared_fields, Main.keyword_params.
  destruct (Main.init_signature t), (Main.init_signature t');
    simpl in *; congruence.
Qed.

(** A field that has no default at the later call had none before. *)
Lemma same_declaration_required (t t' : Main.options_type) (p' : Main.Param) :
  same_declaration t t' ->
  In p' (Main.declared_fields t') -> Main.p_default p' = None ->
  exists p, In p (Main.declared_fields t) /\
            Main.p_name p = Main.p_name p' /\ Main.p_default p = None.
Proof.
  destruct t as [fs|ps], t' as [fs'|ps']; simpl; try contradiction.
  - unfold Main.declared_fields. simpl. intros H.
    induction H as [|f f' fs fs' (Hn & _ & Hd & Hf) _ IH]; simpl; [intros []|].
    intros [<-|Hin] Hnone.
    + eexists. split; [now left|]. simpl in *. split; [assumption|].
      unfold Main.field_default in *. rewrite Hd.
      destruct (Main.f_default f'); [discriminate|]. now apply Hf.
    + destruct (IH Hin Hnone) as (p & Hp & Hname & Hdef). eauto.
  - intros ->. eauto.
Qed.

(** A plain default is the same at both calls. *)
Lemma plain_default_same (t t' : Main.options_type) (k : string) :
  same_declaration t t' -> plain_default t k = true ->
  Main.declared_default t' k = Main.declared_default t k.
Proof.
  destruct t as [fs|ps], t' as [fs'|ps']; simpl; try contradiction.
  - unfold Main.declared_default, Main.declared_fields. simpl.
    rewrite !map_map. simpl. intros H.
    induction H as [|f f' fs fs' (Hn & _ & Hd & Hf) _ IH]; simpl; [discriminate|].
    rewrite <- Hn. destruct (String.eqb k (Main.f_name f)); [|exact IH].
    unfold Main.field_default. rewrite <- Hd.
    destruct (Main.f_default f); [reflexivity | discriminate].
  - now intros ->.
Qed.

Lemma plain_default_field (t : Main.options_type) (k : string) :
  plain_default t k = true -> In k (Main.field_names t).
Proof.
  destruct t as [fs|ps]; simpl.
  - unfold Main.field_names, Main.declared_fields. simpl. rewrite map_map. simpl.
    intros H.
    destruct (dict_get k (map (fun f => (Main.f_name f, Main.f_default f)) fs))
      eqn:E; [|discriminate].
    assert (Hin : In k (dict_keys (map (fun f => (Main.f_name f, Main.f_default f)) fs)))
      by (apply dict_get_In; eauto).
    unfold dict_keys in Hin. now rewrite map_map in Hin.
  - destruct (Main.declared_default (Main.PlainClass ps) k) eqn:E; [|discriminate].
    intros _. eapply declared_default_field. eassumption.
Qed.

Lemma declared_default_of (t : Main.options_type) (p : Main.Param) :
  Main.well_formed t = true -> In p (Main.declared_fields t) ->
  Main.declared_default t (Main.p_name p) = Main.p_default p.
Proof.
  intros Hwf Hp.
  destruct (well_formed_sig t Hwf) as (p0 & rest & _ & _ & Hdecl & _ & Hnd).
  unfold Main.declared_default. rewrite Hdecl in *.
  now rewrite declared_default_param.
Qed.

(** What a construction that can succeed builds. *)
Lemma built_object (t : Main.options_type) (payload : pydict pyval) :
  Main.well_formed t = true ->
  NoDup (dict_keys payload) ->
  (forall k, In k (dict_keys payload) -> In k (Main.field_names t)) ->
  (forall p, In p (Main.declared_fields t) -> Main.p_default p = None ->
             In (Main.p_name p) (dict_keys payload)) ->
  exists o,
    Main._build_options_object t payload = Ok o /\
    (forall k v, dict_get k payload = Some v -> getattr o k = Ok v) /\
    (forall k, In k (Main.field_names t) -> dict_get k payload = None ->
       exists d, Main.declared_default t k = Some d /\ getattr o k = Ok d).
Proof.
  intros Hwf Hnd Hkeys Hreq.
  destruct (proj2 (construction_succeeds_iff t payload Hwf) (conj Hkeys Hreq))
    as [o Ho].
  exists o. split; [assumption|]. split.
  - intros k v Hk.
    assert (Hin : In k (Main.field_names t))
      by (apply Hkeys, dict_get_In; eauto).
    apply in_map_iff in Hin as (p & <- & Hp).
    unfold getattr. now rewrite (built_attribute t payload o p), Hk.
  - intros k Hin Hk. apply in_map_iff in Hin as (p & <- & Hp).
    destruct (Main.p_default p) as [d|] eqn:Ed.
    + exists d. split; [now rewrite declared_default_of|].
      unfold getattr. now rewrite (built_attribute t payload o p), Hk, Ed.
    + exfalso. apply dict_get_None in Hk. apply Hk. now apply Hreq.
Qed.

(** C4 (as amended).  When the keys of the payload are declared fields
    and every field without a default is among them, construction
    succeeds: every field the payload supplies holds the supplied value
    and every other declared field holds its declared default.  A second
    construction from the same payload succeeds too, and its object
    agrees with the first on every field that the payload supplies or
    that is declared with a plain default. *)
Theorem build_options_fields (t : Main.options_type) (payload : pydict pyval) :
  Main.well_formed t = true ->
  NoDup (dict_keys payload) ->
  (forall k, In k (dict_keys payload) -> In k (Main.field_names t)) ->
  (forall p, In p (Main.declared_fields t) -> Main.p_default p = None ->
             In (Main.p_name p) (dict_keys payload)) ->
  exists o,
    Main._build_options_object t payload = Ok o /\
    (forall k v, dict_get k payload = Some v -> getattr o k = Ok v) /\
    (forall k, In k (Main.field_names t) -> dict_get k payload = None ->
       exists d, Main.declared_default t k = Some d /\ getattr o k = Ok d) /\
    (forall t', same_declaration t t' ->
       exists o',
         Main._build_options_object t' payload = Ok o' /\
         forall k, In k (dict_keys payload) \/ plain_default t k = true ->
                   getattr o' k = getattr o k).
Proof.
  intros Hwf Hnd Hkeys Hreq.
  destruct (built_object t payload Hwf Hnd Hkeys Hreq)
    as (o & Ho & Hsupplied & Hdefault).
  exists o. repeat split; try assumption.
  intros t' Hsame.
  destruct (built_object t' payload) as (o' & Ho' & Hsupplied' & Hdefault').
  - now apply (same_declaration_well_formed t t').
  - assumption.
  - intros k Hk. rewrite (same_declaration_fields t t') by assumption. auto.
  - intros p' Hp' Hnone.
    destruct (same_declaration_required t t' p' Hsame Hp' Hnone)
      as (p & Hp & <- & Hdef). auto.
  - exists o'. split; [assumption|]. intros k Hk.
    destruct (dict_get k payload) as [v|] eqn:Hv.
    + now rewrite (Hsupplied k v), (Hsupplied' k v).
    + destruct Hk as [Hk|Hk].
      { apply dict_get_In in Hk as [v Hv']. congruence. }
      assert (Hfield : In k (Main.field_names t)) by now apply plain_default_field.
      destruct (Hdefault k Hfield Hv) as (d & Hd & ->).
      destruct (Hdefault' k) as (d' & Hd' & ->);
        [now rewrite (same_declaration_fields t t') | assumption |].
      rewrite (plain_default_same t t') in Hd' by assumption. congruence.
Qed.

(** The theorem at the NanoBanana options and a payload that supplies
    the two required fields and overrides one default. *)
Lemma build_options_fields_witness :
  exists o,
    Main._build_options_object Nanobanana.RunpodNanoBananaImageEditingOptions
      sample_edit_payload = Ok o /\
    (forall k v, dict_get k sample_edit_payload = Some v -> getattr o k = Ok v) /\
    (forall k,
       In k (Main.field_names Nanobanana.RunpodNanoBananaImageEditingOptions) ->
       dict_get k sample_edit_payload = None ->
       exists d,
         Main.declared_default Nanobanana.RunpodNanoBananaImageEditingOptions k
           = Some d /\
         getattr o k = Ok d) /\
    (forall t',
       same_declaration Nanobanana.RunpodNanoBananaImageEditingOptions t' ->
       exists o',
         Main._build_options_object t' sample_edit_payload = Ok o' /\
         forall k,
           In k (dict_keys sample_edit_payload) \/
           plain_default Nanobanana.RunpodNanoBananaImageEditingOptions k = true ->
           getattr o' k = getattr o k).
Proof.
  apply (build_options_fields Nanobanana.RunpodNanoBananaImageEditingOptions
           sample_edit_payload).
  - reflexivity.
  - apply nodup_strings_NoDup. reflexivity.
  - simpl. intros k [<-|[<-|[<-|[]]]]; simpl; tauto.
  - simpl. intros p [<-|[<-|[<-|[<-|[]]]]]; simpl; intros H;
      try discriminate; tauto.
Defined.

(** C4 as stated fails: a field filled by a factory holds what the call
    of the moment returned.  Two constructions from the same payload, the
    factory returning one stamp to the first and another to the second,
    yield objects that differ. *)
Lemma build_options_factory_differs :
  same_declaration (stamped_options "5f1c") (stamped_options "9a07") /\
  Main._build_options_object (stamped_options "5f1c") [("prompt", VStr "a cat")] =
    Ok [("prompt", VStr "a cat"); ("stamp", VStr "5f1c")] /\
  Main._build_options_object (stamped_options "9a07") [("prompt", VStr "a cat")] =
    Ok [("prompt", VStr "a cat"); ("stamp", VStr "9a07")] /\
  [("prompt", VStr "a cat"); ("stamp", VStr "5f1c")] <>
  [("prompt", VStr "a cat"); ("stamp", VStr "9a07")].
Proof.
  repeat split; try reflexivity; try discriminate.
  repeat constructor; simpl; try tauto; try discriminate.
Qed.

(** ** binary64 *)

Section Binary64.
Local Open Scope Z_scope.

Lemma shr_1_nonneg (mrs : shr_record) :
0 <= shr_m mrs -> 0 <= shr_m (shr_1 mrs).
Proof.
destruct mrs as [m r s]. simpl.
destruct m as [|[p|p|]|p]; simpl; lia.
Qed.

Lemma iter_pos_invariant {A} (P : A -> Prop) (f : A -> A) :
(forall a, P a -> P (f a)) ->
forall n a, P a -> P (SpecFloat.iter_pos f n a).
Proof.
intros Hf. induction n as [n IH|n IH|]; intros a Ha; simpl; auto.
Qed.

Lemma shr_fexp_nonneg (prec emax m e : Z) (l : location) :
0 <= m -> 0 <= shr_m (fst (shr_fexp prec emax m e l)).
Proof.
intros Hm. unfold shr_fexp, shr.
assert (H0 : 0 <= shr_m (shr_record_of_loc m l)).
{ destruct l as [|[| |]]; simpl; assumption. }
destruct (fexp prec emax (Zdigits2 m + e) - e); simpl; try assumption.
apply (iter_pos_invariant (fun mrs => 0 <= shr_m mrs)); [|assumption].
apply shr_1_nonneg.
Qed.

Lemma round_nearest_even_nonneg (m : Z) (l : location) :
0 <= m -> 0 <= round_nearest_even m l.
Proof.
intros Hm. destruct l as [|[| |]]; simpl; try lia.
destruct (Z.even m); lia.
Qed.

Lemma binary_round_aux_not_nan (prec emax : Z) (s : bool) (m e : Z) (l : location) :
0 <= m -> binary_round_aux prec emax s m e l <> S754_nan.
Proof.
intros Hm. unfold binary_round_aux.
pose proof (shr_fexp_nonneg prec emax m e l Hm) as H1.
destruct (shr_fexp prec emax m e l) as [mrs' e']. simpl in H1.
pose proof (shr_fexp_nonneg prec emax
              (round_nearest_even (shr_m mrs') (loc_of_shr_record mrs')) e'
              loc_Exact (round_nearest_even_nonneg _ _ H1)) as H2.
destruct (shr_fexp prec emax _ e' loc_Exact) as [mrs'' e'']. simpl in H2.
destruct (shr_m mrs'') as [|p|p]; [discriminate | | lia].
destruct (e'' <=? emax - prec); discriminate.
Qed.

Lemma SFdiv_core_nonneg (prec emax : Z) (m1 m2 : positive) (e1 e2 : Z) :
0 <= fst (fst (SFdiv_core_binary prec emax (Zpos m1) e1 (Zpos m2) e2)).
Proof.
unfold SFdiv_core_binary.
set (s := e1 - e2 - _).
set (m' := match s with Z0 => Zpos m1 | Zpos _ => Z.shiftl (Zpos m1) s | Zneg _ => 0 end).
assert (Hm' : 0 <= m').
{ unfold m'. destruct s; try lia. apply Z.shiftl_nonneg. lia. }
pose proof (Z.div_pos m' (Zpos m2) Hm' eq_refl) as Hq.
unfold Z.div in Hq. destruct (Z.div_eucl m' (Zpos m2)) as [q r]. exact Hq.
Qed.

Lemma SFdiv_integers_not_nan (a b : Z) :
b <> 0 -> SFdiv 53 1024 (Utils.Z2SF a) (Utils.Z2SF b) <> S754_nan.
Proof.
intros Hb. destruct b as [|pb|pb]; [congruence| |];
  destruct a as [|pa|pa]; simpl; try discriminate.
all: pose proof (SFdiv_core_nonneg 53 1024 pa pb 0 0) as Hq;
  destruct (SFdiv_core_binary 53 1024 (Zpos pa) 0 (Zpos pb) 0) as [[mz ez] lz];
  now apply binary_round_aux_not_nan.
Qed.

Lemma int_true_div_finite (a b : Z) (q : spec_float) :
Utils.int_true_div a b = Ok q -> is_finite q = true.
Proof.
unfold Utils.int_true_div. destruct (b =? 0) eqn:Eb; [discriminate|].
apply Z.eqb_neq in Eb. pose proof (SFdiv_integers_not_nan a b Eb) as Hn.
destruct (SFdiv 53 1024 (Utils.Z2SF a) (Utils.Z2SF b));
  intros H; try discriminate; injection H as <-; try reflexivity.
congruence.
Qed.

Lemma binary_normalize_not_nan (prec emax m e : Z) (s : bool) :
binary_normalize prec emax m e s <> S754_nan.
Proof.
unfold binary_normalize, binary_round.
destruct m as [|p|p]; [discriminate| |];
  destruct (shl_align p e _) as [mz ez];
  apply binary_round_aux_not_nan; lia.
Qed.

Lemma float_abs_sub_magnitude (x y : spec_float) :
is_finite x = true -> is_finite y = true ->
is_magnitude (Utils.float_abs (Utils.float_sub x y)) = true.
Proof.
unfold Utils.float_abs, Utils.float_sub.
destruct x as [sx|sx| |sx mx ex], y as [sy|sy| |sy my ey];
  try discriminate; intros _ _; simpl.
- now destruct sx, sy.
- reflexivity.
- reflexivity.
- pose proof (binary_normalize_not_nan 53 1024
      (cond_Zopp sx (Zpos (fst (shl_align mx ex (Z.min ex ey)))) -
       cond_Zopp sy (Zpos (fst (shl_align my ey (Z.min ex ey)))))
      (Z.min ex ey) false) as Hn.
  destruct (binary_normalize _ _ _ _ _) as [s|s| |s m e]; try reflexivity.
  congruence.
Qed.

Lemma float_lt_finite (m1 m2 : positive) (e1 e2 : Z) :
Utils.float_lt (S754_finite false m1 e1) (S754_finite false m2 e2) = true <->
e1 < e2 \/ (e1 = e2 /\ (m1 < m2)%positive).
Proof.
unfold Utils.float_lt, SFltb. simpl.
destruct (Z.compare_spec e1 e2) as [He|He|He].
- change (Pos.compare_cont Eq m1 m2) with (Pos.compare m1 m2).
  destruct (Pos.compare_spec m1 m2); split; intros Hlt; try discriminate;
    try reflexivity; lia.
- split; [intros _; now left | reflexivity].
- split; [discriminate | lia].
Qed.

Lemma float_lt_trans (x y z : spec_float) :
is_magnitude x = true -> is_magnitude y = true -> is_magnitude z = true ->
Utils.float_lt x y = true -> Utils.float_lt y z = true ->
Utils.float_lt x z = true.
Proof.
destruct x as [sx|[|]| |[|] mx ex]; try discriminate;
destruct y as [sy|[|]| |[|] my ey]; try discriminate;
destruct z as [sz|[|]| |[|] mz ez]; try discriminate;
intros _ _ _ Hxy Hyz; try reflexivity; try discriminate.
apply float_lt_finite in Hxy, Hyz. apply float_lt_finite. lia.
Qed.

Lemma float_lt_asym (x y : spec_float) :
is_magnitude x = true -> is_magnitude y = true ->
Utils.float_lt x y = true -> Utils.float_lt y x = false.
Proof.
destruct x as [sx|[|]| |[|] mx ex]; try discriminate;
destruct y as [sy|[|]| |[|] my ey]; try discriminate;
intros _ _ Hxy; try reflexivity; try discriminate.
apply float_lt_finite in Hxy.
destruct (Utils.float_lt (S754_finite false my ey) (S754_finite false mx ex)) eqn:E;
  [|reflexivity].
apply float_lt_finite in E. lia.
Qed.

Lemma float_lt_below (x y b : spec_float) :
is_magnitude x = true -> is_magnitude y = true -> is_magnitude b = true ->
Utils.float_lt x b = true -> Utils.float_lt y b = false ->
Utils.float_lt x y = true.
Proof.
destruct x as [sx|[|]| |[|] mx ex]; try discriminate;
destruct y as [sy|[|]| |[|] my ey]; try discriminate;
destruct b as [sb|[|]| |[|] mb eb]; try discriminate;
intros _ _ _ Hxb Hyb; try reflexivity; try discriminate.
apply float_lt_finite in Hxb. apply float_lt_finite.
destruct (Z.lt_total ey eb) as [H|[H|H]].
- assert (Utils.float_lt (S754_finite false my ey) (S754_finite false mb eb) = true)
    by (apply float_lt_finite; lia). congruence.
- destruct (Pos.lt_total my mb) as [H'|[H'|H']]; try lia.
  assert (Utils.float_lt (S754_finite false my ey) (S754_finite false mb eb) = true)
    by (apply float_lt_finite; lia). congruence.
- lia.
Qed.

Lemma float_lt_irrefl (x : spec_float) :
is_magnitude x = true -> Utils.float_lt x x = false.
Proof.
intros Hx. destruct (Utils.float_lt x x) eqn:E; [|reflexivity].
now rewrite (float_lt_asym x x Hx Hx E) in E.
Qed.

(** ** [min] with a key *)

Section MinLoop.
Context {A : Type} (key : A -> result Utils.float).

(** The loop returns the running best unless a later item is strictly
smaller; then it returns the first item that no other undercuts. *)
Lemma min_loop_first_minimal (rest : list A) :
forall (best : A) (best_val : Utils.float),
is_magnitude best_val = true ->
(forall r, In r rest -> exists k, key r = Ok k /\ is_magnitude k = true) ->
exists r k,
  Utils.min_loop key best best_val rest = Ok r /\
  is_magnitude k = true /\
  (forall r' k', In r' rest -> key r' = Ok k' -> Utils.float_lt k' k = false) /\
  Utils.float_lt best_val k = false /\
  ((r = best /\ k = best_val) \/
   (exists before after,
      rest = before ++ r :: after /\ key r = Ok k /\
      Utils.float_lt k best_val = true /\
      forall r' k', In r' before -> key r' = Ok k' ->
                    Utils.float_lt k k' = true)).
Proof.
induction rest as [|x xs IH]; intros best best_val Hbest Hkeys.
- exists best, best_val. simpl. repeat split; try assumption.
+ intros r' k' [].
+ now apply float_lt_irrefl.
+ now left.
- destruct (Hkeys x (or_introl eq_refl)) as (v & Hv & Hvm).
assert (Hxs : forall r, In r xs -> exists k, key r = Ok k /\ is_magnitude k = true)
  by (intros r Hr; apply Hkeys; now right).
simpl. rewrite Hv. simpl.
destruct (Utils.float_lt v best_val) eqn:Elt.
+ destruct (IH x v Hvm Hxs) as (r & k & Hrun & Hk & Hmin & Hnot & Hpos).
  exists r, k. split; [assumption|]. split; [assumption|].
  assert (Hkb : Utils.float_lt k best_val = true).
  { destruct Hpos as [[_ ->]|(b & a & _ & _ & Hkv & _)]; [assumption|].
    now apply (float_lt_trans k v best_val). }
  split; [|split].
  * intros r' k' [<-|Hr'] Hk'; [congruence | eauto].
  * now apply float_lt_asym.
  * right. destruct Hpos as [[-> ->]|(b & a & -> & Hkr & Hkv & Hb)].
    -- exists [], xs. repeat split; try assumption. intros r' k' [].
    -- exists (x :: b), a. repeat split; try assumption.
       intros r' k' [<-|Hr'] Hk'; [congruence | eauto].
+ destruct (IH best best_val Hbest Hxs) as (r & k & Hrun & Hk & Hmin & Hnot & Hpos).
  exists r, k. split; [assumption|]. split; [assumption|].
  split; [|split; [assumption|]].
  * intros r' k' [<-|Hr'] Hk'; [|eauto].
    assert (k' = v) by congruence. subst k'.
    destruct Hpos as [[_ ->]|(b & a & _ & _ & Hkb & _)]; [assumption|].
    destruct (Utils.float_lt v k) eqn:E; [|reflexivity].
    now rewrite (float_lt_trans v k best_val Hvm Hk Hbest E Hkb) in Elt.
  * destruct Hpos as [Hsame|(b & a & -> & Hkr & Hkb & Hb)]; [now left|].
    right. exists (x :: b), a. repeat split; try assumption.
    intros r' k' [<-|Hr'] Hk'; [|eauto].
    assert (k' = v) by congruence. subst k'.
    now apply (float_lt_below k v best_val).
Qed.

Lemma py_min_first_minimal (items : list A) :
items <> [] ->
(forall r, In r items -> exists k, key r = Ok k /\ is_magnitude k = true) ->
exists before r after k,
items = before ++ r :: after /\
Utils.py_min key items = Ok r /\
key r = Ok k /\
(forall r' k', In r' items -> key r' = Ok k' -> Utils.float_lt k' k = false) /\
(forall r' k', In r' before -> key r' = Ok k' -> Utils.float_lt k k' = true).
Proof.
destruct items as [|x xs]; [congruence|]. intros _ Hkeys.
destruct (Hkeys x (or_introl eq_refl)) as (v & Hv & Hvm).
destruct (min_loop_first_minimal xs x v Hvm) as (r & k & Hrun & Hk & Hmin & Hnot & Hpos).
{ intros r Hr. apply Hkeys. now right. }
simpl. rewrite Hv. simpl.
destruct Hpos as [[-> ->]|(b & a & -> & Hkr & Hkb & Hb)].
- exists [], x, xs, v. repeat split; try assumption.
+ intros r' k' [<-|Hr'] Hk'; [|eauto].
  assert (k' = v) by congruence. subst k'. now apply float_lt_irrefl.
+ intros r' k' [].
- exists (x :: b), r, a, k. repeat split; try assumption.
+ intros r' k' [<-|Hr'] Hk'; [|eauto].
  assert (k' = v) by congruence. now subst k'.
+ intros r' k' [<-|Hr'] Hk'; [|eauto].
  assert (k' = v) by congruence. now subst k'.
Qed.
End MinLoop.

(** ** Nearest aspect ratio *)

Lemma ratio_value_finite (r : string) (v : spec_float) :
Utils.ratio_value r = Ok v -> is_finite v = true.
Proof.
unfold Utils.ratio_value.
destruct (Utils.split_on ":" r) as [|a [|b [|c l]]]; try discriminate.
- destruct (Utils.py_int a); discriminate.
- destruct (Utils.py_int a); [|discriminate].
  destruct (Utils.py_int b); [|discriminate]. simpl.
  apply int_true_div_finite.
- destruct (Utils.py_int a); [|discriminate].
  destruct (Utils.py_int b); [|discriminate].
  destruct (Utils.py_int c); discriminate.
Qed.

Lemma ratio_key_magnitude (target : spec_float) (r : string) (k : spec_float) :
is_finite target = true ->
Utils.ratio_key target r = Ok k -> is_magnitude k = true.
Proof.
intros Ht. unfold Utils.ratio_key.
destruct (Utils.ratio_value r) as [v|] eqn:Ev; [|discriminate].
simpl. intros H. injection H as <-.
apply float_abs_sub_magnitude; [|assumption].
eapply ratio_value_finite; eassumption.
Qed.

(** C5 (as amended).  For every size whose quotient [w / h] evaluates and
  every non-empty list whose ratios all evaluate, the selection returns
  the first element of the list whose binary64 distance
  [abs(rw / rh - w / h)], computed as the code computes it, is minimal:
  no element has a strictly smaller computed distance and every earlier
  element has a strictly larger one.  Size (1920, 1080) over
  1:1, 16:9, 9:16 gives 16:9 and size (1000, 1000) gives 1:1. *)
Theorem nearest_aspect_ratio_binary64 :
(forall (w h : Z) (allowed : list string) (target : Utils.float),
   Utils.int_true_div w h = Ok target ->
   allowed <> [] ->
   (forall r, In r allowed -> exists k, Utils.ratio_key target r = Ok k) ->
   exists before r after k,
     allowed = before ++ r :: after /\
     Utils.get_nearest_aspect_ratio (w, h) allowed = Ok r /\
     Utils.ratio_key target r = Ok k /\
     (forall r' k', In r' allowed -> Utils.ratio_key target r' = Ok k' ->
                    Utils.float_lt k' k = false) /\
     (forall r' k', In r' before -> Utils.ratio_key target r' = Ok k' ->
                    Utils.float_lt k k' = true)) /\
Utils.get_nearest_aspect_ratio (1920, 1080) ["1:1"; "16:9"; "9:16"]%string
  = Ok "16:9"%string /\
Utils.get_nearest_aspect_ratio (1000, 1000) ["1:1"; "16:9"; "9:16"]%string
  = Ok "1:1"%string.
Proof.
split; [|split; vm_compute; reflexivity].
intros w h allowed target Htarget Hne Hkeys.
assert (Hfin : is_finite target = true)
  by (eapply int_true_div_finite; eassumption).
destruct (py_min_first_minimal (Utils.ratio_key target) allowed Hne)
  as (before & r & after & k & Hsplit & Hmin & Hk & Hbest & Hfirst).
{ intros r Hr. destruct (Hkeys r Hr) as [k Hk]. exists k. split; [assumption|].
  eapply ratio_key_magnitude; eassumption. }
exists before, r, after, k. repeat split; try assumption.
unfold Utils.get_nearest_aspect_ratio. rewrite Htarget. exact Hmin.
Qed.

(** C5 as stated fails: a 1700 x 2400 image is exactly as far from 2:3
  as from 3:4, and 2:3 is enumerated first, yet the code returns 3:4,
  because the two distances round differently in binary64. *)
Lemma nearest_ratio_rounding_tie :
Utils.get_nearest_aspect_ratio (1700, 2400) Nanobanana.aspect_ratios
  = Ok "3:4"%string /\
Utils.exact_nearest_aspect_ratio (1700, 2400) Nanobanana.aspect_ratios
  = Some "2:3"%string /\
Qeq (Utils.exact_distance (1700, 2400) "2:3") (Utils.exact_distance (1700, 2400) "3:4").
Proof.
split; [|split]; vm_compute; reflexivity.
Qed.

(** The general part of the theorem at size (1920, 1080). *)
Lemma nearest_aspect_ratio_binary64_witness :
exists before r after k,
  ["1:1"; "16:9"; "9:16"]%string = before ++ r :: after /\
  Utils.get_nearest_aspect_ratio (1920, 1080) ["1:1"; "16:9"; "9:16"]%string
    = Ok r /\
  Utils.ratio_key (S754_finite false 8006399337547548 (-52)) r = Ok k /\
  (forall r' k', In r' ["1:1"; "16:9"; "9:16"]%string ->
     Utils.ratio_key (S754_finite false 8006399337547548 (-52)) r' = Ok k' ->
     Utils.float_lt k' k = false) /\
  (forall r' k', In r' before ->
     Utils.ratio_key (S754_finite false 8006399337547548 (-52)) r' = Ok k' ->
     Utils.float_lt k k' = true).
Proof.
apply (proj1 nearest_aspect_ratio_binary64 1920 1080).
- vm_compute. reflexivity.
- discriminate.
- intros r [<-|[<-|[<-|[]]]]; eexists; vm_compute; reflexivity.
Defined.

End Binary64.

(** ** The Flux poller *)

(** One poll that does not see [Ready] reports "not done" and changes
    nothing but the trace, whatever the status is. *)
Lemma _pool_not_ready (st : St Flux.FluxResponse) (u : string)
    (reply : http_response) (d : pydict pyval) :
  Flux.polling_url (self st) = VStr u ->
  http_get (outside (world st)) u (count_gets u (trace (world st))) = Some reply ->
  body_json reply = Some (VDict d) ->
  eq_str (status_of d) "Ready" = false ->
  Flux._pool st = (Returns false, polled u st).
Proof.
  intros Hu Hget Hjson Hstatus.
  unfold Flux._pool, bind, gets, in_world, requests_get, emit, modify, json, lift.
  rewrite Hu. simpl. unfold bind, gets, ret. simpl. rewrite Hget. simpl.
  rewrite Hjson. simpl. fold (status_of d). rewrite Hstatus.
  now destruct (eq_str (status_of d) "Failed" || eq_str (status_of d) "Error").
Qed.

Lemma _pool_ready (st : St Flux.FluxResponse) (u : string)
    (reply : http_response) (d res : pydict pyval) (sample : pyval) :
  Flux.polling_url (self st) = VStr u ->
  http_get (outside (world st)) u (count_gets u (trace (world st))) = Some reply ->
  body_json reply = Some (VDict d) ->
  status_of d = VStr "Ready" ->
  dict_get "result" d = Some (VDict res) ->
  dict_get "sample" res = Some sample ->
  Flux._pool st =
  (Returns true,
   {| self := Flux.set_retriveal_url sample (self st);
      world := add_event (EvGet u) (world st) |}).
Proof.
  intros Hu Hget Hjson Hstatus Hres Hsample.
  unfold Flux._pool, bind, gets, in_world, requests_get, emit, modify, json, lift.
  rewrite Hu. simpl. unfold bind, gets, ret. simpl. rewrite Hget. simpl.
  rewrite Hjson. simpl. fold (status_of d). rewrite Hstatus. simpl.
  rewrite Hres. simpl. rewrite Hsample. reflexivity.
Qed.

Lemma count_gets_app (u : string) (t1 t2 : list event) :
  count_gets u (t1 ++ t2) = count_gets u t1 + count_gets u t2.
Proof.
  unfold count_gets. now rewrite List.filter_app, length_app.
Qed.

(** As long as the backend does not say [Ready], and that includes
    [Failed] and [Error], the loop keeps polling: it spends all its fuel
    and never raises. *)
Lemma extend_extend (evs1 evs2 : list event) (w : World) :
  extend evs2 (extend evs1 w) = extend (evs1 ++ evs2) w.
Proof. unfold extend. simpl. now rewrite <- app_assoc. Qed.

Lemma poll_loop_never_ready (fuel : nat) :
  forall (st : St Flux.FluxResponse) (u : string),
    Flux.polling_url (self st) = VStr u ->
    (forall i, exists reply d,
        http_get (outside (world st)) u i = Some reply /\
        body_json reply = Some (VDict d) /\
        eq_str (status_of d) "Ready" = false) ->
    Flux.poll_loop fuel st = (StillRunning, waited (waiting u fuel) st).
Proof.
  induction fuel as [|fuel IH]; intros st u Hu Hall; simpl.
  - unfold still_running, waited, extend. rewrite app_nil_r. now destruct st as [o []].
  - destruct (Hall (count_gets u (trace (world st)))) as (reply & d & Hget & Hjson & Hst).
    unfold bind. rewrite (_pool_not_ready st u reply d) by assumption.
    unfold in_world, sleep, emit, modify. simpl.
    change {| self := self st; world := add_event (EvSleep 1) (add_event (EvGet u) (world st)) |}
      with (slept (polled u st)).
    rewrite (IH (slept (polled u st)) u Hu Hall).
    unfold waited, slept, polled, add_event. simpl. now rewrite !extend_extend.
Qed.

(** When the first [Ready] comes at poll [n], the loop returns after
    [n + 1] polls separated by one-second sleeps, with the sample URL of
    the ready payload stored on the object. *)
Lemma poll_loop_ready (n : nat) :
  forall (fuel : nat) (st : St Flux.FluxResponse) (u : string)
         (reply : http_response) (d res : pydict pyval) (sample : pyval),
    n < fuel ->
    Flux.polling_url (self st) = VStr u ->
    (forall i, i < n -> exists reply_i d_i,
        http_get (outside (world st)) u (count_gets u (trace (world st)) + i) = Some reply_i /\
        body_json reply_i = Some (VDict d_i) /\
        eq_str (status_of d_i) "Ready" = false) ->
    http_get (outside (world st)) u (count_gets u (trace (world st)) + n) = Some reply ->
    body_json reply = Some (VDict d) ->
    status_of d = VStr "Ready" ->
    dict_get "result" d = Some (VDict res) ->
    dict_get "sample" res = Some sample ->
    Flux.poll_loop fuel st =
      (Returns tt,
       {| self := Flux.set_retriveal_url sample (self st);
          world := extend (waiting u n ++ [EvGet u]) (world st) |}).
Proof.
  induction n as [|n IH]; intros fuel st u reply d res sample Hfuel Hu Hwait Hget Hjson Hready Hres Hsample.
  - destruct fuel as [|fuel]; [lia|]. simpl. unfold bind.
    rewrite Nat.add_0_r in Hget.
    now rewrite (_pool_ready st u reply d res sample) by assumption.
  - destruct fuel as [|fuel]; [lia|]. simpl. unfold bind.
    destruct (Hwait 0) as (r0 & d0 & Hget0 & Hjson0 & Hst0); [lia|].
    rewrite Nat.add_0_r in Hget0.
    rewrite (_pool_not_ready st u r0 d0) by assumption.
    unfold in_world, sleep, emit, modify. simpl.
    change {| self := self st; world := add_event (EvSleep 1) (add_event (EvGet u) (world st)) |}
      with (slept (polled u st)).
    assert (Hcount : count_gets u (trace (world (slept (polled u st)))) =
                     S (count_gets u (trace (world st)))).
    { simpl. rewrite !count_gets_app. simpl. unfold count_gets at 2 3. simpl.
      rewrite String.eqb_refl. simpl. lia. }
    rewrite (IH fuel (slept (polled u st)) u reply d res sample);
      try assumption; try lia.
    + unfold slept, polled, add_event. simpl. now rewrite !extend_extend.
    + intros i Hi. rewrite Hcount. simpl.
      destruct (Hwait (S i)) as (ri & di & Hgi & Hji & Hsi); [lia|].
      exists ri, di. repeat split; try assumption.
      now rewrite <- Nat.add_succ_comm in Hgi.
    + rewrite Hcount. simpl. now rewrite <- Nat.add_succ_comm in Hget.
Qed.

(** On a pending response [url] is the loop, then the download, then the
    copy. *)
Lemma url_pending (fuel : nat) (st : St Flux.FluxResponse) (u : string) :
  Flux.image (self st) = VNone ->
  Flux.polling_url (self st) = VStr u ->
  Flux.url fuel st =
  match Flux.poll_loop fuel st with
  | (Returns _, s1) => (Flux._retrieve_image >> store_result) s1
  | (Raises e, s1) => (Raises e, s1)
  | (StillRunning, s1) => (StillRunning, s1)
  end.
Proof.
  intros Himg Hu. unfold Flux.url, Flux.pool, store_result, bind, gets.
  simpl. rewrite Himg. simpl. rewrite Hu. simpl.
  now destruct (Flux.poll_loop fuel st) as [[[]| |] s1].
Qed.

(** C1.  On the status sequence Processing, Processing, Ready the
    resolution polls three times, one second apart, and returns a URL for
    the sample of the ready payload.  On a sequence that ends in Failed it
    raises nothing: whatever the fuel, the call is still polling when the
    fuel is spent, one GET and one one-second sleep per round. *)
Theorem flux_resolution_sequences :
  (forall extra,
      Flux.url (3 + extra) ready_state =
      (Returns "https://cdn.example.org/0f3c2a10-9d4e-4b7a-8c65-2e1f0a9b7d31.png",
       {| self := Flux.set_image (VImage 1024 1024)
                    (Flux.set_retriveal_url (VStr sample_url) pending_response);
          world :=
            {| outside := outside (world ready_state);
               trace := [EvGet polling_endpoint; EvSleep 1;
                         EvGet polling_endpoint; EvSleep 1;
                         EvGet polling_endpoint;
                         EvGet sample_url; EvGet sample_url;
                         EvPutObject (Some "images")
                           "0f3c2a10-9d4e-4b7a-8c65-2e1f0a9b7d31.png" "image/png"];
               uuid_drawn := 1; objects := ∅ |} |})) /\
  (forall fuel,
      Flux.url fuel failed_state =
      (StillRunning, waited (waiting polling_endpoint fuel) failed_state)).
Proof.
  split.
  - intros extra.
    rewrite (url_pending _ _ polling_endpoint) by reflexivity.
    rewrite (poll_loop_ready 2 (3 + extra) ready_state polling_endpoint
               (json_reply 200 ready_body)
               [("status", VStr "Ready"); ("result", VDict [("sample", VStr sample_url)])]
               [("sample", VStr sample_url)] (VStr sample_url));
      try reflexivity; try lia.
    intros i Hi. exists (json_reply 200 (status_body "Processing")), [("status", VStr "Processing")].
    destruct i as [|[|i]]; [| |lia]; repeat split; reflexivity.
  - intros fuel.
    rewrite (url_pending _ _ polling_endpoint) by reflexivity.
    rewrite (poll_loop_never_ready fuel failed_state polling_endpoint); [reflexivity..|].
    intros i. destruct i as [|i].
    + exists (json_reply 200 (status_body "Processing")), [("status", VStr "Processing")].
      repeat split; reflexivity.
    + exists (json_reply 200 (status_body "Failed")), [("status", VStr "Failed")].
      repeat split; reflexivity.
Qed.

(** ** The copy to storage *)

Lemma validate_loop_pure (vars : list string) (w : World) :
  exists verdict, S3.validate_loop vars w = (Returns verdict, w).
Proof.
  induction vars as [|v vars IH]; simpl.
  - now exists true.
  - unfold bind, environ_get_or_empty, environ_get, bind, gets, ret. simpl.
    destruct (String.eqb _ ""); [now exists false | exact IH].
Qed.

(** Whatever the validation says, the client is created from what the
    environment holds. *)
Lemma create_s3_client_ignores_validation (w : World) :
  S3.create_s3_client w =
  S3.boto3_client (env_or_empty w "S3_ENDPOINT_URL") (env_or_empty w "S3_REGION")
    (env_or_empty w "S3_ACCESS_KEY") (env_or_empty w "S3_SECRET_KEY") w.
Proof.
  unfold S3.create_s3_client, S3.validate_s3_env_vars.
  unfold bind at 1.
  destruct (validate_loop_pure S3.required_vars w) as [verdict ->].
  reflexivity.
Qed.






(** ** Status codes of the creation request *)

(** C6.  The creation call raises on the statuses 429 and 402 and on no
    other: any other status, 500 included, yields a response object built
    from the body; and when a 500 body carries a polling URL the tool
    returns a URL as after a successful creation. *)
Theorem generate_image_status (code : Z) (body : pydict pyval)
    (cfg : Flux.FluxImageGeneratorConfig) :
  fst (Flux.generate_image cfg sample_flux_options (replying_world code body)) =
    (if (code =? 429)%Z then Raises (ImageGenerationError "Rate limit exceeded")
     else if (code =? 402)%Z then Raises (ImageGenerationError "Out of credits")
     else Returns {| Flux.response := VDict body; Flux.image := VNone;
                     Flux.polling_url := default VNone (dict_get "polling_url" body);
                     Flux.request_id := default VNone (dict_get "id" body);
                     Flux.retriveal_url := VNone;
                     Flux.generator_config := cfg |}) /\
  fst (Flux.generate_image cfg sample_flux_options
         (replying_world 500 [("detail", VStr "Internal Server Error")])) =
    Returns {| Flux.response := VDict [("detail", VStr "Internal Server Error")];
               Flux.image := VNone; Flux.polling_url := VNone;
               Flux.request_id := VNone; Flux.retriveal_url := VNone;
               Flux.generator_config := cfg |} /\
  fst (Flux.image_flux_generate 3 cfg [("prompt", VStr "a cat")]
         (replying_world 500
            [("id", VStr "req-1"); ("polling_url", VStr polling_endpoint)])) =
    Returns "https://cdn.example.org/0f3c2a10-9d4e-4b7a-8c65-2e1f0a9b7d31.png".
Proof.
  split; [|split; vm_compute; reflexivity].
  unfold Flux.generate_image, replying_world, bind, lift, py_str, ret,
    requests_post, bind, gets, emit, modify, json, raise. simpl.
  destruct (code =? 429)%Z; [reflexivity|].
  destruct (code =? 402)%Z; reflexivity.
Qed.

(** ** Missing storage configuration *)

(** C7.  With [S3_CDN_URL] missing the validation answers [False], and the
    copy goes through all the same: the asset is downloaded and uploaded
    and the call returns a URL without a host.  Whichever variable is
    missing, the validation answers [False] and the client is created
    regardless, from whatever the environment holds. *)
Theorem copy_with_missing_variable :
  S3.validate_s3_env_vars (world_without "S3_CDN_URL") =
    (Returns false, world_without "S3_CDN_URL") /\
  S3.copy_url_to_s3 (VStr sample_url) (world_without "S3_CDN_URL") =
    (Returns "/0f3c2a10-9d4e-4b7a-8c65-2e1f0a9b7d31.png",
     copied (world_without "S3_CDN_URL") sample_url "image/png") /\
  (forall name, In name S3.required_vars ->
     fst (S3.validate_s3_env_vars (world_without name)) = Returns false) /\
  (forall w,
     S3.create_s3_client w =
     S3.boto3_client (env_or_empty w "S3_ENDPOINT_URL") (env_or_empty w "S3_REGION")
       (env_or_empty w "S3_ACCESS_KEY") (env_or_empty w "S3_SECRET_KEY") w).
Proof.
  split; [vm_compute; reflexivity|].
  split; [vm_compute; reflexivity|].
  split; [|apply create_s3_client_ignores_validation].
  intros name Hin. simpl in Hin.
  destruct Hin as [<-|[<-|[<-|[<-|[<-|[<-|[]]]]]]]; vm_compute; reflexivity.
Qed.

(** ** Traces of computations *)

Section Emits.
Context {S : Type} `{Traced S} (P : event -> Prop).

Lemma emits_silent {A} (c : M S A) :
  (forall s, trace_of (snd (c s)) = trace_of s) -> emits P c.
Proof.
  intros Hc s. exists []. rewrite Hc, app_nil_r. split; [reflexivity | constructor].
Qed.

Lemma emits_ret {A} (a : A) : emits P (ret a : M S A).
Proof. now apply emits_silent. Qed.

Lemma emits_raise {A} (e : exn) : emits P (raise e : M S A).
Proof. now apply emits_silent. Qed.

Lemma emits_lift {A} (r : result A) : emits P (lift r : M S A).
Proof. destruct r; [apply emits_ret | apply emits_raise]. Qed.

Lemma emits_gets {A} (f : S -> A) : emits P (gets f).
Proof. now apply emits_silent. Qed.

Lemma emits_bind {A B} (c : M S A) (k : A -> M S B) :
  emits P c -> (forall a, emits P (k a)) -> emits P (bind c k).
Proof.
  intros Hc Hk s. unfold bind.
  destruct (Hc s) as (evs1 & Ht1 & HP1).
  destruct (c s) as [[a|e|] s1]; simpl in *; try (now exists evs1).
  destruct (Hk a s1) as (evs2 & Ht2 & HP2).
  exists (evs1 ++ evs2). rewrite Ht2, Ht1, app_assoc.
  split; [reflexivity | now apply Forall_app].
Qed.
End Emits.

Create HintDb emits.
#[local] Hint Resolve emits_ret emits_raise emits_lift emits_gets : emits.

Lemma emits_in_world {O A} (P : event -> Prop) (c : M World A) :
  emits P c -> emits P (in_world c : M (St O) A).
Proof.
  intros Hc s. destruct (Hc (world s)) as (evs & Ht & HP).
  exists evs. unfold in_world. destruct (c (world s)) as [r w]. now split.
Qed.

Lemma emits_emit (P : event -> Prop) (e : event) : P e -> emits P (emit e).
Proof.
  intros He w. exists [e]. split; [reflexivity | now repeat constructor].
Qed.

Lemma emits_requests_get (P : event -> Prop) (url : pyval) :
  (forall u, P (EvGet u)) -> emits P (requests_get url).
Proof.
  intros HP. unfold requests_get. destruct url; auto with emits.
  apply emits_bind; [auto with emits | intros n].
  apply emits_bind; [auto with emits | intros [r|]].
  - apply emits_bind; [apply emits_emit, HP | auto with emits].
  - apply emits_bind; [auto with emits | intros [|]]; [auto with emits|].
    apply emits_bind; [apply emits_emit, HP | auto with emits].
Qed.

Lemma emits_requests_post (P : event -> Prop) (url : string) (body : pyval) :
  P (EvPost url body) -> emits P (requests_post url body).
Proof.
  intros HP. unfold requests_post.
  repeat (apply emits_bind; [auto using emits_emit with emits | intros]).
  destruct a; auto with emits.
Qed.

Lemma emits_getattr_ref (P : event -> Prop) (ref : nat) (name : string) :
  emits P (getattr_ref ref name).
Proof.
  unfold getattr_ref. apply emits_bind; [auto with emits | intros [o|]];
    auto with emits.
Qed.

Lemma emits_setattr_ref (P : event -> Prop) (ref : nat) (name : string) (v : pyval) :
  emits P (setattr_ref ref name v).
Proof. now apply emits_silent. Qed.

(** ** The NanoBanana edit request *)

Lemma emits_download_image (url : pyval) :
  emits edit_event (download_image url).
Proof.
  unfold download_image. apply emits_bind.
  - apply emits_requests_get. intros u. exact I.
  - intros response. destruct (body_image response) as [[w h]|]; auto with emits.
Qed.

Lemma emits_infer_aspect_ratio (options : nat) :
  emits edit_event (Nanobanana.infer_aspect_ratio options).
Proof.
  unfold Nanobanana.infer_aspect_ratio.
  apply emits_bind; [auto with emits | intros allowed].
  apply emits_bind; [apply emits_getattr_ref | intros image_urls].
  apply emits_bind; [auto with emits | intros first_url].
  apply emits_bind; [apply emits_download_image | intros first_image].
  apply emits_bind; [auto with emits | intros size].
  apply emits_bind; [auto with emits | intros nearest].
  apply emits_setattr_ref.
Qed.

Lemma emits_post_edit_request (options : nat) :
  emits edit_event (Nanobanana.post_edit_request options).
Proof.
  unfold Nanobanana.post_edit_request.
  do 3 (apply emits_bind; [apply emits_in_world, emits_getattr_ref | intros]).
  apply emits_bind.
  { apply emits_in_world, emits_requests_post. now split. }
  intros reply.
  apply emits_bind.
  { unfold json. destruct (body_json reply); auto with emits. }
  intros body. apply emits_bind; [|auto with emits].
  now apply emits_silent.
Qed.

Lemma emits_edit_image (options : nat) :
  emits edit_event (Nanobanana.edit_image options).
Proof.
  unfold Nanobanana.edit_image.
  apply emits_bind; [apply emits_in_world, emits_getattr_ref | intros aspect_ratio].
  apply emits_bind; [|intros _; apply emits_post_edit_request].
  destruct (is_none aspect_ratio); [|auto with emits].
  apply emits_in_world, emits_infer_aspect_ratio.
Qed.

(** With an aspect ratio on the options object the inference is skipped. *)
Lemma edit_image_skips_inference (options : nat)
    (st : St Nanobanana.RunpodNanoBananaClient) (obj : pydict pyval)
    (aspect_ratio : pyval) :
  objects (world st) !! options = Some obj ->
  getattr obj "aspect_ratio" = Ok aspect_ratio ->
  is_none aspect_ratio = false ->
  Nanobanana.edit_image options st = Nanobanana.post_edit_request options st.
Proof.
  intros Hobj Hattr Hnone.
  unfold Nanobanana.edit_image, bind, in_world, getattr_ref, bind, gets, lift.
  simpl. rewrite Hobj, Hattr. simpl. rewrite Hnone.
  now destruct st.
Qed.

(** The request: the three attributes are read off the options object
    and posted, once; the heap is left alone. *)
Lemma post_edit_request_runs (options : nat)
    (st : St Nanobanana.RunpodNanoBananaClient)
    (obj : pydict pyval) (prompt image_urls resolution : pyval) :
  objects (world st) !! options = Some obj ->
  getattr obj "prompt" = Ok prompt ->
  getattr obj "image_urls" = Ok image_urls ->
  getattr obj "resolution" = Ok resolution ->
  fst (Nanobanana.post_edit_request options st) =
    edit_outcome (world st) (Nanobanana.request_data prompt image_urls resolution) /\
  trace (world (snd (Nanobanana.post_edit_request options st))) =
    trace (world st) ++
    [EvPost Nanobanana.endpoint
       (Nanobanana.request_data prompt image_urls resolution)] /\
  objects (world (snd (Nanobanana.post_edit_request options st))) =
    objects (world st).
Proof.
  intros Hobj Hp Hi Hr.
  unfold Nanobanana.post_edit_request, edit_outcome, bind, in_world, getattr_ref,
    bind, gets, lift, requests_post, bind, gets, emit, modify, json, set_self,
    modify, ret, raise.
  simpl. rewrite Hobj. simpl. rewrite Hp. simpl.
  rewrite Hobj. simpl. rewrite Hi. simpl.
  rewrite Hobj. simpl. rewrite Hr. simpl.
  destruct (http_post _ _ _) as [reply|]; simpl; [|auto].
  destruct (body_json reply) as [body|]; simpl; auto.
Qed.

(** Whatever the request does, it leaves the heap as it found it. *)
Lemma post_edit_request_objects (options : nat)
    (st : St Nanobanana.RunpodNanoBananaClient) :
  objects (world (snd (Nanobanana.post_edit_request options st))) =
  objects (world st).
Proof.
  unfold Nanobanana.post_edit_request, bind, in_world, getattr_ref,
    bind, gets, lift, requests_post, bind, gets, emit, modify, json, set_self,
    modify, ret, raise.
  simpl.
  destruct (objects (world st) !! options) as [obj|] eqn:Hobj; simpl;
    [|reflexivity].
  destruct (getattr obj "prompt"); simpl; [|reflexivity].
  rewrite Hobj. simpl.
  destruct (getattr obj "image_urls"); simpl; [|reflexivity].
  rewrite Hobj. simpl.
  destruct (getattr obj "resolution"); simpl; [|reflexivity].
  destruct (http_post _ _ _) as [reply|]; simpl; [|reflexivity].
  destruct (body_json reply); reflexivity.
Qed.

#[local] Arguments Utils.get_nearest_aspect_ratio : simpl never.

(** An inference that meets no obstacle downloads the first source image
    and stores, on the very object the caller refers to, the ratio
    nearest to its size. *)
Lemma infer_aspect_ratio_runs (options : nat) (w : World) (obj : pydict pyval)
    (image_urls : pyval) (first_url : string) (reply : http_response)
    (width height : Z) (nearest : string) :
  objects w !! options = Some obj ->
  getattr obj "image_urls" = Ok image_urls ->
  py_first image_urls = Ok (VStr first_url) ->
  http_get (outside w) first_url (count_gets first_url (trace w)) = Some reply ->
  body_image reply = Some (width, height) ->
  Utils.get_nearest_aspect_ratio (width, height) Nanobanana.aspect_ratios
    = Ok nearest ->
  Nanobanana.infer_aspect_ratio options w =
  (Returns tt,
   {| outside := outside w; trace := trace w ++ [EvGet first_url];
      uuid_drawn := uuid_drawn w;
      objects := <[options := dict_set "aspect_ratio" (VStr nearest) obj]>
                   (objects w) |}).
Proof.
  intros Hobj Hi Hf Hget Himg Hn.
  unfold Nanobanana.infer_aspect_ratio, bind, lift, getattr_ref, bind, gets, lift.
  simpl. unfold ret, raise. rewrite Hobj, Hi. simpl. rewrite Hf. simpl.
  unfold download_image, requests_get, bind, gets, emit, modify, ret. simpl.
  rewrite Hget. simpl. rewrite Himg. simpl.
  fold Nanobanana.aspect_ratios. rewrite Hn. simpl.
  unfold setattr_ref, modify, add_event, extend. simpl.
  do 2 f_equal. apply map_eq. intros i.
  destruct (decide (i = options)) as [->|Hne].
  - now rewrite lookup_alter_eq, lookup_insert_eq, Hobj.
  - now rewrite lookup_alter_ne, lookup_insert_ne by congruence.
Qed.

Lemma getattr_set_other (obj : pydict pyval) (k name : string) (v : pyval) :
  name <> k -> getattr (dict_set k v obj) name = getattr obj name.
Proof.
  intros Hne. unfold getattr. now rewrite dict_get_set_ne.
Qed.

(** C10 (as amended).  Whatever the call does, the only requests it posts
    go to the edit endpoint, and their body is an object with the single
    key input whose value has exactly the six keys prompt, images,
    resolution, output_format, enable_base64_output and enable_sync_mode,
    so never an aspect ratio.  With an aspect ratio on the options object
    the call posts one such request and leaves the object alone.  With
    none, and a first source image that can be measured, the call first
    overwrites the attribute on the caller's own object with the ratio
    nearest to that image, then posts the request: the object is changed
    whether or not the request succeeds, and the call returns exactly
    when the reply decodes. *)
Theorem edit_image_request (options : nat)
    (st : St Nanobanana.RunpodNanoBananaClient) :
  let run := Nanobanana.edit_image options st in
  (exists evs,
      trace (world (snd run)) = trace (world st) ++ evs /\
      Forall edit_event evs) /\
  ~ In "aspect_ratio" edit_request_keys /\
  (forall obj aspect_ratio prompt image_urls resolution,
     objects (world st) !! options = Some obj ->
     getattr obj "aspect_ratio" = Ok aspect_ratio ->
     is_none aspect_ratio = false ->
     getattr obj "prompt" = Ok prompt ->
     getattr obj "image_urls" = Ok image_urls ->
     getattr obj "resolution" = Ok resolution ->
     fst run =
       edit_outcome (world st)
         (Nanobanana.request_data prompt image_urls resolution) /\
     trace (world (snd run)) =
       trace (world st) ++
       [EvPost Nanobanana.endpoint
          (Nanobanana.request_data prompt image_urls resolution)] /\
     objects (world (snd run)) = objects (world st)) /\
  (forall obj image_urls first_url reply width height nearest,
     objects (world st) !! options = Some obj ->
     getattr obj "aspect_ratio" = Ok VNone ->
     getattr obj "image_urls" = Ok image_urls ->
     py_first image_urls = Ok (VStr first_url) ->
     http_get (outside (world st)) first_url
       (count_gets first_url (trace (world st))) = Some reply ->
     body_image reply = Some (width, height) ->
     Utils.get_nearest_aspect_ratio (width, height) Nanobanana.aspect_ratios
       = Ok nearest ->
     objects (world (snd run)) =
       <[options := dict_set "aspect_ratio" (VStr nearest) obj]>
         (objects (world st)) /\
     forall prompt resolution,
       getattr obj "prompt" = Ok prompt ->
       getattr obj "resolution" = Ok resolution ->
       fst run =
         edit_outcome (world st)
           (Nanobanana.request_data prompt image_urls resolution) /\
       trace (world (snd run)) =
         trace (world st) ++
         [EvGet first_url;
          EvPost Nanobanana.endpoint
            (Nanobanana.request_data prompt image_urls resolution)]).
Proof.
  intros run. subst run.
  split; [apply (emits_edit_image options st)|].
  split; [unfold edit_request_keys; simpl; intuition discriminate|].
  split.
  - intros obj aspect_ratio prompt image_urls resolution Hobj Ha Hnone Hp Hi Hr.
    rewrite (edit_image_skips_inference options st obj aspect_ratio)
      by assumption.
    now apply (post_edit_request_runs options st obj).
  - intros obj image_urls first_url reply width height nearest
      Hobj Ha Hi Hf Hget Himg Hn.
    assert (Hrun : Nanobanana.edit_image options st =
              Nanobanana.post_edit_request options
                {| self := self st;
                   world :=
                     {| outside := outside (world st);
                        trace := trace (world st) ++ [EvGet first_url];
                        uuid_drawn := uuid_drawn (world st);
                        objects :=
                          <[options := dict_set "aspect_ratio" (VStr nearest) obj]>
                            (objects (world st)) |} |}).
    { unfold Nanobanana.edit_image, bind.
      unfold in_world at 1, getattr_ref, bind, gets, lift. simpl.
      rewrite Hobj, Ha. simpl.
      unfold in_world at 1. cbn [world self].
      now rewrite (infer_aspect_ratio_runs options (world st) obj image_urls
                     first_url reply width height nearest). }
    rewrite Hrun. split.
    + now rewrite post_edit_request_objects.
    + intros prompt resolution Hp Hr.
      destruct (post_edit_request_runs options
                  {| self := self st;
                     world :=
                       {| outside := outside (world st);
                          trace := trace (world st) ++ [EvGet first_url];
                          uuid_drawn := uuid_drawn (world st);
                          objects :=
                            <[options := dict_set "aspect_ratio" (VStr nearest) obj]>
                              (objects (world st)) |} |}
                  (dict_set "aspect_ratio" (VStr nearest) obj)
                  prompt image_urls resolution)
        as (Hfst & Htrace & _).
      * simpl. apply lookup_insert_eq.
      * rewrite getattr_set_other by discriminate. assumption.
      * rewrite getattr_set_other by discriminate. assumption.
      * rewrite getattr_set_other by discriminate. assumption.
      * split; [exact Hfst|]. rewrite Htrace. simpl.
        now rewrite <- app_assoc.
Qed.

(** The theorem at the sample run: a 1700 x 2400 source image and no
    aspect ratio given.  The call returns the wrapped reply, it has sent
    one GET and one POST, and the caller's object now says 3:4. *)
Lemma edit_image_request_witness :
  objects (world (snd (Nanobanana.edit_image 0 edit_state))) =
    <[0 := [("prompt", VStr "make it night");
            ("image_urls", VList [VStr "https://example.org/a.png"]);
            ("resolution", VStr "1k"); ("aspect_ratio", VStr "3:4")]]>
      (objects edit_world) /\
  fst (Nanobanana.edit_image 0 edit_state) =
    Returns {| Nanobanana.response :=
                 VDict [("output",
                         VDict [("result", VStr "https://runpod.example/out.jpeg")])] |} /\
  trace (world (snd (Nanobanana.edit_image 0 edit_state))) =
    [EvGet "https://example.org/a.png";
     EvPost Nanobanana.endpoint
       (Nanobanana.request_data (VStr "make it night")
          (VList [VStr "https://example.org/a.png"]) (VStr "1k"))].
Proof.
  assert (Hnearest :
            Utils.get_nearest_aspect_ratio (1700, 2400)%Z Nanobanana.aspect_ratios
            = Ok "3:4") by (vm_compute; reflexivity).
  destruct (proj2 (proj2 (proj2 (edit_image_request 0 edit_state)))
              [("prompt", VStr "make it night");
               ("image_urls", VList [VStr "https://example.org/a.png"]);
               ("resolution", VStr "1k"); ("aspect_ratio", VNone)]
              (VList [VStr "https://example.org/a.png"])
              "https://example.org/a.png" (image_reply 1700 2400) 1700%Z 2400%Z
              "3:4" eq_refl eq_refl eq_refl eq_refl eq_refl eq_refl Hnearest)
    as [Hobjects Hrun].
  split; [exact Hobjects|].
  apply (Hrun (VStr "make it night") (VStr "1k")); reflexivity.
Defined.

(** The same run against a backend that is down: the call raises, and
    the caller's object has been changed all the same. *)
Example edit_image_mutates_then_fails :
  let run := Nanobanana.edit_image 0
               {| self := self edit_state; world := backend_down |} in
  fst run = Raises (RequestException Nanobanana.endpoint) /\
  objects (world (snd run)) !! 0 =
    Some [("prompt", VStr "make it night");
          ("image_urls", VList [VStr "https://example.org/a.png"]);
          ("resolution", VStr "1k"); ("aspect_ratio", VStr "3:4")].
Proof.
  split; vm_compute; reflexivity.
Qed.

Example edit_image_sample_run :
  let run := Nanobanana.edit_image 0
               {| self := {| Nanobanana.api_key := "key";
                             Nanobanana.client_response := VNone |};
                  world := edit_world |} in
  trace (world (snd run)) =
    [EvGet "https://example.org/a.png";
     EvPost Nanobanana.endpoint
       (Nanobanana.request_data (VStr "make it night")
          (VList [VStr "https://example.org/a.png"]) (VStr "1k"))] /\
  objects (world (snd run)) !! 0 =
    Some [("prompt", VStr "make it night");
          ("image_urls", VList [VStr "https://example.org/a.png"]);
          ("resolution", VStr "1k"); ("aspect_ratio", VStr "3:4")].
Proof.
  split; vm_compute; reflexivity.
Qed.

(** C10 as stated fails: the body posted in that run has one key,
    ["input"]; the six keys sit one level below. *)
Lemma edit_request_is_wrapped :
  exists body,
    trace (world (snd (Nanobanana.edit_image 0
                         {| self := {| Nanobanana.api_key := "key";
                                       Nanobanana.client_response := VNone |};
                            world := edit_world |}))) =
      [EvGet "https://example.org/a.png"; EvPost Nanobanana.endpoint body] /\
    body_keys body = ["input"] /\
    body_keys body <> edit_request_keys.
Proof.
  eexists. split; [vm_compute; reflexivity|].
  split; [reflexivity | discriminate].
Qed.

(* ================================================================== *)
(** * Further properties                                               *)
(* ================================================================== *)

(** ** Construction and schema *)

Lemma fold_left_map {A B C} (f : A -> B -> A) (g : C -> B) (l : list C) (a : A) :
  fold_left f (map g l) a = fold_left (fun acc x => f acc (g x)) l a.
Proof. revert a. induction l; intros a0; simpl; auto. Qed.

Lemma schema_field_fold (fs : list Main.Field)
    (acc : pydict Main.schema_entry * list string) :
  fold_left Main.schema_field fs acc =
  (fold_left (fun out f =>
                dict_set (Main.f_name f)
                  (entry_of (Main.f_type f)
                     {| Main.p_name := Main.f_name f;
                        Main.p_default := Main.field_default f |}) out)
             fs (fst acc),
   snd acc ++
   map Main.p_name
     (List.filter lacks_default
        (map (fun f => {| Main.p_name := Main.f_name f;
                          Main.p_default := Main.field_default f |}) fs))).
Proof.
  revert acc. induction fs as [|f fs IH]; intros [props req]; simpl.
  - now rewrite app_nil_r.
  - rewrite IH. unfold Main.schema_field, entry_of, lacks_default, Main.field_default.
    simpl. destruct (Main.f_default f) as [v|]; simpl; [reflexivity|].
    destruct (Main.f_default_factory f) as [v|]; simpl; [reflexivity|].
    now rewrite <- app_assoc.
Qed.

Lemma schema_param_fold (ann : pydict string) (ps : list Main.Param)
    (acc : pydict Main.schema_entry * list string) :
  ~ In "self" (map Main.p_name ps) ->
  fold_left (Main.schema_param ann) ps acc =
  (fold_left (fun out p =>
                dict_set (Main.p_name p)
                  (entry_of (default "typing.Any" (dict_get (Main.p_name p) ann)) p)
                  out)
             ps (fst acc),
   snd acc ++ map Main.p_name (List.filter lacks_default ps)).
Proof.
  revert acc. induction ps as [|p ps IH]; intros [props req] Hns; simpl.
  - now rewrite app_nil_r.
  - simpl in Hns. rewrite IH by tauto.
    unfold Main.schema_param, entry_of, lacks_default.
    destruct (String.eqb (Main.p_name p) "self") eqn:E.
    + apply String.eqb_eq in E. tauto.
    + destruct (dict_get (Main.p_name p) ann); simpl;
        destruct (Main.p_default p); simpl; try reflexivity;
        now rewrite <- app_assoc.
Qed.

(** The schema of a well-formed type: one property per declared field, in
    declaration order, and the fields without default as [required]. *)
Lemma options_schema_shape (t : Main.options_type) (ann : pydict string) :
  Main.well_formed t = true ->
  exists type_of : Main.Param -> string,
    Main.sc_properties (Main._options_schema t ann) =
      map (fun p => (Main.p_name p, entry_of (type_of p) p)) (Main.declared_fields t) /\
    Main.sc_required (Main._options_schema t ann) =
      map Main.p_name (List.filter lacks_default (Main.declared_fields t)).
Proof.
  intros Hwf.
  destruct (well_formed_sig t Hwf) as (p0 & rest & Hsig & Hp0 & Hdecl & Hns & Hnd).
  rewrite Hdecl. destruct t as [fs|ps]; simpl in *.
  - unfold Main.dataclass_init in Hsig. injection Hsig as _ Hrest. subst rest.
    rewrite schema_field_fold. simpl.
    exists (fun p => default "" (option_map Main.f_type
                       (find (fun f => String.eqb (Main.f_name f) (Main.p_name p)) fs))).
    split; [|reflexivity].
    rewrite <- (fold_left_map
                  (fun out item => dict_set (fst item) (snd item) out)
                  (fun f => (Main.f_name f,
                             entry_of (Main.f_type f)
                               {| Main.p_name := Main.f_name f;
                                  Main.p_default := Main.field_default f |}))).
    change (fold_left (fun out item => dict_set (fst item) (snd item) out)
              (map (fun f => (Main.f_name f,
                              entry_of (Main.f_type f)
                                {| Main.p_name := Main.f_name f;
                                   Main.p_default := Main.field_default f |})) fs) [])
      with (dict_update [] (map (fun f => (Main.f_name f,
                              entry_of (Main.f_type f)
                                {| Main.p_name := Main.f_name f;
                                   Main.p_default := Main.field_default f |})) fs)).
    fold (dict_copy (map (fun f => (Main.f_name f,
                              entry_of (Main.f_type f)
                                {| Main.p_name := Main.f_name f;
                                   Main.p_default := Main.field_default f |})) fs)).
    rewrite dict_copy_NoDup.
    + rewrite map_map. apply map_ext_in. intros f Hf. simpl. f_equal. f_equal.
      rewrite map_map in Hnd. simpl in Hnd.
      clear - Hf Hnd. induction fs as [|g fs IH]; [destruct Hf|].
      simpl in *. apply NoDup_cons in Hnd as [Hg Hnd].
      destruct Hf as [->|Hf]; [now rewrite String.eqb_refl|].
      destruct (String.eqb (Main.f_name g) (Main.f_name f)) eqn:E; [|auto].
      apply String.eqb_eq in E. exfalso. apply Hg. rewrite E.
      apply list_elem_of_In. now apply (in_map Main.f_name).
    + unfold dict_keys. rewrite map_map. simpl. now rewrite map_map in Hnd.
  - subst ps. simpl.
    assert (Hself : Main.schema_param ann ([], []) p0 = ([], [])).
    { unfold Main.schema_param. now rewrite Hp0. }
    rewrite Hself, schema_param_fold by assumption. simpl.
    exists (fun p => default "typing.Any" (dict_get (Main.p_name p) ann)).
    split; [|reflexivity].
    rewrite <- (fold_left_map
                  (fun out item => dict_set (fst item) (snd item) out)
                  (fun p => (Main.p_name p,
                             entry_of (default "typing.Any" (dict_get (Main.p_name p) ann)) p))).
    change (fold_left (fun out item => dict_set (fst item) (snd item) out)
              (map (fun p => (Main.p_name p,
                             entry_of (default "typing.Any" (dict_get (Main.p_name p) ann)) p)) rest) [])
      with (dict_copy (map (fun p => (Main.p_name p,
                             entry_of (default "typing.Any" (dict_get (Main.p_name p) ann)) p)) rest)).
    apply dict_copy_NoDup. unfold dict_keys. now rewrite map_map.
Qed.


(** X1.  The schema decides construction: an options object can be built
    from a payload exactly when every payload key is a property of the
    schema and every name the schema lists as required is a payload
    key. *)
Theorem options_schema_decides_construction (t : Main.options_type)
    (ann : pydict string) (payload : pydict pyval) :
  Main.well_formed t = true ->
  (exists o, Main._build_options_object t payload = Ok o) <->
  (forall k, In k (dict_keys payload) ->
             In k (dict_keys (Main.sc_properties (Main._options_schema t ann)))) /\
  (forall r, In r (Main.sc_required (Main._options_schema t ann)) ->
             In r (dict_keys payload)).
Proof.
  intros Hwf.
  destruct (options_schema_shape t ann Hwf) as (type_of & Hprops & Hreq).
  rewrite Hprops, Hreq, construction_succeeds_iff by assumption.
  unfold dict_keys, Main.field_names. rewrite map_map. simpl.
  split; intros [Hkeys Hrequired]; (split; [exact Hkeys|]).
  - intros r Hr. apply in_map_iff in Hr as (p & <- & Hp).
    apply filter_In in Hp as [Hp Hl]. apply Hrequired; [assumption|].
    unfold lacks_default in Hl. now destruct (Main.p_default p).
  - intros p Hp Hnone. apply Hrequired. apply in_map, filter_In.
    split; [assumption|]. unfold lacks_default. now rewrite Hnone.
Qed.

(** The theorem at the NanoBanana edit options and the sample payload. *)
Lemma options_schema_decides_construction_witness :
  (exists o,
      Main._build_options_object Nanobanana.RunpodNanoBananaImageEditingOptions
        sample_edit_payload = Ok o) <->
  (forall k, In k (dict_keys sample_edit_payload) ->
     In k (dict_keys (Main.sc_properties
                        (Main._options_schema
                           Nanobanana.RunpodNanoBananaImageEditingOptions [])))) /\
  (forall r,
     In r (Main.sc_required
             (Main._options_schema
                Nanobanana.RunpodNanoBananaImageEditingOptions [])) ->
     In r (dict_keys sample_edit_payload)).
Proof.
  apply (options_schema_decides_construction
           Nanobanana.RunpodNanoBananaImageEditingOptions [] sample_edit_payload).
  reflexivity.
Defined.



(** X3.  The generate tool checks its payload before it sends anything:
    a payload without [prompt], or with a key that is no field of the
    Flux options, raises a [TypeError] and leaves the world untouched. *)
Theorem flux_generate_rejects_payload (fuel : nat)
    (cfg : Flux.FluxImageGeneratorConfig) (payload : pydict pyval) (w : World) :
  (~ In "prompt" (dict_keys payload) \/
   exists k, In k (dict_keys payload) /\
             ~ In k ["prompt"; "model"; "aspect_ratio"]) ->
  exists err,
    Flux.image_flux_generate fuel cfg payload w = (Raises (TypeError err), w).
Proof.
  intros Hbad.
  assert (Hfail : ~ exists o,
             Main._build_options_object Flux.FluxImageGeneratorOptions payload = Ok o).
  { intros Hex. apply construction_succeeds_iff in Hex as [Hkeys Hreq]; [|reflexivity].
    destruct Hbad as [Hprompt|(k & Hk & Hnot)].
    - apply Hprompt.
      apply (Hreq {| Main.p_name := "prompt"; Main.p_default := None |});
        [now left | reflexivity].
    - apply Hnot, (Hkeys k Hk). }
  unfold Flux.image_flux_generate, bind.
  rewrite build_options_construct in *. unfold Main.construct in *.
  destruct (Main.bad_keyword _ _) as [err|]; [now exists err|].
  destruct (Main.missing_arguments _ _) as [|n ns]; [exfalso; eauto|].
  now exists (MissingArguments (n :: ns)).
Qed.

Lemma flux_generate_rejects_payload_witness :
  exists err,
    Flux.image_flux_generate 3 {| Flux.api_key := "key" |}
      [("prompt", VStr "a cat"); ("seed", VInt 7)]
      (replying_world 200 []) =
    (Raises (TypeError err), replying_world 200 []).
Proof.
  apply (flux_generate_rejects_payload 3 {| Flux.api_key := "key" |}
           [("prompt", VStr "a cat"); ("seed", VInt 7)] (replying_world 200 [])).
  right. exists "seed". split; [right; now left|].
  simpl. intuition discriminate.
Defined.

(** ** Registered tools *)

Lemma dict_get_In_pair {V} (k : string) (v : V) (d : pydict V) :
  NoDup (dict_keys d) -> (dict_get k d = Some v <-> In (k, v) d).
Proof.
  induction d as [|[k' v'] d IH]; simpl; intros Hnd.
  - split; [discriminate | intros []].
  - apply NoDup_cons in Hnd as [Hk' Hnd].
    destruct (String.eqb k k') eqn:E.
    + apply String.eqb_eq in E. subst k'. split.
      * intros H. injection H as <-. now left.
      * intros [H|H]; [congruence|]. exfalso. apply Hk'.
        apply list_elem_of_In. now apply (in_map fst) in H.
    + rewrite IH by assumption. split; [now right|].
      intros [H|H]; [|assumption]. injection H as -> _.
      now rewrite String.eqb_refl in E.
Qed.

Lemma tools_of_generator_names (n : string) (cls : pyclass) (t : Main.tool) :
  In t (Main.tools_of_generator n cls) ->
  t = Main.ToolReadme n \/ t = Main.ToolGenerateSchema n \/ t = Main.ToolGenerate n \/
  t = Main.ToolEditSchema n \/ t = Main.ToolEdit n.
Proof.
  unfold Main.tools_of_generator. rewrite !in_app_iff. simpl.
  destruct (Main._is_overridden cls "generate_image"),
           (Main._is_overridden cls "edit_image"); simpl; intuition.
Qed.

(** X4.  The tools registered at startup agree with what [image-list]
    reports: every listed backend has its readme tool, and it has the
    generate tool and the generate-schema tool exactly when the listing
    flags [generate], the edit tool and the edit-schema tool exactly when
    the listing flags [edit]. *)
Theorem registered_tools_match_listing (cs : list Registery.reg_call)
    (name : string) :
  let r := Registery.run_calls cs Registery.REGISTERED_GENERATORS_init in
  let tools := Main.build_mcp_tools r in
  let listing := Main.image_list r in
  In Main.ToolList tools /\
  (In (Main.ToolReadme name) tools <-> In name (dict_keys listing)) /\
  (In (Main.ToolGenerate name) tools <->
   exists e, dict_get name listing = Some e /\ Main.le_generate e = true) /\
  (In (Main.ToolGenerateSchema name) tools <-> In (Main.ToolGenerate name) tools) /\
  (In (Main.ToolEdit name) tools <->
   exists e, dict_get name listing = Some e /\ Main.le_edit e = true) /\
  (In (Main.ToolEditSchema name) tools <-> In (Main.ToolEdit name) tools).
Proof.
  intros r tools listing.
  assert (Hnd : NoDup (dict_keys r)) by (apply run_calls_NoDup; constructor).
  assert (Hlisting : listing = map (fun item =>
            (fst item,
             {| Main.le_class :=
                  cls_module (snd item) +:+ "." +:+ cls_name (snd item);
                Main.le_generate := Main._is_overridden (snd item) "generate_image";
                Main.le_edit := Main._is_overridden (snd item) "edit_image" |}))
            r).
  { unfold listing, Main.image_list. rewrite dict_copy_NoDup by assumption.
    now apply list_generators_map. }
  assert (Hget : forall e, dict_get name listing = Some e <->
            exists cls, In (name, cls) r /\
              e = {| Main.le_class := cls_module cls +:+ "." +:+ cls_name cls;
                     Main.le_generate := Main._is_overridden cls "generate_image";
                     Main.le_edit := Main._is_overridden cls "edit_image" |}).
  { intros e. rewrite Hlisting.
    rewrite (dict_get_map
               (fun c => {| Main.le_class := cls_module c +:+ "." +:+ cls_name c;
                            Main.le_generate := Main._is_overridden c "generate_image";
                            Main.le_edit := Main._is_overridden c "edit_image" |})).
    split.
    - destruct (dict_get name r) as [cls|] eqn:E; [|discriminate].
      intros H. injection H as <-. exists cls. split; [|reflexivity].
      now apply dict_get_In_pair.
    - intros (cls & Hin & ->). apply dict_get_In_pair in Hin; [|assumption].
      now rewrite Hin. }
  assert (Htool : forall t,
            In t tools <->
            t = Main.ToolList \/
            exists cls, In (name, cls) r /\ In t (Main.tools_of_generator name cls) \/
            exists n cls, n <> name /\ In (n, cls) r /\ In t (Main.tools_of_generator n cls)).
  { intros t. unfold tools, Main.build_mcp_tools.
    rewrite dict_copy_NoDup by assumption. simpl. rewrite in_flat_map. split.
    - intros [H|([n cls] & Hin & Ht)]; [now left|]. right. simpl in Ht.
      destruct (String.eqb n name) eqn:E.
      + apply String.eqb_eq in E. subst n. exists cls. left. eauto.
      + exists cls. right. exists n, cls. repeat split; try assumption.
        intros ->. now rewrite String.eqb_refl in E.
    - intros [H|(cls & [[Hin Ht]|(n & cls' & _ & Hin & Ht)])]; [now left| |];
        right; eexists; split; eauto. }
  assert (Hother : forall t n cls, n <> name -> In t (Main.tools_of_generator n cls) ->
            t <> Main.ToolReadme name /\ t <> Main.ToolGenerate name /\
            t <> Main.ToolGenerateSchema name /\ t <> Main.ToolEdit name /\
            t <> Main.ToolEditSchema name).
  { intros t n cls Hne Ht. apply tools_of_generator_names in Ht.
    repeat split; intros ->; intuition congruence. }
  assert (Hcase : forall (t : Main.tool) (P : pyclass -> Prop),
            t <> Main.ToolList ->
            (forall n cls, n <> name -> In t (Main.tools_of_generator n cls) -> False) ->
            (forall cls, In t (Main.tools_of_generator name cls) <-> P cls) ->
            (In t tools <-> exists cls, In (name, cls) r /\ P cls)).
  { intros t P Hnl Hno HP. rewrite Htool. split.
    - intros [H|(cls & [[Hin Ht]|(n & cls' & Hne & Hin & Ht)])]; [congruence| |].
      + exists cls. split; [assumption | now apply HP].
      + exfalso. eauto.
    - intros (cls & Hin & Hp). right. exists cls. left. split; [assumption | now apply HP]. }
  assert (Hreadme : In (Main.ToolReadme name) tools <-> exists cls, In (name, cls) r /\ True).
  { apply Hcase; [discriminate | |].
    - intros n cls Hne Ht. now destruct (Hother _ n cls Hne Ht) as (H & _).
    - intros cls. split; [auto|]. intros _. now left. }
  assert (Hgen : In (Main.ToolGenerate name) tools <->
                 exists cls, In (name, cls) r /\
                             Main._is_overridden cls "generate_image" = true).
  { apply Hcase; [discriminate | |].
    - intros n cls Hne Ht. now destruct (Hother _ n cls Hne Ht) as (_ & H & _).
    - intros cls. unfold Main.tools_of_generator. rewrite !in_app_iff. simpl.
      destruct (Main._is_overridden cls "generate_image"),
               (Main._is_overridden cls "edit_image"); simpl;
        intuition (discriminate || congruence). }
  assert (Hgens : In (Main.ToolGenerateSchema name) tools <->
                  exists cls, In (name, cls) r /\
                              Main._is_overridden cls "generate_image" = true).
  { apply Hcase; [discriminate | |].
    - intros n cls Hne Ht. now destruct (Hother _ n cls Hne Ht) as (_ & _ & H & _).
    - intros cls. unfold Main.tools_of_generator. rewrite !in_app_iff. simpl.
      destruct (Main._is_overridden cls "generate_image"),
               (Main._is_overridden cls "edit_image"); simpl;
        intuition (discriminate || congruence). }
  assert (Hedit : In (Main.ToolEdit name) tools <->
                  exists cls, In (name, cls) r /\
                              Main._is_overridden cls "edit_image" = true).
  { apply Hcase; [discriminate | |].
    - intros n cls Hne Ht. now destruct (Hother _ n cls Hne Ht) as (_ & _ & _ & H & _).
    - intros cls. unfold Main.tools_of_generator. rewrite !in_app_iff. simpl.
      destruct (Main._is_overridden cls "generate_image"),
               (Main._is_overridden cls "edit_image"); simpl;
        intuition (discriminate || congruence). }
  assert (Hedits : In (Main.ToolEditSchema name) tools <->
                   exists cls, In (name, cls) r /\
                               Main._is_overridden cls "edit_image" = true).
  { apply Hcase; [discriminate | |].
    - intros n cls Hne Ht. now destruct (Hother _ n cls Hne Ht) as (_ & _ & _ & _ & H).
    - intros cls. unfold Main.tools_of_generator. rewrite !in_app_iff. simpl.
      destruct (Main._is_overridden cls "generate_image"),
               (Main._is_overridden cls "edit_image"); simpl;
        intuition (discriminate || congruence). }
  split; [now left|].
  split.
  { rewrite Hreadme, <- dict_get_In. split.
    - intros (cls & Hin & _). eexists. apply Hget. eauto.
    - intros [e He]. apply Hget in He as (cls & Hin & _). eauto. }
  split.
  { rewrite Hgen. split.
    - intros (cls & Hin & Ho). eexists. split; [apply Hget; eauto | exact Ho].
    - intros (e & He & Hflag). apply Hget in He as (cls & Hin & ->). eauto. }
  split; [now rewrite Hgen, Hgens|].
  split; [|now rewrite Hedit, Hedits].
  rewrite Hedit. split.
  - intros (cls & Hin & Ho). eexists. split; [apply Hget; eauto | exact Ho].
  - intros (e & He & Hflag). apply Hget in He as (cls & Hin & ->). eauto.
Qed.

(** The tools of the repository's two backends, by name. *)
Example build_mcp_tools_startup :
  map Main.tool_name (Main.build_mcp_tools REGISTERED_GENERATORS) =
  ["image-list";
   "image-flux-readme"; "image-flux-generate_schema"; "image-flux-generate";
   "image-nanobanana-readme"; "image-nanobanana-edit_schema";
   "image-nanobanana-edit"].
Proof. reflexivity. Qed.

(** ** Storage *)

Section TrimFacts.
Variable space : ascii -> bool.

Lemma drop_leading_empty (s : string) :
  Utils.drop_leading space s = "" <-> Utils.all_of space s = true.
Proof.
  induction s as [|c s IH]; simpl; [tauto|].
  destruct (space c); simpl; [exact IH | split; discriminate].
Qed.

Lemma all_of_drop_leading (s : string) :
  Utils.all_of space (Utils.drop_leading space s) = Utils.all_of space s.
Proof.
  induction s as [|c s IH]; simpl; [reflexivity|].
  destruct (space c) eqn:E; simpl; [exact IH | now rewrite E].
Qed.

Lemma drop_trailing_empty (s : string) :
  Utils.drop_trailing space s = "" <-> Utils.all_of space s = true.
Proof.
  destruct s as [|c s]; simpl; [tauto|].
  destruct (space c && Utils.all_of space s); split; congruence.
Qed.
End TrimFacts.

Lemma strip_empty (s : string) :
  String.eqb (Utils.strip s) "" = Utils.all_space s.
Proof.
  unfold Utils.strip, Utils.rstrip, Utils.lstrip, Utils.all_space.
  destruct (Utils.all_of Utils.is_space s) eqn:E.
  - apply String.eqb_eq, drop_trailing_empty. now rewrite all_of_drop_leading.
  - apply String.eqb_neq. intros H. apply drop_trailing_empty in H.
    rewrite all_of_drop_leading in H. congruence.
Qed.

(** The no-break space is white space for [strip]; the separators 28 to
    31 are white space for [strip] and not for [int]. *)
Example strip_no_break_space :
  Utils.strip (String (ascii_of_nat 160) (String (ascii_of_nat 133) "")) = "" /\
  Utils.py_int (String (ascii_of_nat 160) "16") = Ok 16%Z /\
  Utils.strip (String (ascii_of_nat 31) "16") = "16" /\
  Utils.py_int (String (ascii_of_nat 31) "16") =
    Raise (ValueError "invalid literal for int() with base 10: '\x1f16'").
Proof. repeat split; reflexivity. Qed.

Lemma validate_loop_verdict (vars : list string) (w : World) :
  S3.validate_loop vars w =
  (Returns (forallb (fun name => negb (Utils.all_space (env_or_empty w name))) vars), w).
Proof.
  induction vars as [|v vars IH]; simpl; [reflexivity|].
  unfold bind, environ_get_or_empty, environ_get, bind, gets, ret. simpl.
  rewrite strip_empty. fold (env_or_empty w v).
  destruct (Utils.all_space (env_or_empty w v)); [reflexivity | exact IH].
Qed.

(** X5.  The validation reads the environment and nothing else: it
    returns without changing the world, and its verdict is [True] exactly
    when each of the six variables is set to a value that is not blank. *)
Theorem validate_s3_env_vars_verdict (w : World) :
  exists verdict,
    S3.validate_s3_env_vars w = (Returns verdict, w) /\
    (verdict = true <->
     forall name, In name S3.required_vars ->
       exists value, environ (outside w) !! name = Some value /\
                     Utils.all_space value = false).
Proof.
  unfold S3.validate_s3_env_vars. rewrite validate_loop_verdict.
  eexists. split; [reflexivity|].
  rewrite forallb_forall. split.
  - intros H name Hin. specialize (H name Hin). apply negb_true_iff in H.
    unfold env_or_empty in H.
    destruct (environ (outside w) !! name) as [value|]; [eauto | discriminate].
  - intros H name Hin. destruct (H name Hin) as (value & Hv & Hns).
    unfold env_or_empty. rewrite Hv. simpl. now rewrite Hns.
Qed.

(** X6.  When [boto3.client] raises, the copy raises that exception and
    does nothing else.  Once the client exists, a copy returns a URL or
    raises one of three errors: [AttributeError] (a source that is no
    string), [ValueError] (a source that is not an http(s) URL, or one
    that [urlparse] refuses), or the [RuntimeError] whose message ends
    with the text of the exception it wraps.  No exception of the
    download or of the upload escapes as such. *)
Theorem copy_url_to_s3_outcomes (source : pyval) (w : World) :
  match client_refusal w with
  | Some exc => S3.copy_url_to_s3 source w = (Raises exc, w)
  | None => copy_outcome w source (fst (S3.copy_url_to_s3 source w))
  end.
Proof.
  unfold client_refusal.
  destruct (client_error _ _ _ _ _) as [exc|] eqn:Hclient;
    unfold S3.copy_url_to_s3; unfold bind at 1;
    rewrite create_s3_client_ignores_validation;
    unfold S3.boto3_client, bind at 1, gets; simpl; rewrite Hclient;
    [reflexivity|].
  unfold ret, bind at 1, environ_get, gets. simpl.
  destruct source as [| | |source| | |]; simpl; try (intros s; discriminate).
  destruct (String.prefix "http://" source || String.prefix "https://" source)
    eqn:Hprefix; simpl; [|eauto 6].
  unfold S3.path_suffix, bind at 1, gets. unfold bind at 1. simpl.
  destruct (urlparse_error (outside w) source) as [msg|] eqn:Eparse;
    simpl; [eauto 6|].
  unfold bind at 1, draw_uuid4, bind at 1, gets.
  unfold bind, gets, modify, ret, try_except, S3.fetch_url, requests_get,
    S3.put_object, emit, modify, bind, gets, ret, raise, environ_get_or_empty,
    environ_get, bind, gets, ret. simpl.
  destruct (http_get _ _ _) as [reply|] eqn:Hget; simpl.
  - destruct ((400 <=? status_code reply)%Z && (status_code reply <? 600)%Z)
      eqn:Hstatus; simpl.
    + exists source, (HTTPError (status_code reply)).
      repeat split. left. exists [EvGet source].
      unfold download_failure. now rewrite Hget, Hstatus.
    + assert (Hdownload : download_failure w source = None)
        by (unfold download_failure; now rewrite Hget, Hstatus).
      destruct (put_object_error _ _ _) as [exc|] eqn:Hput; simpl.
      * exists source, exc. repeat split. right. split; [assumption|].
        exact Hput.
      * destruct (negb _); simpl; exists source; repeat split;
          assumption || exact Hput.
  - assert (Hdownload : exists sent,
              download_failure w source = Some (RequestException source, sent))
      by (eexists; unfold download_failure; now rewrite Hget).
    destruct (refused _ _); simpl;
      exists source, (RequestException source); repeat split; now left.
Qed.

(** X7.  A source that is not an http(s) URL is refused before anything
    happens: once the client exists, the call raises [ValueError] with no
    download, no upload and no key drawn. *)
Theorem copy_url_to_s3_refuses_scheme (source : string) (w : World) :
  client_error (outside w) (env_or_empty w "S3_ENDPOINT_URL")
    (env_or_empty w "S3_REGION") (env_or_empty w "S3_ACCESS_KEY")
    (env_or_empty w "S3_SECRET_KEY") = None ->
  String.prefix "http://" source || String.prefix "https://" source = false ->
  S3.copy_url_to_s3 (VStr source) w =
  (Raises (ValueError "source_url must be a valid HTTP/HTTPS URL"), w).
Proof.
  intros Hclient Hprefix.
  unfold S3.copy_url_to_s3. unfold bind at 1.
  rewrite create_s3_client_ignores_validation.
  unfold S3.boto3_client, bind at 1, gets. simpl. rewrite Hclient.
  unfold ret, bind at 1, environ_get, gets. simpl.
  now rewrite Hprefix.
Qed.

Lemma copy_url_to_s3_refuses_scheme_witness :
  S3.copy_url_to_s3 (VStr "ftp://example.org/a.png") (replying_world 200 []) =
  (Raises (ValueError "source_url must be a valid HTTP/HTTPS URL"),
   replying_world 200 []).
Proof.
  apply (copy_url_to_s3_refuses_scheme "ftp://example.org/a.png"
           (replying_world 200 [])); reflexivity.
Defined.

(** X8.  When the source parses and its download fails (a response with
    a status from 400 to 599, or no response), nothing is uploaded: the
    call raises the [RuntimeError] that wraps the exception of the
    download, its text at the end of the message.  It has drawn a key,
    and the one request that went out is the GET of the source, or none
    when [requests] refused the URL. *)
Theorem copy_url_to_s3_download_fails (source : string) (w : World)
    (exc : exn) (sent : list event) :
  client_refusal w = None ->
  String.prefix "http://" source || String.prefix "https://" source = true ->
  urlparse_error (outside w) source = None ->
  download_failure w source = Some (exc, sent) ->
  S3.copy_url_to_s3 (VStr source) w =
  (Raises (RuntimeError (copy_failure w source exc)),
   {| outside := outside w; trace := trace w ++ sent;
      uuid_drawn := S (uuid_drawn w); objects := objects w |}).
Proof.
  intros Hclient Hprefix Hparse Hfail. unfold client_refusal in Hclient.
  unfold S3.copy_url_to_s3. unfold bind at 1.
  rewrite create_s3_client_ignores_validation.
  unfold S3.boto3_client, bind at 1, gets. simpl. rewrite Hclient.
  unfold ret, bind at 1, environ_get, gets. simpl.
  rewrite Hprefix. simpl.
  unfold S3.path_suffix, bind at 1, gets. unfold bind at 1. simpl.
  rewrite Hparse.
  unfold bind at 1, draw_uuid4, bind at 1, gets.
  unfold bind, gets, modify, ret, try_except, S3.fetch_url, requests_get,
    S3.put_object, emit, modify, bind, gets, ret, raise, environ_get_or_empty,
    environ_get, bind, gets, ret. simpl.
  unfold download_failure in Hfail.
  destruct (http_get _ _ _) as [reply|]; simpl.
  - destruct ((400 <=? status_code reply)%Z && (status_code reply <? 600)%Z);
      [|discriminate].
    injection Hfail as <- <-. reflexivity.
  - injection Hfail as <- <-.
    destruct (refused _ _); simpl; [now rewrite app_nil_r | reflexivity].
Qed.

(** The theorem at a source the sample backend does not serve. *)
Lemma copy_url_to_s3_download_fails_witness :
  S3.copy_url_to_s3 (VStr "https://example.org/gone.png") (replying_world 200 []) =
  (Raises (RuntimeError
             "Failed to copy https://example.org/gone.png to S3: no response from https://example.org/gone.png"),
   {| outside := outside (replying_world 200 []);
      trace := [EvGet "https://example.org/gone.png"];
      uuid_drawn := 1; objects := ∅ |}).
Proof.
  apply (copy_url_to_s3_download_fails "https://example.org/gone.png"
           (replying_world 200 []) (RequestException "https://example.org/gone.png")
           [EvGet "https://example.org/gone.png"]); reflexivity.
Defined.

(** ** The Flux response and client *)

(** X9.  With [auto=False] the poller asks once and does not wait: on a
    job that is not ready it makes one GET, sleeps never, and returns
    [None], whatever fuel the loop would have had. *)
Theorem pool_without_auto (fuel : nat) (st : St Flux.FluxResponse) (u : string)
    (reply : http_response) (d : pydict pyval) :
  Flux.image (self st) = VNone ->
  Flux.retriveal_url (self st) = VNone ->
  Flux.polling_url (self st) = VStr u ->
  http_get (outside (world st)) u (count_gets u (trace (world st))) = Some reply ->
  body_json reply = Some (VDict d) ->
  eq_str (status_of d) "Ready" = false ->
  Flux.pool fuel false st = (Returns VNone, polled u st).
Proof.
  intros Himg Hret Hu Hget Hjson Hstatus.
  unfold Flux.pool, bind, gets. simpl. rewrite Himg. simpl. rewrite Hu. simpl.
  rewrite (_pool_not_ready st u reply d) by assumption.
  unfold ret, Flux._retrieve_image, bind, gets. simpl.
  rewrite Hret. simpl. now rewrite Himg.
Qed.

Lemma pool_without_auto_witness :
  Flux.pool 0 false failed_state = (Returns VNone, polled polling_endpoint failed_state).
Proof.
  apply (pool_without_auto 0 failed_state polling_endpoint
           (json_reply 200 (status_body "Processing"))
           [("status", VStr "Processing")]); reflexivity.
Defined.

(** Every object built for the Flux options has its three attributes. *)
Lemma flux_options_attributes (payload opts : pydict pyval) :
  Main._build_options_object Flux.FluxImageGeneratorOptions payload = Ok opts ->
  exists prompt model aspect_ratio,
    getattr opts "prompt" = Ok prompt /\
    getattr opts "model" = Ok model /\
    getattr opts "aspect_ratio" = Ok aspect_ratio.
Proof.
  intros Hbuild.
  assert (Hattr : forall p,
             In p (Main.declared_fields Flux.FluxImageGeneratorOptions) ->
             exists v, getattr opts (Main.p_name p) = Ok v).
  { intros p Hp.
    assert (Hex : exists o, Main._build_options_object
                              Flux.FluxImageGeneratorOptions payload = Ok o) by eauto.
    apply construction_succeeds_iff in Hex as [_ Hreq]; [|reflexivity].
    rewrite build_options_construct in Hbuild. unfold Main.construct in Hbuild.
    destruct (Main.bad_keyword _ _); [discriminate|].
    destruct (Main.missing_arguments _ _); [|discriminate].
    injection Hbuild as <-. unfold getattr, Main.bind_arguments.
    change (Main.keyword_params (Main.init_signature Flux.FluxImageGeneratorOptions))
      with (Main.declared_fields Flux.FluxImageGeneratorOptions).
    rewrite bind_arguments_get;
      [|apply nodup_strings_NoDup; reflexivity | assumption].
    destruct (dict_get (Main.p_name p) (Main.merged _ payload)) as [v|] eqn:E; [eauto|].
    destruct (Main.p_default p) as [v|] eqn:Ed; [eauto|].
    exfalso. specialize (Hreq p Hp Ed).
    apply dict_get_None in E. apply E. apply dict_update_keys. now right. }
  destruct (Hattr {| Main.p_name := "prompt"; Main.p_default := None |})
    as [prompt Hp]; [now left|].
  destruct (Hattr {| Main.p_name := "model"; Main.p_default := Some (VStr "flux-2-max") |})
    as [model Hm]; [right; now left|].
  destruct (Hattr {| Main.p_name := "aspect_ratio"; Main.p_default := Some (VStr "1:1") |})
    as [aspect Ha]; [right; right; now left|].
  eauto 7.
Qed.

(** X10.  When the backend answers the creation request with a JSON
    object that has no polling URL (any status but 429 and 402), the
    generate tool raises "No polling url found": it has posted once, and
    it polls nothing and stores nothing. *)
Theorem flux_generate_without_polling_url (fuel : nat)
    (cfg : Flux.FluxImageGeneratorConfig) (payload opts : pydict pyval)
    (w : World) (reply : http_response) (d : pydict pyval) :
  Main._build_options_object Flux.FluxImageGeneratorOptions payload = Ok opts ->
  (forall url body, http_post (outside w) url body = Some reply) ->
  status_code reply <> 429%Z -> status_code reply <> 402%Z ->
  body_json reply = Some (VDict d) ->
  dict_get "polling_url" d = None ->
  exists url body,
    Flux.image_flux_generate fuel cfg payload w =
    (Raises (ImageGenerationError "No polling url found"),
     add_event (EvPost url body) w).
Proof.
  intros Hbuild Hpost H429 H402 Hjson Hnone.
  destruct (flux_options_attributes payload opts Hbuild)
    as (prompt & model & aspect & Hp & Hm & Ha).
  unfold Flux.image_flux_generate. unfold bind at 1. rewrite Hbuild. simpl.
  unfold bind at 1, Flux.generate_image, bind, lift. rewrite Hm, Hp, Ha. simpl.
  destruct (py_str model w) as [[model_str| |] w0] eqn:Hstr;
    try (destruct model; discriminate).
  assert (w0 = w) by (destruct model; inversion Hstr; reflexivity). subst w0.
  unfold requests_post, bind, gets, emit, modify, ret, json, raise. simpl.
  rewrite Hpost. simpl.
  apply Z.eqb_neq in H429, H402. rewrite H429, H402, Hjson. simpl.
  unfold Flux.FluxResponse_init. simpl. rewrite Hnone. simpl.
  eexists _, _. reflexivity.
Qed.

(** The theorem at a backend that answers 500 with an error detail. *)
Lemma flux_generate_without_polling_url_witness :
  exists url body,
    Flux.image_flux_generate 3 {| Flux.api_key := "key" |}
      [("prompt", VStr "a cat")]
      (replying_world 500 [("detail", VStr "Internal Server Error")]) =
    (Raises (ImageGenerationError "No polling url found"),
     add_event (EvPost url body)
       (replying_world 500 [("detail", VStr "Internal Server Error")])).
Proof.
  apply (flux_generate_without_polling_url 3 {| Flux.api_key := "key" |}
           [("prompt", VStr "a cat")]
           [("prompt", VStr "a cat"); ("model", VStr "flux-2-max");
            ("aspect_ratio", VStr "1:1")]
           (replying_world 500 [("detail", VStr "Internal Server Error")])
           (json_reply 500 (VDict [("detail", VStr "Internal Server Error")]))
           [("detail", VStr "Internal Server Error")]);
    try reflexivity; discriminate.
Defined.



(** X12.  The creation call sends at most one request and touches nothing
    else: with the three attributes present it posts once, to the URL of
    the model, a body with exactly [prompt] and [aspect_ratio]; with one
    of them absent it raises [AttributeError] and sends nothing. *)
Theorem generate_image_request (cfg : Flux.FluxImageGeneratorConfig)
    (options : pydict pyval) (w : World) :
  match getattr options "model", getattr options "prompt",
        getattr options "aspect_ratio" with
  | Ok model, Ok prompt, Ok aspect_ratio =>
      snd (Flux.generate_image cfg options w) =
      add_event
        (EvPost ("https://api.bfl.ai/v1/" +:+ model_text w model)
           (VDict [("prompt", prompt); ("aspect_ratio", aspect_ratio)])) w
  | _, _, _ =>
      exists name, Flux.generate_image cfg options w = (Raises (AttributeError name), w)
  end.
Proof.
  unfold Flux.generate_image, bind, lift.
  destruct (getattr options "model") as [model|e] eqn:Hm; simpl.
  - assert (Hstr : py_str model w = (Returns (model_text w model), w))
      by (now destruct model).
    rewrite Hstr.
    destruct (getattr options "prompt") as [prompt|e] eqn:Hp; simpl.
    + destruct (getattr options "aspect_ratio") as [aspect|e] eqn:Ha; simpl.
      * unfold requests_post, bind, gets, emit, modify, ret, json, raise. simpl.
        destruct (http_post _ _ _) as [reply|]; simpl; [|reflexivity].
        destruct (status_code reply =? 429)%Z; [reflexivity|].
        destruct (status_code reply =? 402)%Z; [reflexivity|].
        destruct (body_json reply) as [body|]; simpl; [|reflexivity].
        now destruct (Flux.FluxResponse_init body cfg).
      * unfold getattr in Ha. destruct (dict_get "aspect_ratio" options); [discriminate|].
        injection Ha as <-. eauto.
    + unfold getattr in Hp. destruct (dict_get "prompt" options); [discriminate|].
      injection Hp as <-. eauto.
  - unfold getattr in Hm. destruct (dict_get "model" options); [discriminate|].
    injection Hm as <-. eauto.
Qed.

(** ** The NanoBanana client *)

(** X13.  With an aspect ratio on the options object nothing is inferred:
    the call downloads no image and leaves the heap as it found it; all
    it may emit is the one POST of the request. *)
Theorem edit_image_given_ratio (options : nat)
    (st : St Nanobanana.RunpodNanoBananaClient) (obj : pydict pyval)
    (aspect_ratio : pyval) :
  objects (world st) !! options = Some obj ->
  getattr obj "aspect_ratio" = Ok aspect_ratio ->
  is_none aspect_ratio = false ->
  Nanobanana.edit_image options st = Nanobanana.post_edit_request options st /\
  objects (world (snd (Nanobanana.edit_image options st))) = objects (world st) /\
  (trace (world (snd (Nanobanana.edit_image options st))) = trace (world st) \/
   exists prompt image_urls resolution,
     getattr obj "prompt" = Ok prompt /\
     getattr obj "image_urls" = Ok image_urls /\
     getattr obj "resolution" = Ok resolution /\
     trace (world (snd (Nanobanana.edit_image options st))) =
       trace (world st) ++
       [EvPost Nanobanana.endpoint
          (Nanobanana.request_data prompt image_urls resolution)]).
Proof.
  intros Hobj Hattr Hnone.
  pose proof (edit_image_skips_inference options st obj aspect_ratio
                Hobj Hattr Hnone) as Hsame.
  split; [exact Hsame|]. rewrite Hsame.
  unfold Nanobanana.post_edit_request, bind, in_world, getattr_ref, bind, gets,
    lift, requests_post, bind, gets, emit, modify, json, set_self, modify, ret, raise.
  simpl. rewrite Hobj. simpl.
  destruct (getattr obj "prompt") as [prompt|]; simpl; [|auto].
  rewrite Hobj. simpl.
  destruct (getattr obj "image_urls") as [image_urls|]; simpl; [|auto].
  rewrite Hobj. simpl.
  destruct (getattr obj "resolution") as [resolution|]; simpl; [|auto].
  assert (Hposted : exists p i r,
             Ok prompt = Ok p /\ Ok image_urls = Ok i /\ Ok resolution = Ok r /\
             trace (world st) ++
             [EvPost Nanobanana.endpoint
                (Nanobanana.request_data prompt image_urls resolution)] =
             trace (world st) ++
             [EvPost Nanobanana.endpoint (Nanobanana.request_data p i r)])
    by (exists prompt, image_urls, resolution; auto).
  destruct (http_post _ _ _) as [reply|]; simpl; [|auto].
  destruct (body_json reply) as [body|]; simpl; auto.
Qed.

Lemma edit_image_given_ratio_witness :
  Nanobanana.edit_image 0 ratio_given_state =
    Nanobanana.post_edit_request 0 ratio_given_state /\
  objects (world (snd (Nanobanana.edit_image 0 ratio_given_state))) =
    objects (world ratio_given_state) /\
  (trace (world (snd (Nanobanana.edit_image 0 ratio_given_state))) =
     trace (world ratio_given_state) \/
   exists prompt image_urls resolution,
     getattr ratio_given_options "prompt" = Ok prompt /\
     getattr ratio_given_options "image_urls" = Ok image_urls /\
     getattr ratio_given_options "resolution" = Ok resolution /\
     trace (world (snd (Nanobanana.edit_image 0 ratio_given_state))) =
       trace (world ratio_given_state) ++
       [EvPost Nanobanana.endpoint
          (Nanobanana.request_data prompt image_urls resolution)]).
Proof.
  apply (edit_image_given_ratio 0 ratio_given_state ratio_given_options
           (VStr "16:9")); reflexivity.
Defined.

(** X14.  No aspect ratio and no source image: the inference has nothing
    to measure, and the call raises [IndexError] before any request is
    sent, the options object untouched. *)
Theorem edit_image_without_images (options : nat)
    (st : St Nanobanana.RunpodNanoBananaClient) (obj : pydict pyval) :
  objects (world st) !! options = Some obj ->
  getattr obj "aspect_ratio" = Ok VNone ->
  getattr obj "image_urls" = Ok (VList []) ->
  Nanobanana.edit_image options st = (Raises IndexError, st).
Proof.
  intros Hobj Hattr Himages.
  unfold Nanobanana.edit_image, bind, in_world, getattr_ref, bind, gets, lift.
  simpl. rewrite Hobj, Hattr. simpl.
  unfold Nanobanana.infer_aspect_ratio, bind, lift, getattr_ref, bind, gets, lift.
  simpl. unfold ret, raise. rewrite Hobj, Himages. simpl.
  now destruct st.
Qed.

Lemma edit_image_without_images_witness :
  Nanobanana.edit_image 0 no_image_state = (Raises IndexError, no_image_state).
Proof.
  apply (edit_image_without_images 0 no_image_state
           [("prompt", VStr "make it night"); ("image_urls", VList []);
            ("resolution", VStr "1k"); ("aspect_ratio", VNone)]); reflexivity.
Defined.

(** X15.  The edit call does not look at the status of the reply: any
    JSON object is wrapped and returned.  When that object has no
    [output], the failure shows only at [url()], as [KeyError], and the
    storage is not touched. *)
Theorem edit_reply_without_output (options : nat)
    (st : St Nanobanana.RunpodNanoBananaClient) (obj : pydict pyval)
    (aspect_ratio prompt image_urls resolution : pyval)
    (reply : http_response) (d : pydict pyval) :
  objects (world st) !! options = Some obj ->
  getattr obj "aspect_ratio" = Ok aspect_ratio ->
  is_none aspect_ratio = false ->
  getattr obj "prompt" = Ok prompt ->
  getattr obj "image_urls" = Ok image_urls ->
  getattr obj "resolution" = Ok resolution ->
  http_post (outside (world st)) Nanobanana.endpoint
    (Nanobanana.request_data prompt image_urls resolution) = Some reply ->
  body_json reply = Some (VDict d) ->
  dict_get "output" d = None ->
  exists st',
    Nanobanana.edit_image options st =
      (Returns {| Nanobanana.response := VDict d |}, st') /\
    Nanobanana.url {| Nanobanana.response := VDict d |} (world st') =
      (Raises (KeyError "output"), world st').
Proof.
  intros Hobj Hattr Hnone Hp Hi Hr Hpost Hjson Hout.
  rewrite (edit_image_skips_inference options st obj aspect_ratio Hobj Hattr Hnone).
  unfold Nanobanana.post_edit_request, bind, in_world, getattr_ref, bind, gets,
    lift, requests_post, bind, gets, emit, modify, json, set_self, modify, ret, raise.
  simpl. rewrite Hobj. simpl. rewrite Hp. simpl. rewrite Hobj. simpl.
  rewrite Hi. simpl. rewrite Hobj. simpl. rewrite Hr. simpl.
  rewrite Hpost. simpl. rewrite Hjson. simpl.
  eexists. split; [reflexivity|].
  unfold Nanobanana.url, bind, lift. simpl. now rewrite Hout.
Qed.

Lemma edit_reply_without_output_witness :
  exists st',
    Nanobanana.edit_image 0 unauthorized_state =
      (Returns {| Nanobanana.response := VDict [("error", VStr "Unauthorized")] |},
       st') /\
    Nanobanana.url
      {| Nanobanana.response := VDict [("error", VStr "Unauthorized")] |}
      (world st') =
      (Raises (KeyError "output"), world st').
Proof.
  apply (edit_reply_without_output 0 unauthorized_state ratio_given_options
           (VStr "16:9") (VStr "make it night")
           (VList [VStr "https://example.org/a.png"]) (VStr "1k")
           (json_reply 401 (VDict [("error", VStr "Unauthorized")])));
    reflexivity.
Defined.

(** ** Nearest aspect ratio, further *)

Section MinLoopTotal.
Context {A : Type} (key : A -> result Utils.float).

(** The loop calls the key on every item: it returns exactly when all
    keys evaluate, and then with one of the items. *)
Lemma min_loop_returns_iff (rest : list A) :
  forall (best : A) (best_val : Utils.float),
    (exists r, Utils.min_loop key best best_val rest = Ok r) <->
    (forall x, In x rest -> exists k, key x = Ok k).
Proof.
  induction rest as [|x xs IH]; intros best best_val; simpl.
  - split; [intros _ x [] | eauto].
  - destruct (key x) as [v|e] eqn:Ev; simpl.
    + destruct (Utils.float_lt v best_val); rewrite IH; split.
      * intros H y [<-|Hy]; eauto.
      * intros H y Hy. apply H. now right.
      * intros H y [<-|Hy]; eauto.
      * intros H y Hy. apply H. now right.
    + split; [intros [r Hr]; discriminate|].
      intros H. destruct (H x (or_introl eq_refl)) as [k Hk]. congruence.
Qed.

Lemma min_loop_member (rest : list A) :
  forall (best : A) (best_val : Utils.float) (r : A),
    Utils.min_loop key best best_val rest = Ok r -> r = best \/ In r rest.
Proof.
  induction rest as [|x xs IH]; intros best best_val r; simpl.
  - intros H. injection H as <-. now left.
  - destruct (key x) as [v|e]; simpl; [|discriminate].
    destruct (Utils.float_lt v best_val); intros H; apply IH in H;
      destruct H as [->|H]; auto.
Qed.
End MinLoopTotal.

(** X16.  The selection returns a ratio exactly when the quotient [w / h]
    evaluates, the list is not empty and every ratio of the list can be
    evaluated, so one malformed entry anywhere makes the call raise; and a
    ratio it returns is always one of the list. *)
Theorem nearest_aspect_ratio_returns_iff (w h : Z) (allowed : list string) :
  ((exists r, Utils.get_nearest_aspect_ratio (w, h) allowed = Ok r) <->
   exists target,
     Utils.int_true_div w h = Ok target /\ allowed <> [] /\
     forall x, In x allowed -> exists k, Utils.ratio_key target x = Ok k) /\
  (forall r, Utils.get_nearest_aspect_ratio (w, h) allowed = Ok r -> In r allowed).
Proof.
  unfold Utils.get_nearest_aspect_ratio.
  destruct (Utils.int_true_div w h) as [target|e]; simpl.
  - destruct allowed as [|x xs]; simpl.
    + split; [|discriminate]. split; [intros [r Hr]; discriminate|].
      intros (t & _ & Hne & _). congruence.
    + destruct (Utils.ratio_key target x) as [v|e] eqn:Ev; simpl.
      * split.
        -- rewrite min_loop_returns_iff. split.
           ++ intros H. exists target. split; [reflexivity|]. split; [discriminate|].
              intros y [<-|Hy]; eauto.
           ++ intros (t & Ht & _ & H) y Hy. injection Ht as <-. apply H. now right.
        -- intros r Hr. apply min_loop_member in Hr.
           destruct Hr as [->|Hr]; [now left | now right].
      * split; [|discriminate]. split; [intros [r Hr]; discriminate|].
        intros (t & Ht & _ & H). injection Ht as <-.
        destruct (H x (or_introl eq_refl)) as [k Hk]. congruence.
  - split; [|discriminate]. split; [intros [r Hr]; discriminate|].
    intros (t & Ht & _). discriminate.
Qed.

Lemma float_sub_self (x : spec_float) :
  is_finite x = true ->
  Utils.float_abs (Utils.float_sub x x) = S754_zero false.
Proof.
  unfold Utils.float_abs, Utils.float_sub.
  destruct x as [s|s| |s m e]; try discriminate; intros _; simpl.
  - now destruct s.
  - rewrite Z.sub_diag. reflexivity.
Qed.

Lemma float_lt_zero (s : bool) (k : spec_float) :
  is_magnitude k = true -> Utils.float_lt (S754_zero s) k = false ->
  exists s', k = S754_zero s'.
Proof.
  destruct k as [s'|[|]| |[|] m e]; try discriminate; intros _ H;
    try discriminate; eauto.
Qed.

(** X17.  An exact match is found: when the size is the pair of numbers
    of one of the allowed ratios, the ratio returned is at computed
    distance zero from the size. *)
Theorem nearest_aspect_ratio_exact_match (allowed : list string) (r : string)
    (rw rh : Z) (target : Utils.float) :
  In r allowed ->
  Utils.parse_ratio r = Some (rw, rh) ->
  Utils.int_true_div rw rh = Ok target ->
  (forall x, In x allowed -> exists k, Utils.ratio_key target x = Ok k) ->
  exists r' sign,
    Utils.get_nearest_aspect_ratio (rw, rh) allowed = Ok r' /\
    In r' allowed /\
    Utils.ratio_key target r' = Ok (S754_zero sign).
Proof.
  intros Hr Hparse Htarget Hkeys.
  assert (Hfin : is_finite target = true)
    by (eapply int_true_div_finite; eassumption).
  assert (Hzero : Utils.ratio_key target r = Ok (S754_zero false)).
  { unfold Utils.ratio_key, Utils.ratio_value.
    unfold Utils.parse_ratio in Hparse.
    destruct (Utils.split_on ":" r) as [|a [|b [|c l]]]; try discriminate.
    destruct (Utils.py_int a) as [za|]; [|discriminate].
    destruct (Utils.py_int b) as [zb|]; [|discriminate].
    injection Hparse as -> ->. simpl. rewrite Htarget. simpl.
    now rewrite float_sub_self. }
  assert (Hne : allowed <> []) by (intros ->; destruct Hr).
  destruct (py_min_first_minimal (Utils.ratio_key target) allowed Hne)
    as (before & r' & after & k & Hsplit & Hmin & Hk & Hbest & _).
  { intros x Hx. destruct (Hkeys x Hx) as [kx Hkx]. exists kx. split; [assumption|].
    eapply ratio_key_magnitude; eassumption. }
  specialize (Hbest r (S754_zero false) Hr Hzero).
  apply float_lt_zero in Hbest as [sign ->];
    [|eapply ratio_key_magnitude; eassumption].
  exists r', sign. split; [|split; [|assumption]].
  - unfold Utils.get_nearest_aspect_ratio. now rewrite Htarget.
  - rewrite Hsplit. apply in_app_iff. right. now left.
Qed.

Lemma nearest_aspect_ratio_exact_match_witness :
  exists r' sign,
    Utils.get_nearest_aspect_ratio (16, 9)%Z Nanobanana.aspect_ratios = Ok r' /\
    In r' Nanobanana.aspect_ratios /\
    Utils.ratio_key (S754_finite false 8006399337547548 (-52)) r' =
      Ok (S754_zero sign).
Proof.
  apply (nearest_aspect_ratio_exact_match Nanobanana.aspect_ratios "16:9" 16 9).
  - vm_compute. tauto.
  - vm_compute. reflexivity.
  - vm_compute. reflexivity.
  - intros x Hx. simpl in Hx.
    repeat (destruct Hx as [<-|Hx]; [eexists; vm_compute; reflexivity|]).
    destruct Hx.
Defined.

(** With a quotient that evaluates and a non-empty list of ratios that
    all evaluate, the selection returns a member of the list. *)
Lemma nearest_aspect_ratio_total (w h : Z) (allowed : list string)
    (target : Utils.float) :
  Utils.int_true_div w h = Ok target ->
  allowed <> [] ->
  (forall x, In x allowed -> exists k, Utils.ratio_key target x = Ok k) ->
  exists r, Utils.get_nearest_aspect_ratio (w, h) allowed = Ok r /\ In r allowed.
Proof.
  intros Htarget Hne Hall. unfold Utils.get_nearest_aspect_ratio.
  rewrite Htarget. simpl. destruct allowed as [|x xs]; [congruence|]. simpl.
  destruct (Hall x (or_introl eq_refl)) as [v ->]. simpl.
  destruct (proj2 (min_loop_returns_iff (Utils.ratio_key target) xs x v)) as [r Hr].
  - intros y Hy. apply Hall. now right.
  - exists r. split; [assumption|].
    apply min_loop_member in Hr. destruct Hr as [->|Hr]; [now left | now right].
Qed.

(** X18.  With the backend's own list of ratios the inference never fails
    on the list: for every image size whose quotient evaluates it returns
    one of the ten ratios. *)
Theorem nanobanana_ratio_always_found (w h : Z) (target : Utils.float) :
  Utils.int_true_div w h = Ok target ->
  exists r,
    Utils.get_nearest_aspect_ratio (w, h) Nanobanana.aspect_ratios = Ok r /\
    In r Nanobanana.aspect_ratios.
Proof.
  intros Htarget.
  assert (Hall : forall x, In x Nanobanana.aspect_ratios ->
                   exists k, Utils.ratio_key target x = Ok k).
  { intros x Hx. unfold Utils.ratio_key.
    assert (Hv : exists v, Utils.ratio_value x = Ok v).
    { simpl in Hx.
      repeat (destruct Hx as [<-|Hx]; [eexists; vm_compute; reflexivity|]).
      destruct Hx. }
    destruct Hv as [v ->]. simpl. eauto. }
  apply (nearest_aspect_ratio_total w h Nanobanana.aspect_ratios target);
    [assumption | discriminate | exact Hall].
Qed.

Lemma nanobanana_ratio_always_found_witness :
  exists r,
    Utils.get_nearest_aspect_ratio (1700, 2400)%Z Nanobanana.aspect_ratios = Ok r /\
    In r Nanobanana.aspect_ratios.
Proof.
  apply (nanobanana_ratio_always_found 1700 2400
           (S754_finite false 6380099472108203 (-53))).
  vm_compute. reflexivity.
Defined.

(** ** Registration order *)

Lemma last_registered_unique (name : string) (cs : list Registery.reg_call)
    (cls : pyclass) :
  NoDup (map Registery.call_name cs) ->
  Registery.last_registered name cs = Some cls <->
  exists c, In c cs /\ Registery.call_name c = name /\ Registery.call_class c = cls.
Proof.
  induction cs as [|c cs IH]; simpl; intros Hnd.
  - split; [discriminate | intros (c & [] & _)].
  - apply NoDup_cons in Hnd as [Hc Hnd]. specialize (IH Hnd).
    destruct (Registery.last_registered name cs) as [cls'|] eqn:El.
    + split.
      * intros H. injection H as <-. destruct (proj1 IH eq_refl) as (c' & Hin & Hn & Hcl).
        exists c'. auto.
      * intros (c' & [<-|Hin] & Hn & Hcl).
        -- exfalso. apply Hc. rewrite Hn. apply list_elem_of_In.
           apply last_registered_In. eauto.
        -- apply IH. eauto.
    + destruct (String.eqb name (Registery.call_name c)) eqn:E.
      * apply String.eqb_eq in E. split.
        -- intros H. injection H as <-. exists c. auto.
        -- intros (c' & [<-|Hin] & Hn & Hcl); [congruence|].
           assert (Hsome : exists x, Registery.last_registered name cs = Some x).
           { apply last_registered_In. rewrite <- Hn. now apply in_map. }
           destruct Hsome as [x Hx]. congruence.
      * split; [discriminate|].
        intros (c' & [<-|Hin] & Hn & Hcl).
        -- rewrite Hn, String.eqb_refl in E. discriminate.
        -- assert (Hsome : exists x, Registery.last_registered name cs = Some x).
           { apply last_registered_In. rewrite <- Hn. now apply in_map. }
           destruct Hsome as [x Hx]. congruence.
Qed.

Lemma image_list_get (r : Registery.registry) (name : string) :
  NoDup (dict_keys r) ->
  dict_get name (Main.image_list r) =
  option_map
    (fun cls => {| Main.le_class := cls_module cls +:+ "." +:+ cls_name cls;
                   Main.le_generate := Main._is_overridden cls "generate_image";
                   Main.le_edit := Main._is_overridden cls "edit_image" |})
    (dict_get name r).
Proof.
  intros Hnd. unfold Main.image_list.
  rewrite dict_copy_NoDup, list_generators_map by assumption.
  apply (dict_get_map
           (fun cls => {| Main.le_class := cls_module cls +:+ "." +:+ cls_name cls;
                          Main.le_generate := Main._is_overridden cls "generate_image";
                          Main.le_edit := Main._is_overridden cls "edit_image" |})).
Qed.

(** X19.  With distinct names, the order in which the backend modules
    register does not matter to a lookup: two startups that make the same
    registrations in different orders resolve every name to the same
    class and list it with the same entry. *)
Theorem registration_order_irrelevant (cs cs' : list Registery.reg_call)
    (name : string) :
  Permutation cs cs' ->
  NoDup (map Registery.call_name cs) ->
  dict_get name (Registery.run_calls cs Registery.REGISTERED_GENERATORS_init) =
  dict_get name (Registery.run_calls cs' Registery.REGISTERED_GENERATORS_init) /\
  dict_get name
    (Main.image_list (Registery.run_calls cs Registery.REGISTERED_GENERATORS_init)) =
  dict_get name
    (Main.image_list (Registery.run_calls cs' Registery.REGISTERED_GENERATORS_init)).
Proof.
  intros Hperm Hnd.
  assert (Hnd' : NoDup (map Registery.call_name cs')).
  { assert (Hm : Permutation (map Registery.call_name cs) (map Registery.call_name cs'))
      by now apply Permutation_map.
    now rewrite <- Hm. }
  assert (Hsame : dict_get name (Registery.run_calls cs Registery.REGISTERED_GENERATORS_init) =
                  dict_get name (Registery.run_calls cs' Registery.REGISTERED_GENERATORS_init)).
  { rewrite !run_calls_get. simpl.
    assert (Hl : Registery.last_registered name cs = Registery.last_registered name cs').
    { destruct (Registery.last_registered name cs) as [cls|] eqn:E.
      - symmetry. apply last_registered_unique; [assumption|].
        apply last_registered_unique in E as (c & Hin & Hn & Hc); [|assumption].
        exists c. split; [|auto]. eapply Permutation_in; eassumption.
      - destruct (Registery.last_registered name cs') as [cls|] eqn:E'; [|reflexivity].
        apply last_registered_unique in E' as (c & Hin & Hn & Hc); [|assumption].
        assert (Hsome : Registery.last_registered name cs = Some cls).
        { apply last_registered_unique; [assumption|]. exists c. split; [|auto].
          eapply Permutation_in; [symmetry|]; eassumption. }
        congruence. }
    rewrite Hl. reflexivity. }
  split; [exact Hsame|].
  rewrite !image_list_get by (apply run_calls_NoDup; constructor).
  now rewrite Hsame.
Qed.

(** The theorem at the two backends, imported in the other order. *)
Lemma registration_order_irrelevant_witness :
  dict_get "flux" (Registery.run_calls startup_calls Registery.REGISTERED_GENERATORS_init) =
  dict_get "flux" (Registery.run_calls (rev startup_calls) Registery.REGISTERED_GENERATORS_init) /\
  dict_get "flux"
    (Main.image_list (Registery.run_calls startup_calls Registery.REGISTERED_GENERATORS_init)) =
  dict_get "flux"
    (Main.image_list (Registery.run_calls (rev startup_calls) Registery.REGISTERED_GENERATORS_init)).
Proof.
  apply (registration_order_irrelevant startup_calls (rev startup_calls) "flux").
  - apply Permutation_rev.
  - apply nodup_strings_NoDup. reflexivity.
Defined.

(** ** [get_ratio] and the reader of ratios *)

Lemma digits_value_acc (d : uint) (acc : positive) :
  Utils.digits_value (Zpos acc) true (NilEmpty.string_of_uint d) =
  Some (Zpos (Pos.of_uint_acc d acc)).
Proof.
  revert acc.
  induction d as [|d IH|d IH|d IH|d IH|d IH|d IH|d IH|d IH|d IH|d IH];
    intros acc; [reflexivity|..];
    cbn [NilEmpty.string_of_uint Utils.digits_value Pos.of_uint_acc];
    (progress (change (Utils.digit_of "0") with (Some 0%Z))) ||
    (progress (change (Utils.digit_of "1") with (Some 1%Z))) ||
    (progress (change (Utils.digit_of "2") with (Some 2%Z))) ||
    (progress (change (Utils.digit_of "3") with (Some 3%Z))) ||
    (progress (change (Utils.digit_of "4") with (Some 4%Z))) ||
    (progress (change (Utils.digit_of "5") with (Some 5%Z))) ||
    (progress (change (Utils.digit_of "6") with (Some 6%Z))) ||
    (progress (change (Utils.digit_of "7") with (Some 7%Z))) ||
    (progress (change (Utils.digit_of "8") with (Some 8%Z))) ||
    (progress (change (Utils.digit_of "9") with (Some 9%Z)));
    cbv beta iota; rewrite <- IH; f_equal; lia.
Qed.

Lemma digits_value_uint (d : uint) (prev : bool) :
  d <> Nil \/ prev = true ->
  Utils.digits_value 0 prev (NilEmpty.string_of_uint d) =
  Some (Z.of_N (Pos.of_uint d)).
Proof.
  revert prev.
  induction d as [|d IH|d IH|d IH|d IH|d IH|d IH|d IH|d IH|d IH|d IH];
    intros prev Hd.
  - destruct Hd as [Hd| ->]; [congruence | reflexivity].
  - cbn [NilEmpty.string_of_uint Utils.digits_value Pos.of_uint].
    (progress (change (Utils.digit_of "0") with (Some 0%Z))). cbv beta iota.
    apply (IH true). now right.
  - apply (digits_value_acc d 1).
  - apply (digits_value_acc d 2).
  - apply (digits_value_acc d 3).
  - apply (digits_value_acc d 4).
  - apply (digits_value_acc d 5).
  - apply (digits_value_acc d 6).
  - apply (digits_value_acc d 7).
  - apply (digits_value_acc d 8).
  - apply (digits_value_acc d 9).
Qed.

Lemma drop_trailing_uint (d : uint) :
  Utils.drop_trailing Utils.int_space (NilEmpty.string_of_uint d) =
  NilEmpty.string_of_uint d.
Proof.
  induction d; [reflexivity|..];
    cbn [NilEmpty.string_of_uint Utils.drop_trailing Utils.all_of];
    change (Utils.int_space _) with false; cbv beta iota;
    cbn [andb]; now f_equal.
Qed.

Lemma int_strip_uint (d : uint) :
  Utils.int_strip (NilEmpty.string_of_uint d) = NilEmpty.string_of_uint d.
Proof.
  unfold Utils.int_strip.
  assert (Hl : Utils.drop_leading Utils.int_space (NilEmpty.string_of_uint d) =
               NilEmpty.string_of_uint d)
    by (destruct d; reflexivity).
  rewrite Hl. apply drop_trailing_uint.
Qed.

Lemma split_on_nonempty (sep : ascii) (s : string) : Utils.split_on sep s <> [].
Proof.
  destruct s as [|c s]; simpl; [discriminate|].
  destruct (Ascii.eqb c sep); [discriminate|].
  destruct (Utils.split_on sep s); discriminate.
Qed.

Lemma split_on_append (sep : ascii) (a b : string) :
  Utils.split_on sep a = [a] ->
  Utils.split_on sep (a +:+ String sep b) = a :: Utils.split_on sep b.
Proof.
  induction a as [|c a IH]; simpl; intros Ha.
  - now rewrite Ascii.eqb_refl.
  - destruct (Ascii.eqb c sep); [discriminate|].
    destruct (Utils.split_on sep a) as [|piece pieces] eqn:E.
    + now apply split_on_nonempty in E.
    + injection Ha as -> ->. now rewrite IH.
Qed.

Lemma split_on_uint (d : uint) :
  Utils.split_on ":" (NilEmpty.string_of_uint d) = [NilEmpty.string_of_uint d].
Proof.
  induction d; [reflexivity|..];
    cbn [NilEmpty.string_of_uint Utils.split_on];
    change (Ascii.eqb _ ":"%char) with false; cbv beta iota;
    now rewrite IHd.
Qed.

Lemma string_of_uint_nonnil (d : uint) :
  d <> Nil -> NilZero.string_of_uint d = NilEmpty.string_of_uint d.
Proof. destruct d; [congruence | reflexivity..]. Qed.

Lemma numeral_span_uint (d : uint) :
  Utils.numeral_span (NilEmpty.string_of_uint d) =
  (NilEmpty.string_of_uint d, "").
Proof.
  induction d; [reflexivity|..];
    cbn [NilEmpty.string_of_uint Utils.numeral_span];
    rewrite IHd; reflexivity.
Qed.

Lemma count_digits_uint (d : uint) :
  Utils.count_digits (NilEmpty.string_of_uint d) = nb_digits d.
Proof.
  induction d; [reflexivity|..];
    cbn [NilEmpty.string_of_uint Utils.count_digits nb_digits];
    rewrite <- IHd; reflexivity.
Qed.

(** The rendering of an integer: its digits, a minus sign before them
    when it is negative. *)
Lemma string_of_int_digits (z : Z) :
  exists d, d <> Nil /\
    NilZero.string_of_int (Z.to_int z) =
      (if (z <? 0)%Z then String "-" (NilEmpty.string_of_uint d)
       else NilEmpty.string_of_uint d) /\
    Z.of_N (Pos.of_uint d) = Z.abs z /\
    Utils.digits z = nb_digits d.
Proof.
  pose proof (DecimalZ.of_to z) as Hz. unfold Utils.digits.
  destruct z as [|p|p].
  - exists (D0 Nil). repeat split. discriminate.
  - exists (Pos.to_uint p).
    unfold Z.to_int, Z.of_int, Z.of_uint in *.
    cbn [NilZero.string_of_int Z.ltb Z.compare Z.abs].
    rewrite string_of_uint_nonnil by apply DecimalPos.Unsigned.to_uint_nonnil.
    repeat split; [apply DecimalPos.Unsigned.to_uint_nonnil | exact Hz |].
    apply count_digits_uint.
  - exists (Pos.to_uint p).
    unfold Z.to_int, Z.of_int, Z.of_uint in *.
    cbn [NilZero.string_of_int Z.ltb Z.compare Z.abs].
    rewrite string_of_uint_nonnil by apply DecimalPos.Unsigned.to_uint_nonnil.
    repeat split; [apply DecimalPos.Unsigned.to_uint_nonnil | lia |].
    cbn [Utils.count_digits]. change (Utils.digit_of "-") with (@None Z).
    cbv beta iota. apply count_digits_uint.
Qed.

Lemma split_on_rendered (z : Z) :
  Utils.split_on ":" (NilZero.string_of_int (Z.to_int z)) =
  [NilZero.string_of_int (Z.to_int z)].
Proof.
  destruct (string_of_int_digits z) as (d & _ & -> & _).
  destruct (z <? 0)%Z; [|apply split_on_uint].
  cbn [Utils.split_on]. change (Ascii.eqb "-" ":") with false.
  cbv beta iota. now rewrite split_on_uint.
Qed.

(** [int] reads back what [str] wrote. *)
Lemma py_int_rendered (z : Z) :
  Utils.digits z <= Utils.max_str_digits ->
  Utils.py_int (NilZero.string_of_int (Z.to_int z)) = Ok z.
Proof.
  intros Hlimit.
  destruct (string_of_int_digits z) as (d & Hd & -> & Hvalue & Hcount).
  rewrite Hcount in Hlimit. apply Nat.ltb_ge in Hlimit.
  pose proof (digits_value_uint d false (or_introl Hd)) as Hdigits.
  rewrite Hvalue in Hdigits.
  unfold Utils.py_int.
  destruct (z <? 0)%Z eqn:Hneg.
  - assert (Hstrip : Utils.int_strip (String "-" (NilEmpty.string_of_uint d)) =
                     String "-" (NilEmpty.string_of_uint d)).
    { unfold Utils.int_strip. cbn [Utils.drop_leading].
      change (Utils.int_space "-") with false. cbv beta iota.
      cbn [Utils.drop_trailing Utils.all_of].
      change (Utils.int_space "-") with false. cbn [andb]. cbv beta iota.
      now rewrite drop_trailing_uint. }
    rewrite Hstrip. cbv beta iota zeta.
    rewrite numeral_span_uint, Hdigits, count_digits_uint, Hlimit.
    f_equal. apply Z.ltb_lt in Hneg. lia.
  - rewrite int_strip_uint.
    assert (Hsign : (let '(negative, unsigned) :=
                       match NilEmpty.string_of_uint d with
                       | String "-"%char rest => (true, rest)
                       | String "+"%char rest => (false, rest)
                       | _ => (false, NilEmpty.string_of_uint d)
                       end in (negative, unsigned)) =
                    (false, NilEmpty.string_of_uint d))
      by (destruct d; reflexivity).
    destruct (match NilEmpty.string_of_uint d with
              | String "-"%char rest => (true, rest)
              | String "+"%char rest => (false, rest)
              | _ => (false, NilEmpty.string_of_uint d)
              end) as [negative unsigned].
    injection Hsign as -> ->.
    rewrite numeral_span_uint, Hdigits, count_digits_uint, Hlimit.
    f_equal. apply Z.ltb_ge in Hneg. lia.
Qed.

(** ** The size of a rendering *)

Lemma of_uint_acc_lower (d : uint) (acc : positive) :
  (Z.pos acc * 10 ^ Z.of_nat (nb_digits d) <= Z.pos (Pos.of_uint_acc d acc))%Z.
Proof.
  revert acc. induction d; intros acc;
    cbn [nb_digits Pos.of_uint_acc]; [rewrite Z.pow_0_r; lia|..];
    rewrite Nat2Z.inj_succ, Z.pow_succ_r by lia;
    (etransitivity; [|apply IHd]);
    assert (0 < 10 ^ Z.of_nat (nb_digits d))%Z by (apply Z.pow_pos_nonneg; lia);
    nia.
Qed.

Lemma nzhead_not_D0 (u l : uint) : nzhead u <> D0 l.
Proof. induction u; simpl; try discriminate. exact IHu. Qed.

Lemma to_uint_digits_bound (p : positive) (k : nat) :
  (Z.pos p < 10 ^ Z.of_nat k)%Z -> nb_digits (Pos.to_uint p) <= k.
Proof.
  intros Hp.
  pose proof (DecimalPos.Unsigned.of_to p) as Hof.
  assert (Hnorm : unorm (Pos.to_uint p) = Pos.to_uint p).
  { rewrite <- DecimalPos.Unsigned.to_of, Hof. reflexivity. }
  pose proof (DecimalPos.Unsigned.to_uint_nonzero p) as Hnz.
  destruct (le_lt_dec (nb_digits (Pos.to_uint p)) k) as [Hle|Hgt];
    [exact Hle | exfalso].
  assert (Hlow : forall l acc, nb_digits (Pos.to_uint p) = S (nb_digits l) ->
             p = Pos.of_uint_acc l acc -> False).
  { intros l acc Hnb ->. pose proof (of_uint_acc_lower l acc) as Hl.
    assert (Hk : (10 ^ Z.of_nat k <= 10 ^ Z.of_nat (nb_digits l))%Z)
      by (apply Z.pow_le_mono_r; lia).
    assert (0 < 10 ^ Z.of_nat (nb_digits l))%Z by (apply Z.pow_pos_nonneg; lia).
    nia. }
  destruct (Pos.to_uint p) as [|l|l|l|l|l|l|l|l|l|l] eqn:E;
    cbn [nb_digits] in *; [lia| |..];
    try (cbn [Pos.of_uint] in Hof; injection Hof as Hof;
         eapply Hlow; [reflexivity | symmetry; exact Hof]).
  unfold unorm in Hnorm. cbn [nzhead] in Hnorm.
  destruct (nzhead l) as [|u|u|u|u|u|u|u|u|u|u] eqn:En;
    try (pose proof (nzhead_not_D0 l l) as Hbad; rewrite En in Hbad;
         congruence).
Qed.

(** A number below [10 ^ k] is written with [k] digits at most. *)
Lemma digits_bound (z : Z) (k : nat) :
  (Z.abs z < 10 ^ Z.of_nat k)%Z -> 0 < k -> Utils.digits z <= k.
Proof.
  intros Hz Hk. unfold Utils.digits.
  destruct z as [|p|p]; [exact Hk|..];
    unfold Z.to_int, NilZero.string_of_int;
    rewrite string_of_uint_nonnil by apply DecimalPos.Unsigned.to_uint_nonnil.
  - rewrite count_digits_uint. now apply to_uint_digits_bound.
  - cbn [Utils.count_digits]. change (Utils.digit_of "-") with (@None Z).
    cbv beta iota. rewrite count_digits_uint. now apply to_uint_digits_bound.
Qed.

(** The sides of the ratio are no longer than those of the image. *)
Lemma div_gcd_bound (w h : Z) :
  (Z.abs (w / Z.gcd w h) <= Z.abs w)%Z.
Proof.
  destruct (Z.eq_dec (Z.gcd w h) 0%Z) as [E|E].
  - rewrite E, Z.div_0_r. simpl. lia.
  - destruct (Z.gcd_divide_l w h) as [a Ha].
    pose proof (Z.gcd_nonneg w h) as Hg.
    assert (Hq : (w / Z.gcd w h = a)%Z).
    { rewrite Ha at 1. now apply Z.div_mul. }
    rewrite Hq. rewrite Ha at 1. rewrite Z.abs_mul. nia.
Qed.

Lemma get_ratio_empty_image :
  Utils.get_ratio (VImage 0 0) = Raise ZeroDivisionError.
Proof. reflexivity. Qed.

(** A side of 4301 digits is in lowest terms a number that [str] refuses
    to write: the ratio of such an image is the [ValueError] of [str]. *)
Example get_ratio_beyond_digit_limit :
  Utils.get_ratio (VImage (10 ^ 4300) 1) =
  Raise (ValueError "Exceeds the limit (4300 digits) for integer string conversion; use sys.set_int_max_str_digits() to increase the limit").
Proof. vm_compute. reflexivity. Qed.

(** X20.  The ratio of an image that is not empty, and whose sides are
    numbers that [str] agrees to write, is written in lowest terms and in
    the image's proportion, and the reader of the allowed ratios takes it
    back: ["w:h"] splits into two numbers that [int] reads as written, so
    [ratio_value] divides exactly these two. *)
Theorem get_ratio_reads_back (w h : Z) :
  w <> 0%Z \/ h <> 0%Z ->
  (Z.abs w < 10 ^ Z.of_nat Utils.max_str_digits)%Z ->
  (Z.abs h < 10 ^ Z.of_nat Utils.max_str_digits)%Z ->
  exists (r : string) (rw rh : Z),
    Utils.get_ratio (VImage w h) = Ok r /\
    Utils.parse_ratio r = Some (rw, rh) /\
    Utils.ratio_value r = Utils.int_true_div rw rh /\
    Z.gcd rw rh = 1%Z /\
    (rw * h = rh * w)%Z.
Proof.
  intros Hnz Hw Hh. remember (Z.gcd w h) as g eqn:Eg.
  assert (Hg : g <> 0%Z).
  { rewrite Eg. intros H0. apply Z.gcd_eq_0 in H0. lia. }
  assert (Hdw : Utils.digits (w / g) <= Utils.max_str_digits).
  { apply digits_bound; [|unfold Utils.max_str_digits; lia].
    pose proof (div_gcd_bound w h) as Hb. rewrite <- Eg in Hb. lia. }
  assert (Hdh : Utils.digits (h / g) <= Utils.max_str_digits).
  { apply digits_bound; [|unfold Utils.max_str_digits; lia].
    pose proof (div_gcd_bound h w) as Hb. rewrite (Z.gcd_comm h w), <- Eg in Hb.
    lia. }
  set (width := NilZero.string_of_int (Z.to_int (w / g))).
  set (height := NilZero.string_of_int (Z.to_int (h / g))).
  exists (width +:+ ":" +:+ height), (w / g)%Z, (h / g)%Z.
  assert (Hsplit : Utils.split_on ":" (width +:+ ":" +:+ height) = [width; height]).
  { change (":" +:+ height) with (String ":" height).
    rewrite split_on_append by apply split_on_rendered.
    unfold height. now rewrite split_on_rendered. }
  repeat split.
  - unfold Utils.get_ratio, Utils.floor_div, Utils.str_int. rewrite <- Eg.
    apply Z.eqb_neq in Hg. rewrite Hg. simpl.
    apply Nat.ltb_ge in Hdw, Hdh. now rewrite Hdw, Hdh.
  - unfold Utils.parse_ratio. rewrite Hsplit. unfold width, height.
    now rewrite !py_int_rendered.
  - unfold Utils.ratio_value. rewrite Hsplit. unfold width, height.
    now rewrite !py_int_rendered.
  - now apply Z.gcd_div_gcd.
  - destruct (Z.gcd_divide_l w h) as [a Ha], (Z.gcd_divide_r w h) as [b Hb].
    rewrite <- Eg in Ha, Hb.
    assert (Hwa : (w / g = a)%Z) by (rewrite Ha; now apply Z.div_mul).
    assert (Hhb : (h / g = b)%Z) by (rewrite Hb; now apply Z.div_mul).
    rewrite Hwa, Hhb, Ha, Hb. ring.
Qed.

(** The theorem at a 1920 by 1080 image. *)
Lemma get_ratio_reads_back_witness :
  exists (r : string) (rw rh : Z),
    Utils.get_ratio (VImage 1920 1080) = Ok r /\
    Utils.parse_ratio r = Some (rw, rh) /\
    Utils.ratio_value r = Utils.int_true_div rw rh /\
    Z.gcd rw rh = 1%Z /\
    (rw * 1080 = rh * 1920)%Z.
Proof.
  apply (get_ratio_reads_back 1920 1080).
  - left. discriminate.
  - vm_compute. reflexivity.
  - vm_compute. reflexivity.
Defined.
